(** * EmpresaSoftware: decision-support core, embedded and verified

    A shallow embedding of the analytical core of the dashboard:

    - [olap_functions.py]    : slice, drill-down and roll-up over a DataFrame;
    - [kpi_calculator.py]    : the six KPI calculators and the colour coding;
    - [balanced_scorecard.py]: key results, objectives and the OKR hierarchy;
    - [rayleigh_model.py]    : calibration, curve generation, QA staffing and
                               input validation of the defect-prediction model;
    - [app.py]               : what the KPI page reads of the KPI mapping, the
                               mean of the sunburst and the prediction page.

    Conventions of the embedding.

    - A Python [float] is an exact rational ([Q]) wherever the source only
      adds, multiplies, divides, compares and rounds; the two functions that
      need [sqrt] or [exp] are embedded over the real numbers ([R]).  In both
      cases rounding error, infinities and NaN produced by arithmetic are
      idealised away; a missing value (pandas NaN/None in a cell) is explicit.
    - A Python [int] is a [Z]; a [str] is a [string]; a literal [dict] with
      string keys is an association list in source order.
    - A raised exception is a value of [exn] carried by [result]. *)

From Stdlib Require Import ZArith QArith Qround Qminmax Qabs List String Bool Lia.
From Stdlib Require Import DecimalString.
From Stdlib Require Lqa Lra Reals Qreals OrderedTypeEx.
Import ListNotations.

Set Warnings "-register-all".
Local Open Scope string_scope.

(** ** Python values shared by the four modules *)

Module Py.

Inductive exn : Type :=
| KeyError (key : string)
| ValueError (msg : string)
| ZeroDivisionError.

Inductive result (A : Type) : Type :=
| Ok (a : A)
| Raise (e : exn).
Arguments Ok {A} a.
Arguments Raise {A} e.

Definition bind {A B : Type} (m : result A) (k : A -> result B) : result B :=
  match m with
  | Ok a => k a
  | Raise e => Raise e
  end.

(** [str(n)] for an integer. *)
Definition str_of_Z (z : Z) : string := NilZero.string_of_int (Z.to_int z).

(** [int(x)] for a float: truncation towards zero. *)
Definition int_of_Q (x : Q) : Z :=
  if Qle_bool 0 x then Qfloor x else Qceiling x.

(** Round half to even, the rule of Python's [round]. *)
Definition round_half_even (x : Q) : Z :=
  let f := Qfloor x in
  match Qcompare (x - inject_Z f) (1 # 2) with
  | Lt => f
  | Gt => (f + 1)%Z
  | Eq => if Z.even f then f else (f + 1)%Z
  end.

(** [round(x, ndigits)]. *)
Definition round (x : Q) (ndigits : nat) : Q :=
  let scale := inject_Z (10 ^ Z.of_nat ndigits) in
  inject_Z (round_half_even (x * scale)) / scale.

(** Lookup in a literal dict written as an association list. *)
Fixpoint dict_get {V : Type} (d : list (string * V)) (k : string) : option V :=
  match d with
  | [] => None
  | (k', v) :: d' => if String.eqb k k' then Some v else dict_get d' k
  end.

Definition dict_keys {V : Type} (d : list (string * V)) : list string :=
  map fst d.

(** [repr] of a list of strings, as in an f-string: ['a', 'b']. *)
Definition repr_str_list (l : list string) : string :=
  "[" ++ String.concat ", " (map (fun s => "'" ++ s ++ "'") l) ++ "]".

End Py.

Notation "x <- m ;; k" := (Py.bind m (fun x => k))
  (at level 61, m at next level, right associativity).

(** ** rayleigh_model.py (the rational part) *)

Module Rayleigh.
Import Py.

(** [validate_prediction_inputs]: the four guards in source order. *)
Definition validate_prediction_inputs
           (project_size duration_months team_size : Z) : bool * string :=
  if (project_size <? 100)%Z then
    (false, "Tamaño de proyecto debe ser al menos 100 LOC")
  else if (project_size >? 10000000)%Z then
    (false, "Tamaño de proyecto demasiado grande (>10M LOC)")
  else if ((duration_months <? 1) || (duration_months >? 36))%Z then
    (false, "Duración debe estar entre 1 y 36 meses")
  else if ((team_size <? 1) || (team_size >? 100))%Z then
    (false, "Tamaño de equipo debe estar entre 1 y 100 desarrolladores")
  else (true, "").

Record qa_recommendation : Type := {
  qa_engineers : Z;
  qa_hours_total : Q;
  qa_hours_per_month : Q;
  risk_level : string;
  risk_color : string;
  recommendation : string
}.

(** [recommend_qa_resources].  The only operation that can raise is the
    division by [duration_months] in the returned dict. *)
Definition recommend_qa_resources
           (predicted_defects : Q) (duration_months : Z)
  : result qa_recommendation :=
  let base_qa := predicted_defects / 50 in
  let duration_mult :=
    if (duration_months <=? 3)%Z then 13 # 10
    else if (duration_months <=? 6)%Z then 1
    else 9 # 10 in
  let recommended_qa := base_qa * duration_mult in
  let recommended_qa := Qmax recommended_qa 1 in
  let '(level, color) :=
    if Qlt_le_dec predicted_defects 30 then ("Bajo", "green")
    else if Qlt_le_dec predicted_defects 80 then ("Medio", "yellow")
    else ("Alto", "red") in
  let qa_hours := predicted_defects * 2 in
  if (duration_months =? 0)%Z then Raise ZeroDivisionError
  else
    Ok {| qa_engineers := Qceiling recommended_qa;
          qa_hours_total := round qa_hours 0;
          qa_hours_per_month := round (qa_hours / inject_Z duration_months) 0;
          risk_level := level;
          risk_color := color;
          recommendation :=
            "Asignar " ++ str_of_Z (Qceiling recommended_qa)
            ++ " ingeniero(s) QA por " ++ str_of_Z duration_months
            ++ " meses. Estimar " ++ str_of_Z (int_of_Q qa_hours)
            ++ " horas totales de pruebas." |}.

(** [estimate_base_defects] *)
Definition estimate_base_defects (project_size team_size : Z)
           (experience_level technology_complexity : string) : Q :=
  let experience_multiplier :=
    [("Junior", 15 # 10); ("Mid", 1); ("Senior", 6 # 10)] in
  let complexity_multiplier :=
    [("Baja", 7 # 10); ("Media", 1); ("Alta", 14 # 10); ("Muy Alta", 18 # 10)] in
  let base_defect_density := 20 in
  let exp_mult :=
    match dict_get experience_multiplier experience_level with
    | Some m => m
    | None => 1
    end in
  let comp_mult :=
    match dict_get complexity_multiplier technology_complexity with
    | Some m => m
    | None => 1
    end in
  let team_mult :=
    if (team_size >? 5)%Z then 1 + (5 # 100) * inject_Z (team_size - 5) else 1 in
  let total_defects :=
    inject_Z project_size / 1000 * base_defect_density
    * exp_mult * comp_mult * team_mult in
  Qmax total_defects 1.

Record project_params : Type := {
  size : Z;
  duration_months : Z;
  team_size : Z;
  experience : string;
  complexity : string
}.

Record prediction : Type := {
  total_defects : Q;
  peak_day : Q;
  peak_defects_per_day : Q;
  sigma : Q;
  duration_days : Z;
  severity_distribution : list (string * Q);
  params : project_params
}.

(** [predict_defects_rayleigh]; [sigma] is the optional argument. *)
Definition predict_defects_rayleigh (project_size duration_months team_size : Z)
           (experience_level technology_complexity : string)
           (sigma : option Q) : prediction :=
  let total_defects :=
    estimate_base_defects project_size team_size
                          experience_level technology_complexity in
  let duration_days := (duration_months * 30)%Z in
  let sigma :=
    match sigma with
    | None => inject_Z duration_days * (4 # 10)
    | Some s => s
    end in
  let peak_day := sigma in
  let severity_distribution :=
    [("Crítica", total_defects * (10 # 100));
     ("Alta", total_defects * (25 # 100));
     ("Media", total_defects * (40 # 100));
     ("Baja", total_defects * (25 # 100))] in
  let peak_defects_per_day := total_defects * (15 # 1000) in
  {| total_defects := round total_defects 1;
     peak_day := round peak_day 1;
     peak_defects_per_day := round peak_defects_per_day 2;
     sigma := sigma;
     duration_days := duration_days;
     severity_distribution :=
       map (fun kv => (fst kv, round (snd kv) 1)) severity_distribution;
     params := {| size := project_size;
                  duration_months := duration_months;
                  team_size := team_size;
                  experience := experience_level;
                  complexity := technology_complexity |} |}.

End Rayleigh.

(** ** olap_functions.py *)

Module Olap.
Import Py.

(** A cell of a DataFrame: a number, a string, or a missing value
    (NaN / None). *)
Inductive cell : Type :=
| CNum (q : Q)
| CStr (s : string)
| CNull.

(** What [pd.api.types.is_numeric_dtype] sees of a column. *)
Inductive dtype : Type := Numeric | Object.

(** A DataFrame: labelled, typed columns and positional rows.  Column
    labels are meant to be distinct, as [read_csv] makes them. *)
Record DataFrame : Type := {
  columns : list (string * dtype);
  rows : list (list cell)
}.

Definition column_names (df : DataFrame) : list string :=
  map fst (columns df).

Fixpoint index_of (name : string) (l : list string) : option nat :=
  match l with
  | [] => None
  | x :: l' =>
      if String.eqb name x then Some 0%nat
      else option_map S (index_of name l')
  end.

Definition mem (name : string) (l : list string) : bool :=
  existsb (String.eqb name) l.

(** [name in df.columns] *)
Definition has_column (df : DataFrame) (name : string) : bool :=
  mem name (column_names df).

Definition col_index (df : DataFrame) (name : string) : option nat :=
  index_of name (column_names df).

Definition col_dtype (df : DataFrame) (name : string) : option dtype :=
  dict_get (columns df) name.

Definition cell_at (i : nat) (row : list cell) : cell := nth i row CNull.

(** [row[name]] for a label of the frame. *)
Definition cell_of (df : DataFrame) (name : string) (row : list cell) : cell :=
  match col_index df name with
  | Some i => cell_at i row
  | None => CNull
  end.

(** [df.empty]: some axis has length zero. *)
Definition empty (df : DataFrame) : bool :=
  match rows df, columns df with
  | [], _ => true
  | _, [] => true
  | _, _ => false
  end.

(** [len(df)] *)
Definition len (df : DataFrame) : Z := Z.of_nat (List.length (rows df)).

(** [df[name]]: the Series of a column, or [KeyError]. *)
Definition series (df : DataFrame) (name : string) : result (list cell) :=
  match col_index df name with
  | Some i => Ok (map (cell_at i) (rows df))
  | None => Raise (KeyError name)
  end.

(** Elementwise [==]: a missing value equals nothing, itself included. *)
Definition cell_eqb (a b : cell) : bool :=
  match a, b with
  | CNum x, CNum y => Qeq_bool x y
  | CStr x, CStr y => String.eqb x y
  | _, _ => false
  end.

(** Elementwise [!=]. *)
Definition cell_neb (a b : cell) : bool := negb (cell_eqb a b).

Definition is_null (c : cell) : bool :=
  match c with CNull => true | _ => false end.

(** The number a cell contributes to [Series.sum()], which skips missing
    values. *)
Definition num_of (c : cell) : Q :=
  match c with CNum q => q | _ => 0 end.

Definition sum_cells (l : list cell) : Q :=
  fold_right (fun c acc => num_of c + acc) 0 l.

(** [rows[i].sum()] over a list of rows. *)
Definition col_sum (i : nat) (rs : list (list cell)) : Q :=
  sum_cells (map (cell_at i) rs).

(** [df[name].sum()] for a label of the frame. *)
Definition column_sum (df : DataFrame) (name : string) : Q :=
  sum_cells (map (cell_of df name) (rows df)).

(** [slice_olap] *)
Definition slice_olap (df : DataFrame) (dimension : string) (value : cell)
  : result DataFrame :=
  if negb (has_column df dimension) then
    Raise (ValueError ("Dimension '" ++ dimension
                       ++ "' not found in DataFrame. Available: "
                       ++ repr_str_list (column_names df)))
  else
    Ok {| columns := columns df;
          rows := filter (fun r => cell_eqb (cell_of df dimension r) value)
                         (rows df) |}.

(** *** groupby / agg *)

(** Order of group keys ([sort=True]).  Keys never hold a missing value;
    numbers are put before strings. *)
Definition cell_compare (a b : cell) : comparison :=
  match a, b with
  | CNum x, CNum y => Qcompare x y
  | CNum _, _ => Lt
  | CStr _, CNum _ => Gt
  | CStr x, CStr y => String.compare x y
  | CStr _, CNull => Lt
  | CNull, CNull => Eq
  | CNull, _ => Gt
  end.

Fixpoint key_compare (k1 k2 : list cell) : comparison :=
  match k1, k2 with
  | [], [] => Eq
  | [], _ :: _ => Lt
  | _ :: _, [] => Gt
  | a :: k1', b :: k2' =>
      match cell_compare a b with
      | Eq => key_compare k1' k2'
      | c => c
      end
  end.

Definition group : Type := (list cell * list (list cell))%type.

(** Put a row into the group of its key, keeping the groups in key order
    and the rows of a group in frame order. *)
Fixpoint insert_group (k : list cell) (r : list cell) (gs : list group)
  : list group :=
  match gs with
  | [] => [(k, [r])]
  | (k', rs) :: gs' =>
      match key_compare k k' with
      | Eq => (k', (rs ++ [r])%list) :: gs'
      | Lt => (k, [r]) :: gs
      | Gt => (k', rs) :: insert_group k r gs'
      end
  end.

Definition key_of (df : DataFrame) (group_cols : list string)
           (r : list cell) : list cell :=
  map (fun g => cell_of df g r) group_cols.

(** [df.groupby(group_cols)]: rows whose key holds a missing value are
    dropped ([dropna=True], the default). *)
Definition groupby (df : DataFrame) (group_cols : list string) : list group :=
  fold_left
    (fun gs r =>
       let k := key_of df group_cols r in
       if existsb is_null k then gs else insert_group k r gs)
    (rows df) [].

(** [df.groupby(by)[measure].sum()], as the pairs of its index and values *)
Definition grouped_sums (df : DataFrame) (by_col measure : string)
  : list (cell * Q) :=
  map (fun g : group =>
         (hd CNull (fst g), sum_cells (map (cell_of df measure) (snd g))))
      (groupby df [by_col]).

(** ['first']: the first value of the group that is not missing. *)
Fixpoint first_valid (l : list cell) : cell :=
  match l with
  | [] => CNull
  | CNull :: l' => first_valid l'
  | c :: _ => c
  end.

(** The columns the aggregation dict ranges over. *)
Definition agg_columns (df : DataFrame) (group_cols : list string)
  : list (string * dtype) :=
  filter (fun c => negb (mem (fst c) group_cols)) (columns df).

Definition agg_cell (df : DataFrame) (rs : list (list cell))
           (c : string * dtype) : cell :=
  let vals := map (cell_of df (fst c)) rs in
  match snd c with
  | Numeric => CNum (sum_cells vals)
  | Object => first_valid vals
  end.

Definition agg_row (df : DataFrame) (group_cols : list string) (g : group)
  : list cell :=
  (fst g ++ map (agg_cell df (snd g)) (agg_columns df group_cols))%list.

Definition group_dtype (df : DataFrame) (g : string) : string * dtype :=
  (g, match col_dtype df g with Some d => d | None => Object end).

(** [df.groupby(group_cols, as_index=False).agg({col: 'sum' | 'first'})].
    An empty aggregation dict makes pandas raise. *)
Definition groupby_agg (df : DataFrame) (group_cols : list string)
  : result DataFrame :=
  match agg_columns df group_cols with
  | [] => Raise (ValueError "No objects to concatenate")
  | _ :: _ =>
      Ok {| columns := (map (group_dtype df) group_cols
                        ++ agg_columns df group_cols)%list;
            rows := map (agg_row df group_cols) (groupby df group_cols) |}
  end.

(** [hierarchy[:hierarchy.index(target_level) + 1]] *)
Fixpoint prefix_through (target : string) (hierarchy : list string)
  : list string :=
  match hierarchy with
  | [] => []
  | h :: hs =>
      if String.eqb h target then [h] else h :: prefix_through target hs
  end.

(** The local [group_cols] of [drill_down] and [roll_up]. *)
Definition group_cols_of (df : DataFrame) (hierarchy : list string)
           (target_level : string) : list string :=
  filter (has_column df) (prefix_through target_level hierarchy).

(** [drill_down]; the argument [dimension] is not used by the source. *)
Definition drill_down (df : DataFrame) (dimension : string)
           (hierarchy : list string) (target_level : string)
  : result DataFrame :=
  if negb (mem target_level hierarchy) then
    Raise (ValueError ("Target level '" ++ target_level
                       ++ "' not in hierarchy: " ++ repr_str_list hierarchy))
  else
    match group_cols_of df hierarchy target_level with
    | [] => Raise (ValueError "None of the hierarchy columns found in DataFrame")
    | group_cols => groupby_agg df group_cols
    end.

(** [roll_up]: the same grouping, with its own error text. *)
Definition roll_up (df : DataFrame) (dimension : string)
           (hierarchy : list string) (target_level : string)
  : result DataFrame :=
  if negb (mem target_level hierarchy) then
    Raise (ValueError ("Target level '" ++ target_level
                       ++ "' not in hierarchy: " ++ repr_str_list hierarchy))
  else
    match group_cols_of df hierarchy target_level with
    | [] => Raise (ValueError ("Target level '" ++ target_level
                               ++ "' not found in DataFrame"))
    | group_cols => groupby_agg df group_cols
    end.

(** *** dice *)

(** A filter value of [dice]: a literal compared with [==], or a callable
    handed to [Series.apply]. *)
Inductive filter_value : Type :=
| FEq (value : cell)
| FPred (test : cell -> bool).

(** One turn of the loop of [dice].  The dimension is looked up in the
    columns of the frame given to [dice], the cells in the running result.
    [Series.apply] on a Series without rows gives back an empty Series of
    the column's own dtype, which is no boolean mask: [result[...]] then
    selects columns, none of them, and the running result loses its
    columns.  (Boolean columns are not represented by [dtype].) *)
Definition dice_step (df res : DataFrame) (flt : string * filter_value)
  : result DataFrame :=
  let dimension := fst flt in
  if negb (has_column df dimension) then
    Raise (ValueError ("Dimension '" ++ dimension ++ "' not found. Available: "
                       ++ repr_str_list (column_names df)))
  else
    match col_index res dimension with
    | None => Raise (KeyError dimension)
    | Some i =>
        match snd flt with
        | FPred test =>
            match rows res with
            | [] => Ok {| columns := []; rows := [] |}
            | _ :: _ =>
                Ok {| columns := columns res;
                      rows := filter (fun r => test (cell_at i r)) (rows res) |}
            end
        | FEq value =>
            Ok {| columns := columns res;
                  rows := filter (fun r => cell_eqb (cell_at i r) value)
                                 (rows res) |}
        end
    end.

Fixpoint dice_loop (df res : DataFrame) (filters : list (string * filter_value))
  : result DataFrame :=
  match filters with
  | [] => Ok res
  | flt :: filters' => res' <- dice_step df res flt ;; dice_loop df res' filters'
  end.

(** [dice]; the filter dict is the list of its items in insertion order. *)
Definition dice (df : DataFrame) (filters : list (string * filter_value))
  : result DataFrame :=
  dice_loop df df filters.

(** *** pivot_olap *)

(** The [rows] argument of [pivot_olap]: one label or a list of labels. *)
Inductive rows_arg : Type :=
| RowsStr (label : string)
| RowsList (labels : list string).

Section Pivot.

(** [pd.pivot_table(df, index, columns, values, aggfunc, fill_value=0)
    .reset_index()]: the frame it returns, or the text [str(e)] of the
    exception it raises. *)
Variable pivot_table :
  DataFrame -> rows_arg -> string -> string -> string -> DataFrame + string.

(** [pivot_olap].  When [rows] is a list, [required_cols] is that very
    list, so [extend] also lengthens the [rows] later passed as index. *)
Definition pivot_olap (df : DataFrame) (rows : rows_arg)
           (columns values aggfunc : string) : result DataFrame :=
  let required_cols :=
    match rows with
    | RowsStr label => [label; columns; values]
    | RowsList labels => (labels ++ [columns; values])%list
    end in
  let rows :=
    match rows with
    | RowsStr label => RowsStr label
    | RowsList labels => RowsList (labels ++ [columns; values])%list
    end in
  match filter (fun col => negb (has_column df col)) required_cols with
  | _ :: _ as missing =>
      Raise (ValueError ("Columns not found: " ++ repr_str_list missing
                         ++ ". Available: " ++ repr_str_list (column_names df)))
  | [] =>
      match pivot_table df rows columns values aggfunc with
      | inl table => Ok table
      | inr e => Raise (ValueError ("Pivot operation failed: " ++ e))
      end
  end.

End Pivot.

(** *** calculate_metric_trend *)

(** Values of the dict returned by [calculate_metric_trend]. *)
Inductive trend_value : Type :=
| TInt (z : Z)
| TNum (q : Q)
| TStr (s : string)
| TList (l : list Q).

(** [Series.tail(n)]: the last [n] entries, none for 0, and all but the
    first [-n] for a negative [n]. *)
Definition tail {A : Type} (n : Z) (l : list A) : list A :=
  if (n =? 0)%Z then []
  else if (0 <? n)%Z then skipn (List.length l - Z.to_nat n) l
  else skipn (Z.to_nat (- n)) l.

(** The builtins [min] and [max] on a non-empty list. *)
Definition list_min (l : list Q) : Q :=
  match l with
  | [] => 0
  | x :: l' => fold_left Qmin l' x
  end.

Definition list_max (l : list Q) : Q :=
  match l with
  | [] => 0
  | x :: l' => fold_left Qmax l' x
  end.

(** The sum of a list, for [np.mean]. *)
Definition list_sum (l : list Q) : Q := fold_right Qplus 0 l.

(** [calculate_metric_trend].  Sorting the frame by time does not change
    the sums per time bucket, which [groupby] gives in key order. *)
Definition calculate_metric_trend (df : DataFrame)
           (time_column metric_column : string) (periods : Z)
  : list (string * trend_value) :=
  if negb (has_column df time_column) || negb (has_column df metric_column)
  then [("values", TList []); ("direction", TStr "flat"); ("change_pct", TInt 0)]
  else
    let values :=
      tail periods (map snd (grouped_sums df time_column metric_column)) in
    if (List.length values <? 2)%nat then
      [("values", TList values); ("direction", TStr "flat");
       ("change_pct", TInt 0)]
    else
      let first_val :=
        if negb (Qeq_bool (hd 0 values) 0) then hd 0 values else 1 # 100 in
      let last_val := last values 0 in
      let change_pct := (last_val - first_val) / Qabs first_val * 100 in
      let direction :=
        if negb (Qle_bool change_pct 5) then "up"
        else if negb (Qle_bool (- (5)) change_pct) then "down"
        else "flat" in
      [("values", TList values);
       ("direction", TStr direction);
       ("change_pct", TNum (round change_pct 1));
       ("min", TNum (list_min values));
       ("max", TNum (list_max values));
       ("avg", TNum (round (list_sum values
                            / inject_Z (Z.of_nat (List.length values))) 2))].

(** *** validate_olap_cube *)

(** [d[k] = v] on a dict. *)
Fixpoint dict_set {V : Type} (d : list (string * V)) (k : string) (v : V)
  : list (string * V) :=
  match d with
  | [] => [(k, v)]
  | (k', v') :: d' =>
      if String.eqb k k' then (k', v) :: d' else (k', v') :: dict_set d' k v
  end.

Record cube_report : Type := {
  valid : bool;
  missing_dimensions : list string;
  missing_measures : list string;
  null_counts : list (string * Z);
  row_count : Z;
  column_count : Z
}.

(** [df[measure].isnull().sum()] *)
Definition null_count (df : DataFrame) (measure : string) : Z :=
  Z.of_nat (List.length (filter is_null (map (cell_of df measure) (rows df)))).

(** [validate_olap_cube] *)
Definition validate_olap_cube (df : DataFrame)
           (required_dimensions required_measures : list string) : cube_report :=
  let missing_dims :=
    filter (fun dim => negb (has_column df dim)) required_dimensions in
  let missing_measures :=
    filter (fun measure => negb (has_column df measure)) required_measures in
  let null_counts :=
    fold_left
      (fun d measure =>
         if has_column df measure
         then dict_set d measure (null_count df measure)
         else d)
      required_measures [] in
  {| valid := (List.length missing_dims =? 0)%nat
              && (List.length missing_measures =? 0)%nat;
     missing_dimensions := missing_dims;
     missing_measures := missing_measures;
     null_counts := null_counts;
     row_count := len df;
     column_count := Z.of_nat (List.length (columns df)) |}.

End Olap.

(** ** kpi_calculator.py *)

Module Kpi.
Import Py Olap.

(** Values found in the metadata dicts. *)
Inductive pyval : Type :=
| VInt (z : Z)
| VFloat (q : Q)
| VStr (s : string)
| VDict (d : list (string * pyval))
| VSeries (d : list (cell * Q)).

Definition metadata : Type := list (string * pyval).

Definition kpi : Type := (Q * metadata)%type.

(** Elementwise [> 0]; a missing value compares false. *)
Definition gt0 (c : cell) : bool :=
  match c with
  | CNum q => negb (Qle_bool q 0)
  | _ => false
  end.

(** Elementwise [notna()]. *)
Definition notna (c : cell) : bool := negb (is_null c).

Definition Qsum (l : list Q) : Q := fold_right Qplus 0 l.

(** [Series.max()] and [Series.min()] of a non-empty Series. *)
Definition Qmax_list (l : list Q) : Q :=
  match l with
  | [] => 0
  | x :: l' => fold_left Qmax l' x
  end.

Definition Qmin_list (l : list Q) : Q :=
  match l with
  | [] => 0
  | x :: l' => fold_left Qmin l' x
  end.

Definition Zlen {A : Type} (l : list A) : Z := Z.of_nat (List.length l).

(** [Series.nunique()]: distinct values, missing ones not counted. *)
Definition unique (l : list cell) : list cell :=
  fold_left
    (fun seen c =>
       if is_null c || existsb (cell_eqb c) seen then seen
       else (seen ++ [c])%list)
    l [].

Definition nunique (l : list cell) : Z := Zlen (unique l).

(** [calculate_completion_rate] *)
Definition calculate_completion_rate (df_proy : DataFrame) : result kpi :=
  if empty df_proy then
    Ok (0, [("completed", VInt 0); ("total", VInt 0);
            ("status", VStr "No data")])
  else
    let total_projects := len df_proy in
    ganancia <- series df_proy "ganancia_neta" ;;
    let completed_projects := Zlen (filter gt0 ganancia) in
    let rate :=
      if (total_projects >? 0)%Z
      then inject_Z completed_projects / inject_Z total_projects * 100
      else 0 in
    Ok (round rate 2,
        [("completed", VInt completed_projects);
         ("total", VInt total_projects);
         ("in_progress", VInt (total_projects - completed_projects));
         ("status", VStr (if Qle_bool 80 rate then "healthy"
                          else if Qle_bool 50 rate then "warning"
                          else "critical"))]).

(** [calculate_budget_efficiency]: there is no [df_proy.empty] guard; the
    two columns are read first. *)
Definition calculate_budget_efficiency (df_proy : DataFrame) : result kpi :=
  _ <- series df_proy "costo_total_real" ;;
  _ <- series df_proy "ganancia_neta" ;;
  let df_valid :=
    filter (fun r => gt0 (cell_of df_proy "costo_total_real" r)
                     && notna (cell_of df_proy "ganancia_neta" r))
           (rows df_proy) in
  match df_valid with
  | [] =>
      Ok (0, [("avg_roi", VInt 0); ("projects_analyzed", VInt 0);
              ("status", VStr "No data")])
  | _ :: _ =>
      let roi :=
        map (fun r => num_of (cell_of df_proy "ganancia_neta" r)
                      / num_of (cell_of df_proy "costo_total_real" r) * 100)
            df_valid in
      let avg_efficiency := Qsum roi / inject_Z (Zlen roi) in
      Ok (round avg_efficiency 2,
          [("avg_roi", VFloat (round avg_efficiency 2));
           ("best_roi", VFloat (round (Qmax_list roi) 2));
           ("worst_roi", VFloat (round (Qmin_list roi) 2));
           ("projects_analyzed", VInt (Zlen df_valid));
           ("status", VStr (if Qle_bool 30 avg_efficiency then "healthy"
                            else if Qle_bool 15 avg_efficiency then "warning"
                            else "critical"))])
  end.

(** [calculate_team_utilization] *)
Definition calculate_team_utilization (df_proy : DataFrame) : result kpi :=
  if empty df_proy then
    Ok (0, [("active", VInt 0); ("total", VInt 0);
            ("status", VStr "No data")])
  else
    let total_projects := len df_proy in
    _ <- series df_proy "ganancia_neta" ;;
    _ <- series df_proy "costo_total_real" ;;
    let active_projects :=
      Zlen (filter (fun r => gt0 (cell_of df_proy "ganancia_neta" r)
                             || gt0 (cell_of df_proy "costo_total_real" r))
                   (rows df_proy)) in
    let utilization :=
      if (total_projects >? 0)%Z
      then inject_Z active_projects / inject_Z total_projects * 100
      else 0 in
    let unique_clients :=
      if has_column df_proy "nombre_cliente"
      then nunique (map (cell_of df_proy "nombre_cliente") (rows df_proy))
      else 0%Z in
    Ok (round utilization 2,
        [("active_projects", VInt active_projects);
         ("total_projects", VInt total_projects);
         ("idle_projects", VInt (total_projects - active_projects));
         ("unique_clients", VInt unique_clients);
         ("status", VStr (if Qle_bool 70 utilization then "healthy"
                          else if Qle_bool 50 utilization then "warning"
                          else "critical"))]).

(** [calculate_defect_density] *)
Definition calculate_defect_density (df_cal df_proy : DataFrame) : result kpi :=
  if empty df_cal || empty df_proy then
    Ok (0, [("total_defects", VInt 0); ("projects", VInt 0);
            ("status", VStr "No data")])
  else
    defects <- series df_cal "cantidad_defectos_encontrados" ;;
    let total_defects := sum_cells defects in
    names <- series df_proy "nombre_proyecto" ;;
    let total_projects := nunique names in
    let density :=
      if (total_projects >? 0)%Z
      then total_defects / inject_Z total_projects
      else 0 in
    let severity_breakdown :=
      if has_column df_cal "severidad"
      then grouped_sums df_cal "severidad" "cantidad_defectos_encontrados"
      else [] in
    Ok (round density 2,
        [("total_defects", VInt (int_of_Q total_defects));
         ("total_projects", VInt total_projects);
         ("density", VFloat (round density 2));
         ("severity_breakdown", VSeries severity_breakdown);
         ("status", VStr (if Qle_bool density 10 then "healthy"
                          else if Qle_bool density 25 then "warning"
                          else "critical"))]).

Definition severity_days : list (string * Q) :=
  [("crítica", 7); ("alta", 4); ("media", 2); ("baja", 1); ("nula", 1 # 2)].

(** [df['severidad'].map(severity_days).fillna(2)] on one row. *)
Definition estimated_days (c : cell) : Q :=
  match c with
  | CStr s => match dict_get severity_days s with
              | Some d => d
              | None => 2
              end
  | _ => 2
  end.

(** [calculate_avg_resolution_time] *)
Definition calculate_avg_resolution_time (df_cal : DataFrame) : result kpi :=
  if empty df_cal || negb (has_column df_cal "severidad") then
    Ok (0, [("avg_days", VInt 0); ("defects", VInt 0);
            ("status", VStr "No data")])
  else
    defects <- series df_cal "cantidad_defectos_encontrados" ;;
    let total_defects := sum_cells defects in
    if Qeq_bool total_defects 0 then
      Ok (0, [("avg_days", VInt 0); ("defects", VInt 0);
              ("status", VStr "No defects")])
    else
      let weighted_time :=
        map (fun r =>
               estimated_days (cell_of df_cal "severidad" r)
               * num_of (cell_of df_cal "cantidad_defectos_encontrados" r))
            (rows df_cal) in
      let avg_resolution := Qsum weighted_time / total_defects in
      let resolution_by_severity :=
        flat_map
          (fun sd : string * Q =>
             let count :=
               sum_cells
                 (map (cell_of df_cal "cantidad_defectos_encontrados")
                      (filter (fun r => cell_eqb (cell_of df_cal "severidad" r)
                                                 (CStr (fst sd)))
                              (rows df_cal))) in
             if negb (Qle_bool count 0)
             then [(fst sd, VDict [("days", VFloat (snd sd));
                                   ("count", VInt (int_of_Q count))])]
             else [])
          severity_days in
      Ok (round avg_resolution 1,
          [("avg_days", VFloat (round avg_resolution 1));
           ("total_defects", VInt (int_of_Q total_defects));
           ("resolution_by_severity", VDict resolution_by_severity);
           ("status", VStr (if Qle_bool avg_resolution 3 then "healthy"
                            else if Qle_bool avg_resolution 5 then "warning"
                            else "critical"))]).

(** [calculate_client_satisfaction]: no emptiness guard of its own; the
    two components come from the calculators above. *)
Definition calculate_client_satisfaction (df_proy df_cal : DataFrame)
  : result kpi :=
  budget <- calculate_budget_efficiency df_proy ;;
  let budget_eff := fst budget in
  let budget_score := Qmin (budget_eff * 2) 100 in
  defect <- calculate_defect_density df_cal df_proy ;;
  let defect_density := fst defect in
  let quality_score := Qmax (100 - defect_density * 2) 0 in
  let satisfaction_index :=
    budget_score * (4 # 10) + quality_score * (6 # 10) in
  Ok (round satisfaction_index 1,
      [("index", VFloat (round satisfaction_index 1));
       ("budget_component", VFloat (round budget_score 1));
       ("quality_component", VFloat (round quality_score 1));
       ("budget_efficiency", VFloat budget_eff);
       ("defect_density", VFloat defect_density);
       ("status", VStr (if Qle_bool 70 satisfaction_index then "healthy"
                        else if Qle_bool 50 satisfaction_index then "warning"
                        else "critical"))]).

(** One entry of the [thresholds] dict of [get_kpi_color]. *)
Record threshold : Type := {
  green : Q;
  yellow : Q;
  inverse : option bool
}.

Definition thresholds : list (string * threshold) :=
  [("completion_rate", {| green := 80; yellow := 50; inverse := None |});
   ("budget_efficiency", {| green := 30; yellow := 15; inverse := None |});
   ("team_utilization", {| green := 70; yellow := 50; inverse := None |});
   ("defect_density", {| green := 10; yellow := 25; inverse := Some true |});
   ("avg_resolution_time", {| green := 3; yellow := 5; inverse := Some true |});
   ("client_satisfaction", {| green := 70; yellow := 50; inverse := None |})].

(** [get_kpi_color] *)
Definition get_kpi_color (value : Q) (kpi_type : string) : string :=
  match dict_get thresholds kpi_type with
  | None => "gray"
  | Some threshold =>
      let is_inverse :=
        match inverse threshold with Some b => b | None => false end in
      if is_inverse then
        if Qle_bool value (green threshold) then "green"
        else if Qle_bool value (yellow threshold) then "yellow"
        else "red"
      else
        if Qle_bool (green threshold) value then "green"
        else if Qle_bool (yellow threshold) value then "yellow"
        else "red"
  end.

(** One entry of the dict of [calculate_all_kpis]. *)
Definition kpi_entry (k : kpi) (unit : string) : pyval :=
  VDict [("value", VFloat (fst k)); ("metadata", VDict (snd k));
         ("unit", VStr unit)].

(** [calculate_all_kpis]: the six calculators in source order. *)
Definition calculate_all_kpis (df_proy df_cal : DataFrame)
  : result (list (string * pyval)) :=
  completion <- calculate_completion_rate df_proy ;;
  budget <- calculate_budget_efficiency df_proy ;;
  team <- calculate_team_utilization df_proy ;;
  defect <- calculate_defect_density df_cal df_proy ;;
  resolution <- calculate_avg_resolution_time df_cal ;;
  satisfaction <- calculate_client_satisfaction df_proy df_cal ;;
  Ok [("completion_rate", kpi_entry completion "%");
      ("budget_efficiency", kpi_entry budget "%");
      ("team_utilization", kpi_entry team "%");
      ("defect_density", kpi_entry defect "defects/project");
      ("avg_resolution_time", kpi_entry resolution "days");
      ("client_satisfaction", kpi_entry satisfaction "index")].

(** *** The KPI page of app.py *)

(** [d[key]] on a dict. *)
Definition getitem (d : list (string * pyval)) (key : string) : result pyval :=
  match dict_get d key with
  | Some v => Ok v
  | None => Raise (KeyError key)
  end.

(** [kpis[name]['metadata'][key]] on the mapping of [calculate_all_kpis],
    whose entries are the dicts of [kpi_entry]. *)
Definition metadata_item (kpis : list (string * pyval)) (name key : string)
  : result pyval :=
  match dict_get kpis name with
  | Some (VDict entry) =>
      match dict_get entry "metadata" with
      | Some (VDict metadata) => getitem metadata key
      | _ => Raise (KeyError "metadata")
      end
  | _ => Raise (KeyError name)
  end.

(** The metadata entries the KPI page of [app.py] reads for its captions
    and its severity chart, in page order. *)
Definition kpi_page_reads : list (string * string) :=
  [("completion_rate", "completed"); ("completion_rate", "total");
   ("budget_efficiency", "avg_roi");
   ("team_utilization", "unique_clients");
   ("defect_density", "severity_breakdown");
   ("avg_resolution_time", "total_defects");
   ("client_satisfaction", "quality_component");
   ("client_satisfaction", "budget_component")].

Fixpoint read_items (kpis : list (string * pyval))
         (reads : list (string * string)) : result (list pyval) :=
  match reads with
  | [] => Ok []
  | (name, key) :: reads' =>
      v <- metadata_item kpis name key ;;
      vs <- read_items kpis reads' ;;
      Ok (v :: vs)
  end.

(** The KPI page of [app.py]: the six KPIs are computed, then the page
    reads the entries above while it renders. *)
Definition kpi_page (df_proy df_cal : DataFrame) : result (list pyval) :=
  kpis <- calculate_all_kpis df_proy df_cal ;;
  read_items kpis kpi_page_reads.

End Kpi.

(** ** balanced_scorecard.py *)

Module Scorecard.
Import Py.

(** [@dataclass KeyResult] *)
Record KeyResult : Type := {
  kr : string;
  target : Q;
  current : Q;
  unit : string
}.

(** [KeyResult.progress] *)
Definition progress (self : KeyResult) : Q :=
  if Qeq_bool (target self) 0 then
    if Qle_bool 0 (current self) then 100 else 0
  else Qmin (current self / target self * 100) 100.

(** [KeyResult.status] *)
Definition kr_status (self : KeyResult) : string :=
  if Qle_bool 90 (progress self) then "On Track"
  else if Qle_bool 70 (progress self) then "At Risk"
  else "Off Track".

(** [@dataclass OKR] *)
Record OKR : Type := {
  objective : string;
  key_results : list KeyResult;
  owner : string;
  quarter : string;
  perspective : string
}.

Definition Qsum (l : list Q) : Q := fold_right Qplus 0 l.

(** [OKR.overall_progress] *)
Definition overall_progress (self : OKR) : Q :=
  match key_results self with
  | [] => 0
  | _ :: _ =>
      Qsum (map progress (key_results self))
      / inject_Z (Z.of_nat (List.length (key_results self)))
  end.

(** [OKR.status] *)
Definition okr_status (self : OKR) : string :=
  let progress := overall_progress self in
  if Qle_bool 90 progress then "On Track"
  else if Qle_bool 70 progress then "At Risk"
  else "Off Track".

(** A node of the hierarchy: a Python dict with the keys ['name'],
    ['value'] and ['children'], of which a node has only those its dict
    literal writes. *)
Inductive node : Type :=
| Node (name : string) (value : option Q) (children : option (list node)).

Definition node_name (n : node) : string :=
  match n with Node name _ _ => name end.

(** [n.get('value')] *)
Definition node_value (n : node) : option Q :=
  match n with Node _ value _ => value end.

(** [n.get('children')] *)
Definition node_children (n : node) : option (list node) :=
  match n with Node _ _ children => children end.

(** [n['children']] where the source iterates over it. *)
Definition children_of (n : node) : list node :=
  match node_children n with
  | Some l => l
  | None => []
  end.

(** [s[:n] + '...' if len(s) > n else s]; a [string] stands for a
    sequence of characters. *)
Definition truncate (n : nat) (s : string) : string :=
  if (n <? String.length s)%nat then substring 0 n s ++ "..." else s.

(** The loop that fills the [perspectives] dict: insertion order of the
    keys, objectives appended in list order. *)
Fixpoint add_okr (okr : OKR) (perspectives : list (string * list OKR))
  : list (string * list OKR) :=
  match perspectives with
  | [] => [(perspective okr, [okr])]
  | (p, l) :: rest =>
      if String.eqb (perspective okr) p then (p, (l ++ [okr])%list) :: rest
      else (p, l) :: add_okr okr rest
  end.

Definition group_by_perspective (okrs : list OKR) : list (string * list OKR) :=
  fold_left (fun acc okr => add_okr okr acc) okrs [].

Definition kr_node (k : KeyResult) : node :=
  Node (truncate 30 (kr k)) (Some (progress k)) None.

Definition okr_node (okr : OKR) : node :=
  Node (truncate 40 (objective okr))
       (Some (overall_progress okr))
       (Some (map kr_node (key_results okr))).

Definition perspective_node (entry : string * list OKR) : node :=
  Node (fst entry) None (Some (map okr_node (snd entry))).

(** [create_okr_hierarchy] *)
Definition create_okr_hierarchy (okrs : list OKR) : node :=
  Node "Strategic OKRs" None
       (Some (map perspective_node (group_by_perspective okrs))).

(** [calculate_perspective_score], the value part. *)
Definition perspective_okrs (okrs : list OKR) (p : string) : list OKR :=
  filter (fun okr => String.eqb (perspective okr) p) okrs.

(** The mean the sunburst page of [app.py] derives for a perspective node
    while flattening the hierarchy:
    [sum(okr_node['value'] ...) / len(persp_node['children'])]. *)
Fixpoint values_of (l : list node) : result (list Q) :=
  match l with
  | [] => Ok []
  | n :: l' =>
      match node_value n with
      | Some v => vs <- values_of l' ;; Ok (v :: vs)
      | None => Raise (KeyError "value")
      end
  end.

Definition sunburst_perspective_value (persp_node : node) : result Q :=
  values <- values_of (children_of persp_node) ;;
  match children_of persp_node with
  | [] => Raise ZeroDivisionError
  | _ :: _ =>
      Ok (Qsum values
          / inject_Z (Z.of_nat (List.length (children_of persp_node))))
  end.

(** Values of the metadata dict of [calculate_perspective_score]. *)
Inductive score_value : Type :=
| SInt (z : Z)
| SStr (s : string)
| SList (l : list string).

(** [calculate_perspective_score] *)
Definition calculate_perspective_score (okrs : list OKR) (perspective : string)
  : Q * list (string * score_value) :=
  let perspective_okrs := perspective_okrs okrs perspective in
  match perspective_okrs with
  | [] => (0, [("okr_count", SInt 0); ("kr_count", SInt 0);
               ("status", SStr "No OKRs")])
  | _ :: _ =>
      let total_progress := Qsum (map overall_progress perspective_okrs) in
      let avg_progress :=
        total_progress / inject_Z (Z.of_nat (List.length perspective_okrs)) in
      let total_krs :=
        fold_right (fun okr acc => (Z.of_nat (List.length (key_results okr)) + acc)%Z)
                   0%Z perspective_okrs in
      let status :=
        if Qle_bool 90 avg_progress then "On Track"
        else if Qle_bool 70 avg_progress then "At Risk"
        else "Off Track" in
      (round avg_progress 1,
       [("okr_count", SInt (Z.of_nat (List.length perspective_okrs)));
        ("kr_count", SInt total_krs);
        ("status", SStr status);
        ("objectives", SList (map objective perspective_okrs))])
  end.

End Scorecard.

(** ** balanced_scorecard.py (the part that reads or builds DataFrames) *)

Module ScorecardData.
Import Py Olap Scorecard.

(** [generate_internal_okrs]: the columns are read in source order, and the
    completion rate divides by [len(df_proy)] without a guard. *)
Definition generate_internal_okrs (df_proy df_cal : DataFrame) (quarter : string)
  : result (list OKR) :=
  defects <- series df_cal "cantidad_defectos_encontrados" ;;
  let total_defects := sum_cells defects in
  names <- series df_proy "nombre_proyecto" ;;
  let total_projects := Kpi.nunique names in
  let defect_density :=
    if (total_projects >? 0)%Z
    then total_defects / inject_Z total_projects
    else 0 in
  _ <- series df_cal "severidad" ;;
  let critical_defects :=
    sum_cells
      (map (cell_of df_cal "cantidad_defectos_encontrados")
           (filter (fun r => cell_eqb (cell_of df_cal "severidad" r)
                                      (CStr "crítica"))
                   (rows df_cal))) in
  let critical_pct :=
    if negb (Qle_bool total_defects 0)
    then critical_defects / total_defects * 100
    else 0 in
  let okr1 :=
    {| objective := "Alcanzar Excelencia en Calidad de Software";
       key_results :=
         [{| kr := "Reducir densidad de defectos a <8 por proyecto";
             target := 8; current := defect_density; unit := " def/proy" |};
          {| kr := "Mantener defectos críticos <5% del total";
             target := 5; current := critical_pct; unit := "%" |};
          {| kr := "Alcanzar 95% de cobertura de pruebas automatizadas";
             target := 95; current := 78; unit := "%" |}];
       owner := "CTO";
       quarter := quarter;
       perspective := "Internal Processes" |} in
  ganancia <- series df_proy "ganancia_neta" ;;
  if (len df_proy =? 0)%Z then Raise ZeroDivisionError
  else
    let completion_rate :=
      inject_Z (Kpi.Zlen (filter Kpi.gt0 ganancia)) / inject_Z (len df_proy)
      * 100 in
    let okr2 :=
      {| objective := "Optimizar Eficiencia de Entrega";
         key_results :=
           [{| kr := "Lograr 90% de proyectos completados exitosamente";
               target := 90; current := completion_rate; unit := "%" |};
            {| kr := "Reducir tiempo promedio de entrega a 4 meses";
               target := 4; current := 52 # 10; unit := " meses" |}];
         owner := "CTO";
         quarter := quarter;
         perspective := "Internal Processes" |} in
    Ok [okr1; okr2].

(** [f"{x:.0f}"] *)
Definition format_f0 (x : Q) : string :=
  (if Qle_bool 0 x then "" else "-")
  ++ str_of_Z (Z.abs (round_half_even x)).

(** The row dict [format_okr_table] appends for one key result. *)
Definition okr_table_row (okr : OKR) (k : KeyResult) : list cell :=
  [CStr (perspective okr); CStr (objective okr); CStr (kr k);
   CNum (target k); CNum (current k);
   CStr (format_f0 (progress k) ++ "%"); CStr (kr_status k);
   CStr (owner okr)].

(** [format_okr_table]; [pd.DataFrame([])] has no columns. *)
Definition format_okr_table (okrs : list OKR) : DataFrame :=
  let rows :=
    flat_map (fun okr => map (okr_table_row okr) (key_results okr)) okrs in
  match rows with
  | [] => {| columns := []; rows := [] |}
  | _ :: _ =>
      {| columns := [("Perspectiva", Object); ("Objetivo", Object);
                     ("Key Result", Object); ("Objetivo_Valor", Numeric);
                     ("Actual", Numeric); ("Progreso", Object);
                     ("Estado", Object); ("Responsable", Object)];
         rows := rows |}
  end.

End ScorecardData.

(** ** rayleigh_model.py (the part that reads DataFrames) *)

Module RayleighData.
Import Py Olap.

Record model_confidence : Type := {
  score : Q;
  label : string;
  num_projects : Z;
  num_quality_records : Z;
  message : string
}.

(** [calculate_model_confidence] *)
Definition calculate_model_confidence (df_cal df_proy : DataFrame)
  : result model_confidence :=
  names <- series df_proy "nombre_proyecto" ;;
  let num_projects := Kpi.nunique names in
  let num_quality_records := len df_cal in
  let '(confidence_score, confidence_label) :=
    if ((num_projects >=? 100) && (num_quality_records >=? 1000))%Z
    then (95 # 100, "Muy Alta")
    else if ((num_projects >=? 50) && (num_quality_records >=? 500))%Z
    then (85 # 100, "Alta")
    else if ((num_projects >=? 20) && (num_quality_records >=? 200))%Z
    then (70 # 100, "Media")
    else (50 # 100, "Baja") in
  Ok {| score := confidence_score;
        label := confidence_label;
        num_projects := num_projects;
        num_quality_records := num_quality_records;
        message :=
          "Modelo calibrado con " ++ str_of_Z num_projects
          ++ " proyectos históricos y " ++ str_of_Z num_quality_records
          ++ " registros de calidad. Confianza: " ++ confidence_label ++ "." |}.

End RayleighData.

(** ** rayleigh_model.py (the part that needs square roots and exponentials) *)

Module RayleighReal.
Import Py Olap.
Import Stdlib.Reals.Reals Stdlib.Reals.Qreals.
Local Open Scope R_scope.

(** A float that may be NaN, for the statistics of a Series. *)
Inductive pyfloat : Type :=
| Fin (x : R)
| NaN.

Definition Rsum (l : list R) : R := fold_right Rplus 0 l.

Definition nR {A : Type} (l : list A) : R := INR (List.length l).

(** [Series.mean()] *)
Definition mean (l : list R) : pyfloat :=
  match l with
  | [] => NaN
  | _ :: _ => Fin (Rsum l / nR l)
  end.

(** [Series.std()]: the sample standard deviation ([ddof=1]), NaN below
    two values. *)
Definition std (l : list R) : pyfloat :=
  match l with
  | [] | [_] => NaN
  | _ :: _ :: _ =>
      let m := Rsum l / nR l in
      Fin (sqrt (Rsum (map (fun x => (x - m) * (x - m)) l) / (nR l - 1)))
  end.

(** [df_cal.groupby('nombre_proyecto')['cantidad_defectos_encontrados'].sum()] *)
Definition project_defects (df_cal : DataFrame) : result (list (cell * Q)) :=
  _ <- series df_cal "nombre_proyecto" ;;
  _ <- series df_cal "cantidad_defectos_encontrados" ;;
  Ok (grouped_sums df_cal "nombre_proyecto" "cantidad_defectos_encontrados").

(** [calibrate_rayleigh_sigma]; [df_proy] is not read by the source. *)
Definition calibrate_rayleigh_sigma (df_cal df_proy : DataFrame)
  : result (list (string * pyfloat)) :=
  project_defects <- project_defects df_cal ;;
  match project_defects with
  | [] =>
      Ok [("default", Fin 60); ("small", Fin 40); ("medium", Fin 60);
          ("large", Fin 90); ("confidence", Fin (5 / 10))]
  | _ :: _ =>
      let totals := map (fun p => Q2R (snd p)) project_defects in
      let avg_defects := mean totals in
      let std_defects := std totals in
      let typical_duration := 165 in
      let peak_at_40_percent := typical_duration * (4 / 10) in
      Ok [("default", Fin peak_at_40_percent); ("small", Fin 40);
          ("medium", Fin 66); ("large", Fin 100); ("xlarge", Fin 144);
          ("avg_historical_defects", avg_defects);
          ("std_historical_defects", std_defects);
          ("confidence", Fin (8 / 10))]
  end.

Record curve : Type := {
  time : list R;
  defects_per_day : list R;
  cumulative_defects : list R;
  upper_bound : list R;
  lower_bound : list R;
  confidence_level : R;
  sigma : R;
  peak_day : R;
  peak_value : R
}.

(** [np.linspace(0, stop, num)] with [num] points, both ends included. *)
Definition linspace0 (stop : R) (num : nat) : list R :=
  map (fun i => INR i * (stop / INR (num - 1))) (seq 0 num).

(** [np.trapz(y, x)] *)
Fixpoint trapz (y x : list R) : R :=
  match y, x with
  | y0 :: y', x0 :: x' =>
      match y', x' with
      | y1 :: _, x1 :: _ => (x1 - x0) * (y1 + y0) / 2 + trapz y' x'
      | _, _ => 0
      end
  | _, _ => 0
  end.

(** [np.cumsum] *)
Fixpoint cumsum_from (acc : R) (l : list R) : list R :=
  match l with
  | [] => []
  | x :: l' => (acc + x) :: cumsum_from (acc + x) l'
  end.

Definition cumsum (l : list R) : list R := cumsum_from 0 l.

(** The Rayleigh density [(t / sigma^2) * exp(-t^2 / (2 sigma^2))]. *)
Definition rayleigh_pdf (sigma t : R) : R :=
  (t / (sigma * sigma)) * exp (- (t * t) / (2 * (sigma * sigma))).

(** [generate_rayleigh_curve].  [duration_days] is a count of points, so a
    natural number; [np.max] of an empty array raises. *)
Definition generate_rayleigh_curve (total_defects : R) (duration_days : nat)
           (sigma : option R) (confidence_level : R) : result curve :=
  let sigma :=
    match sigma with
    | None => INR duration_days * (4 / 10)
    | Some s => s
    end in
  let time := linspace0 (INR duration_days) duration_days in
  let pdf := map (rayleigh_pdf sigma) time in
  let integral := trapz pdf time in
  let defects_per_day :=
    if Rlt_dec 0 integral
    then map (fun p => p * (total_defects / integral)) pdf
    else map (fun _ => 0) time in
  let cumulative_defects := cumsum defects_per_day in
  let margin :=
    if Rle_dec (95 / 100) confidence_level then 30 / 100 else 20 / 100 in
  let upper_bound := map (fun d => d * (1 + margin)) defects_per_day in
  let lower_bound := map (fun d => d * (1 - margin)) defects_per_day in
  let lower_bound := map (fun d => Rmax d 0) lower_bound in
  match defects_per_day with
  | [] =>
      Raise (ValueError
               "zero-size array to reduction operation maximum which has no identity")
  | d :: ds =>
      Ok {| time := time;
            defects_per_day := defects_per_day;
            cumulative_defects := cumulative_defects;
            upper_bound := upper_bound;
            lower_bound := lower_bound;
            confidence_level := confidence_level;
            sigma := sigma;
            peak_day := sigma;
            peak_value := fold_left Rmax ds d |}
  end.

(** The prediction page of [app.py]: story points become lines of code,
    the inputs are validated, and only valid inputs reach the prediction,
    the curve (at confidence 0.95) and the QA recommendation.  The answer
    is the validation message or the three results. *)
Definition prediction_page (project_size duration_months team_size : Z)
           (experience_level tech_complexity : string)
  : result (string + Rayleigh.prediction * curve * Rayleigh.qa_recommendation) :=
  let estimated_loc := (project_size * 50)%Z in
  let '(is_valid, error_msg) :=
    Rayleigh.validate_prediction_inputs estimated_loc duration_months team_size in
  if negb is_valid then Ok (inl error_msg)
  else
    let prediction :=
      Rayleigh.predict_defects_rayleigh estimated_loc duration_months team_size
                                        experience_level tech_complexity None in
    curve <- generate_rayleigh_curve
               (Q2R (Rayleigh.total_defects prediction))
               (Z.to_nat (Rayleigh.duration_days prediction))
               (Some (Q2R (Rayleigh.sigma prediction)))
               (95 / 100) ;;
    qa_rec <- Rayleigh.recommend_qa_resources
                (Rayleigh.total_defects prediction) duration_months ;;
    Ok (inr (prediction, curve, qa_rec)).

End RayleighReal.

(** * Vocabulary of the statements *)

Module Spec.
Import Py Olap.

(** ** Input validation and QA staffing *)

(** The bounds the validator enforces, in the words of its
    specification. *)
Definition out_of_bounds (size months team : Z) : Prop :=
  (size < 100 \/ size > 10000000 \/ months < 1 \/ months > 36
   \/ team < 1 \/ team > 100)%Z.

(** [n] is the ceiling of [x]. *)
Definition is_ceil (n : Z) (x : Q) : Prop :=
  inject_Z n - 1 < x /\ x <= inject_Z n.

(** The duration multiplier, in the words of the specification. *)
Definition multiplier_for (months : Z) (m : Q) : Prop :=
  ((months <= 3)%Z /\ m == 13 # 10)
  \/ ((3 < months <= 6)%Z /\ m == 1)
  \/ ((6 < months)%Z /\ m == 9 # 10).

(** The risk tiers, in the words of the specification. *)
Definition risk_for (defects : Q) (level : string) : Prop :=
  (defects < 30 /\ level = "Bajo")
  \/ (30 <= defects /\ defects < 80 /\ level = "Medio")
  \/ (80 <= defects /\ level = "Alto").

(** ** KPI calculators *)

(** The ['status'] entry of a calculator's metadata. *)
Definition status_of (k : Kpi.kpi) : option Kpi.pyval :=
  dict_get (snd k) "status".

(** The six KPI names. *)
Definition known_kpis : list string :=
  ["completion_rate"; "budget_efficiency"; "team_utilization";
   "defect_density"; "avg_resolution_time"; "client_satisfaction"].

(** ** The OKR hierarchy *)

(** What the [perspectives] dict holds after the objectives [done]. *)
Definition grouped (acc : list (string * list Scorecard.OKR))
           (done : list Scorecard.OKR) : Prop :=
  NoDup (dict_keys acc)
  /\ (forall p l, In (p, l) acc ->
                  l = Scorecard.perspective_okrs done p /\ l <> [])
  /\ (forall o, In o done -> In (Scorecard.perspective o) (dict_keys acc)).

(** The mean of the overall progress of a list of objectives. *)
Definition mean_progress (os : list Scorecard.OKR) : Q :=
  Scorecard.Qsum (map Scorecard.overall_progress os)
  / inject_Z (Z.of_nat (List.length os)).

(** Every perspective node carries a value, the mean of the values of its
    objective nodes. *)
Definition perspective_nodes_carry_mean (okrs : list Scorecard.OKR) : Prop :=
  forall p,
    In p (Scorecard.children_of (Scorecard.create_okr_hierarchy okrs)) ->
    exists v m,
      Scorecard.node_value p = Some v
      /\ Scorecard.sunburst_perspective_value p = Ok m
      /\ v == m.

(** ** Sums over groups *)

(** The total of a row weight [w] over rows, and over the rows of groups. *)
Definition total_rows (w : list cell -> Q) (rs : list (list cell)) : Q :=
  fold_right (fun r acc => w r + acc) 0 rs.

Definition total_groups (w : list cell -> Q) (gs : list group) : Q :=
  fold_right (fun g acc => total_rows w (snd g) + acc) 0 gs.

(** One step of the fold of [groupby]. *)
Definition groupby_step (df : DataFrame) (group_cols : list string)
           (gs : list group) (r : list cell) : list group :=
  let k := key_of df group_cols r in
  if existsb is_null k then gs else insert_group k r gs.

(** The weight of a row in the sum of column [col]. *)
Definition weight (df : DataFrame) (col : string) (r : list cell) : Q :=
  num_of (cell_of df col r).

(** No row of the frame has a missing value in a grouping column. *)
Definition keys_present (df : DataFrame) (group_cols : list string) : bool :=
  forallb (fun r => negb (existsb is_null (key_of df group_cols r))) (rows df).

(** The aggregation invariant for one hierarchy and target level: the sum
    of every numeric non-key column is the same after grouping. *)
Definition sums_preserved (df : DataFrame) (hierarchy : list string)
           (target_level : string) : Prop :=
  forall dimension out col,
    drill_down df dimension hierarchy target_level = Ok out
    \/ roll_up df dimension hierarchy target_level = Ok out ->
    col_dtype df col = Some Numeric ->
    mem col (group_cols_of df hierarchy target_level) = false ->
    column_sum out col == column_sum df col.

(** ** Rounding *)

(** The power of ten by which [round] scales. *)
Definition scale (ndigits : nat) : Q := inject_Z (10 ^ Z.of_nat ndigits).

(** ** Filters of dice *)

(** Row [r] of frame [df] passes the filter [flt]. *)
Definition passes (df : DataFrame) (r : list cell)
           (flt : string * filter_value) : bool :=
  match snd flt with
  | FEq value => cell_eqb (cell_of df (fst flt) r) value
  | FPred test => test (cell_of df (fst flt) r)
  end.

(** The filter value is a literal, not a callable. *)
Definition literal (flt : string * filter_value) : bool :=
  match snd flt with
  | FEq _ => true
  | FPred _ => false
  end.

(** The dimension of the filter is a column of [df]. *)
Definition known (df : DataFrame) (flt : string * filter_value) : bool :=
  has_column df (fst flt).

(** The frame has the columns of [df], or neither columns nor rows. *)
Definition keeps_columns (df out : DataFrame) : Prop :=
  columns out = columns df \/ (columns out = [] /\ rows out = []).

(** ** Trends *)

Definition trend_values (r : list (string * trend_value)) : list Q :=
  match dict_get r "values" with
  | Some (TList l) => l
  | _ => []
  end.

Definition trend_direction (r : list (string * trend_value)) : string :=
  match dict_get r "direction" with
  | Some (TStr s) => s
  | _ => ""
  end.

(** ** KPI bundle and colours *)

(** The exception is a KeyError over one of the columns the calculators
    read, and the frame it is read from lacks that column. *)
Definition missing_column (df_proy df_cal : DataFrame) (e : exn) : Prop :=
  exists col,
    e = KeyError col
    /\ ((In col ["ganancia_neta"; "costo_total_real"; "nombre_proyecto"]
         /\ has_column df_proy col = false)
        \/ (col = "cantidad_defectos_encontrados"
            /\ has_column df_cal col = false)).

(** Green is better than yellow, yellow better than red. *)
Definition color_rank (color : string) : Z :=
  if String.eqb color "green" then 2
  else if String.eqb color "yellow" then 1
  else 0.

(** The KPIs for which a lower value is better. *)
Definition lower_is_better (kpi_type : string) : bool :=
  match dict_get Kpi.thresholds kpi_type with
  | Some t => match Kpi.inverse t with Some b => b | None => false end
  | None => false
  end.

(** Every defect count of the frame is a number >= 0 or missing. *)
Definition defects_nonneg (df_cal : DataFrame) : Prop :=
  forall r, In r (rows df_cal) ->
            0 <= num_of (cell_of df_cal "cantidad_defectos_encontrados" r).

(** ** Scores and tables of objectives *)

(** The number of leaves under the objective nodes of a perspective node. *)
Definition leaves (p : Scorecard.node) : Z :=
  fold_right
    (fun n acc => (Z.of_nat (List.length (Scorecard.children_of n)) + acc)%Z)
    0%Z (Scorecard.children_of p).

(** The number of key results of a list of objectives. *)
Definition kr_total (okrs : list Scorecard.OKR) : Z :=
  fold_right
    (fun okr acc => (Z.of_nat (List.length (Scorecard.key_results okr)) + acc)%Z)
    0%Z okrs.

(** An entry of the metadata of a perspective score. *)
Definition score_entry (s : Q * list (string * Scorecard.score_value))
           (key : string) : option Scorecard.score_value :=
  dict_get (snd s) key.

End Spec.

Module RealSpec.
Import Stdlib.Reals.Reals.
Local Open Scope R_scope.

(** The points [a*h, (a+1)*h, ...] of a grid of step [h]. *)
Definition grid (h : R) (a n : nat) : list R :=
  map (fun i => INR i * h) (seq a n).

End RealSpec.

(** * Sample data *)

Module Samples.
Import Py Olap Scorecard.

(** Header-only frames: the columns of the two record collections and no
    rows. *)
Definition no_projects : DataFrame :=
  {| columns := [("nombre_proyecto", Object); ("nombre_cliente", Object);
                 ("ganancia_neta", Numeric); ("costo_total_real", Numeric);
                 ("nombre_pais", Object)];
     rows := [] |}.

Definition no_quality : DataFrame :=
  {| columns := [("nombre_proyecto", Object); ("severidad", Object);
                 ("cantidad_defectos_encontrados", Numeric)];
     rows := [] |}.

Definition sample_quality : DataFrame :=
  {| columns := [("nombre_proyecto", Object); ("severidad", Object);
                 ("cantidad_defectos_encontrados", Numeric)];
     rows := [[CStr "P-web"; CStr "alta"; CNum 3];
              [CStr "P-web"; CStr "baja"; CNum 4];
              [CStr "P-app"; CStr "alta"; CNum 2]] |}.

Definition sample_projects : DataFrame :=
  {| columns := [("nombre_pais", Object); ("anio", Numeric);
                 ("ganancia_neta", Numeric); ("nombre_cliente", Object)];
     rows := [[CStr "China"; CNum 2024; CNum 10; CStr "Acme"];
              [CStr "Mexico"; CNum 2024; CNum 5; CStr "Initech"];
              [CStr "China"; CNum 2023; CNum 7; CNull];
              [CStr "China"; CNum 2024; CNum 1; CStr "Globex"]] |}.

(** Two projects, one profitable, and two quality rows without defects. *)
Definition two_projects : DataFrame :=
  {| columns := columns no_projects;
     rows := [[CStr "P-web"; CStr "Acme"; CNum 100; CNum 80; CStr "China"];
              [CStr "P-app"; CStr "Acme"; CNum (-5); CNum 50; CStr "Mexico"]] |}.

Definition clean_quality : DataFrame :=
  {| columns := columns no_quality;
     rows := [[CStr "P-web"; CStr "baja"; CNum 0];
              [CStr "P-app"; CStr "nula"; CNum 0]] |}.

(** A project whose country is missing. *)
Definition projects_with_gap : DataFrame :=
  {| columns := [("nombre_pais", Object); ("ganancia_neta", Numeric)];
     rows := [[CStr "China"; CNum 10]; [CNull; CNum 5]] |}.

Definition sample_kr (t c : Q) : KeyResult :=
  {| kr := "Generar $50M en ganancia neta";
     target := t; current := c; unit := "$" |}.

Definition sample_okr (name p : string) (krs : list KeyResult) : OKR :=
  {| objective := name; key_results := krs; owner := "CFO";
     quarter := "Q1 2025"; perspective := p |}.

Definition sample_okrs : list OKR :=
  [sample_okr "Aumentar Ingresos por Proyectos de Software" "Financial"
              [sample_kr 50 25; sample_kr 10 10];
   sample_okr "Expandir Base de Clientes" "Customer" [sample_kr 50 40];
   sample_okr "Optimizar Costos Operativos" "Financial" [sample_kr 90 85]].

(** A stand-in for [pd.pivot_table] that always fails. *)
Definition failing_pivot_table (df : DataFrame) (index : rows_arg)
           (columns values aggfunc : string) : DataFrame + string :=
  inr "No numeric types to aggregate".

End Samples.

(** * Properties *)

(** ** Input validation and QA staffing *)

Module RayleighFacts.
Import Py Rayleigh Spec Lqa.

Lemma validate_rejects_iff (size months team : Z) :
  fst (validate_prediction_inputs size months team) = false
  <-> out_of_bounds size months team.
Proof.
  unfold validate_prediction_inputs, out_of_bounds.
  destruct (size <? 100)%Z eqn:E1; [simpl; split; [lia | easy] |].
  destruct (size >? 10000000)%Z eqn:E2; [simpl; split; [lia | easy] |].
  destruct (months <? 1)%Z eqn:E3; [simpl; split; [lia | easy] |].
  destruct (months >? 36)%Z eqn:E4; [simpl; split; [lia | easy] |].
  destruct (team <? 1)%Z eqn:E5; [simpl; split; [lia | easy] |].
  destruct (team >? 100)%Z eqn:E6; simpl; split; try lia; easy.
Qed.

Lemma validate_message (size months team : Z) :
  (fst (validate_prediction_inputs size months team) = false ->
   snd (validate_prediction_inputs size months team) <> "")
  /\ (fst (validate_prediction_inputs size months team) = true ->
      snd (validate_prediction_inputs size months team) = "").
Proof.
  unfold validate_prediction_inputs.
  destruct (size <? 100)%Z; [simpl; split; easy |].
  destruct (size >? 10000000)%Z; [simpl; split; easy |].
  destruct ((months <? 1) || (months >? 36))%Z; [simpl; split; easy |].
  destruct ((team <? 1) || (team >? 100))%Z; simpl; split; easy.
Qed.

(** C9. [validate_prediction_inputs] is a total function that answers
    [(False, message)] with a non-empty message exactly when the size is
    below 100 or above 10,000,000, the duration is outside [1,36] or the
    team size is outside [1,100], and [(True, "")] otherwise; size 50 is
    rejected with the size-too-small message and size 500000 (6 months,
    team of 5) is accepted. *)
Theorem validate_prediction_inputs_spec :
  (forall size months team : Z,
      (fst (validate_prediction_inputs size months team) = false
       <-> out_of_bounds size months team)
      /\ (out_of_bounds size months team ->
          snd (validate_prediction_inputs size months team) <> "")
      /\ (~ out_of_bounds size months team ->
          validate_prediction_inputs size months team = (true, "")))
  /\ validate_prediction_inputs 50 6 5
     = (false, "Tamaño de proyecto debe ser al menos 100 LOC")
  /\ validate_prediction_inputs 500000 6 5 = (true, "").
Proof.
  split; [| split; reflexivity].
  intros size months team.
  pose proof (validate_rejects_iff size months team) as Hiff.
  pose proof (validate_message size months team) as [Hno Hyes].
  split; [exact Hiff |]. split.
  - intro H. apply Hno, Hiff, H.
  - intro H.
    destruct (validate_prediction_inputs size months team) as [b msg] eqn:E.
    simpl in *. destruct b.
    + rewrite Hyes; reflexivity.
    + exfalso. apply H, Hiff. reflexivity.
Qed.

Lemma validate_prediction_inputs_spec_witness :
  ~ out_of_bounds 500000 6 5
  /\ validate_prediction_inputs 500000 6 5 = (true, "").
Proof.
  assert (H : ~ out_of_bounds 500000 6 5) by (unfold out_of_bounds; lia).
  split; [exact H |].
  exact (proj2 (proj2 (proj1 validate_prediction_inputs_spec 500000 6 5)%Z) H).
Defined.

Lemma Qceiling_is_ceil (x : Q) : is_ceil (Qceiling x) x.
Proof.
  split.
  - pose proof (Qceiling_lt x) as H.
    replace (Qceiling x - 1)%Z with (Qceiling x + -1)%Z in H by lia.
    rewrite inject_Z_plus in H.
    change (inject_Z (-1)) with (- (1))%Q in H. lra.
  - apply Qle_ceiling.
Qed.

(** C8. For predicted defects >= 0 and a duration of at least one month
    [recommend_qa_resources] returns a result whose [qa_engineers] is the
    ceiling of max(defects / 50 * multiplier, 1), the multiplier being 1.3
    up to 3 months, 1.0 up to 6 months and 0.9 beyond, and whose risk
    level is Bajo / Medio / Alto for defects < 30, < 80, >= 80; for 120
    defects over 6 months it returns 3 engineers and risk "Alto". *)
Theorem recommend_qa_resources_spec
        (predicted_defects : Q) (duration_months : Z)
        (Hdefects : 0 <= predicted_defects)
        (Hmonths : (1 <= duration_months)%Z) :
  (exists r m,
      recommend_qa_resources predicted_defects duration_months = Ok r
      /\ multiplier_for duration_months m
      /\ is_ceil (qa_engineers r) (Qmax (predicted_defects / 50 * m) 1)
      /\ risk_for predicted_defects (risk_level r))
  /\ (exists r,
         recommend_qa_resources 120 6 = Ok r
         /\ qa_engineers r = 3%Z /\ risk_level r = "Alto").
Proof.
  split.
  - unfold recommend_qa_resources.
    assert (E0 : (duration_months =? 0)%Z = false) by lia.
    set (m := if (duration_months <=? 3)%Z then 13 # 10
              else if (duration_months <=? 6)%Z then 1 else 9 # 10).
    assert (Hm : multiplier_for duration_months m).
    { unfold multiplier_for, m.
      destruct (duration_months <=? 3)%Z eqn:E3.
      - left. split; [lia | reflexivity].
      - destruct (duration_months <=? 6)%Z eqn:E6.
        + right; left. split; [lia | reflexivity].
        + right; right. split; [lia | reflexivity]. }
    destruct (Qlt_le_dec predicted_defects 30) as [H30 | H30];
      [| destruct (Qlt_le_dec predicted_defects 80) as [H80 | H80]];
      rewrite E0; eexists; exists m;
      (split; [reflexivity |]); (split; [exact Hm |]);
      (split; [apply Qceiling_is_ceil |]); simpl; unfold risk_for; auto.
  - eexists. split; [vm_compute; reflexivity |]. split; reflexivity.
Qed.

Lemma recommend_qa_resources_spec_witness :
  exists r,
    recommend_qa_resources 120 6 = Ok r
    /\ qa_engineers r = 3%Z /\ risk_level r = "Alto".
Proof.
  assert (Hd : 0 <= 120) by (unfold Qle; simpl; lia).
  assert (Hm : (1 <= 6)%Z) by lia.
  exact (proj2 (recommend_qa_resources_spec 120 6 Hd Hm)).
Defined.

End RayleighFacts.

(** ** KPI calculators *)

Module KpiFacts.
Import Py Olap Kpi Spec Samples Lqa.

Lemma index_of_mem (name : string) (l : list string) :
  mem name l = true -> exists i, index_of name l = Some i.
Proof.
  induction l as [| x l IH]; simpl; [discriminate |].
  destruct (String.eqb name x); simpl; [eauto |].
  intro H. destruct (IH H) as [i ->]. simpl. eauto.
Qed.

Lemma series_defined (df : DataFrame) (name : string) :
  has_column df name = true -> exists s, series df name = Ok s.
Proof.
  intro H. unfold series, col_index.
  destruct (index_of_mem _ _ H) as [i ->]. eauto.
Qed.

Lemma empty_of_no_rows (df : DataFrame) : rows df = [] -> empty df = true.
Proof. unfold empty. intros ->. reflexivity. Qed.

(** The guarded calculators answer "No data" on any empty frame. *)
Lemma completion_rate_no_data (df_proy : DataFrame) :
  empty df_proy = true ->
  calculate_completion_rate df_proy
  = Ok (0, [("completed", VInt 0); ("total", VInt 0);
            ("status", VStr "No data")]).
Proof. unfold calculate_completion_rate. intros ->. reflexivity. Qed.

Lemma team_utilization_no_data (df_proy : DataFrame) :
  empty df_proy = true ->
  calculate_team_utilization df_proy
  = Ok (0, [("active", VInt 0); ("total", VInt 0);
            ("status", VStr "No data")]).
Proof. unfold calculate_team_utilization. intros ->. reflexivity. Qed.

Lemma defect_density_no_data (df_cal df_proy : DataFrame) :
  empty df_cal = true \/ empty df_proy = true ->
  calculate_defect_density df_cal df_proy
  = Ok (0, [("total_defects", VInt 0); ("projects", VInt 0);
            ("status", VStr "No data")]).
Proof.
  unfold calculate_defect_density. intros [-> | ->];
    [| rewrite orb_true_r]; reflexivity.
Qed.

Lemma avg_resolution_time_no_data (df_cal : DataFrame) :
  empty df_cal = true ->
  calculate_avg_resolution_time df_cal
  = Ok (0, [("avg_days", VInt 0); ("defects", VInt 0);
            ("status", VStr "No data")]).
Proof. unfold calculate_avg_resolution_time. intros ->. reflexivity. Qed.

(** The budget calculator has no guard: with no rows it answers "No data"
    provided both columns exist, and raises otherwise. *)
Lemma budget_efficiency_no_data (df_proy : DataFrame) :
  rows df_proy = [] ->
  has_column df_proy "costo_total_real" = true ->
  has_column df_proy "ganancia_neta" = true ->
  calculate_budget_efficiency df_proy
  = Ok (0, [("avg_roi", VInt 0); ("projects_analyzed", VInt 0);
            ("status", VStr "No data")]).
Proof.
  intros Hrows Hc Hg. unfold calculate_budget_efficiency.
  destruct (series_defined _ _ Hc) as [sc ->].
  destruct (series_defined _ _ Hg) as [sg ->].
  simpl. rewrite Hrows. reflexivity.
Qed.

Lemma budget_efficiency_no_columns :
  calculate_budget_efficiency {| columns := []; rows := [] |}
  = Raise (KeyError "costo_total_real").
Proof. reflexivity. Qed.

(** The calculators on two small collections. *)
Example completion_rate_two_projects :
  exists k, calculate_completion_rate two_projects = Ok k
            /\ fst k == 50
            /\ dict_get (snd k) "completed" = Some (VInt 1)
            /\ dict_get (snd k) "total" = Some (VInt 2)
            /\ status_of k = Some (VStr "warning").
Proof. eexists. split; [vm_compute; reflexivity |]. repeat split. Qed.

Example budget_efficiency_two_projects :
  exists k, calculate_budget_efficiency two_projects = Ok k
            /\ fst k == 115 # 2
            /\ status_of k = Some (VStr "healthy").
Proof. eexists. split; [vm_compute; reflexivity |]. repeat split. Qed.

Example defect_density_without_defects :
  exists k, calculate_defect_density clean_quality two_projects = Ok k
            /\ fst k == 0
            /\ status_of k = Some (VStr "healthy").
Proof. eexists. split; [vm_compute; reflexivity |]. repeat split. Qed.

Example avg_resolution_time_without_defects :
  exists k, calculate_avg_resolution_time clean_quality = Ok k
            /\ fst k == 0
            /\ status_of k = Some (VStr "No defects").
Proof. eexists. split; [vm_compute; reflexivity |]. repeat split. Qed.

(** C1. On empty collections five calculators answer zero with the
    "No data" status, but [calculate_client_satisfaction] answers the
    index 60 with the status "warning": its quality component is 100 when
    the defect density is the zero of "No data". *)
Theorem client_satisfaction_on_empty_input :
  (exists k, calculate_completion_rate no_projects = Ok k
             /\ fst k == 0 /\ status_of k = Some (VStr "No data"))
  /\ (exists k, calculate_budget_efficiency no_projects = Ok k
                /\ fst k == 0 /\ status_of k = Some (VStr "No data"))
  /\ (exists k, calculate_team_utilization no_projects = Ok k
                /\ fst k == 0 /\ status_of k = Some (VStr "No data"))
  /\ (exists k, calculate_defect_density no_quality no_projects = Ok k
                /\ fst k == 0 /\ status_of k = Some (VStr "No data"))
  /\ (exists k, calculate_avg_resolution_time no_quality = Ok k
                /\ fst k == 0 /\ status_of k = Some (VStr "No data"))
  /\ (exists k, calculate_client_satisfaction no_projects no_quality = Ok k
                /\ fst k == 60 /\ ~ fst k == 0
                /\ status_of k = Some (VStr "warning")
                /\ status_of k <> Some (VStr "No data")).
Proof.
  repeat split;
    try (eexists; split; [vm_compute; reflexivity |];
         repeat split; try reflexivity; try discriminate).
Qed.

Lemma known_kpis_are_the_thresholds : dict_keys thresholds = known_kpis.
Proof. reflexivity. Qed.

Lemma thresholds_unknown (kpi_type : string) :
  ~ In kpi_type known_kpis -> dict_get thresholds kpi_type = None.
Proof.
  intro H. unfold thresholds, dict_get.
  repeat match goal with
         | |- context [String.eqb ?a ?b] =>
             destruct (String.eqb_spec a b) as [-> | _];
             [exfalso; apply H; simpl; tauto |]
         end.
  reflexivity.
Qed.

(** C10. For a [kpi_type] that is none of the six known KPI names,
    [get_kpi_color] returns 'gray' (so none of green, yellow, red)
    whatever the value. *)
Theorem get_kpi_color_unknown_type
        (value : Q) (kpi_type : string)
        (Hunknown : ~ In kpi_type known_kpis) :
  get_kpi_color value kpi_type = "gray"
  /\ get_kpi_color value kpi_type <> "green"
  /\ get_kpi_color value kpi_type <> "yellow"
  /\ get_kpi_color value kpi_type <> "red".
Proof.
  unfold get_kpi_color. rewrite (thresholds_unknown _ Hunknown).
  repeat split; discriminate.
Qed.

Lemma get_kpi_color_unknown_type_witness :
  ~ In "revenue_growth" known_kpis
  /\ get_kpi_color 85 "revenue_growth" = "gray".
Proof.
  assert (H : ~ In "revenue_growth" known_kpis).
  { simpl. intros [H | [H | [H | [H | [H | [H | []]]]]]]; discriminate H. }
  split; [exact H |].
  exact (proj1 (get_kpi_color_unknown_type 85 "revenue_growth" H)).
Defined.

End KpiFacts.

(** ** Key results, objectives and the OKR hierarchy *)

Module ScorecardFacts.
Import Py Scorecard Spec Samples Lqa.

Lemma Qdiv_scaled_nonneg (c t : Q) : 0 < t -> 0 <= c -> 0 <= c / t * 100.
Proof.
  intros Ht Hc. apply Qmult_le_0_compat; [| lra].
  unfold Qdiv. apply Qmult_le_0_compat; [exact Hc |].
  apply Qlt_le_weak, Qinv_lt_0_compat, Ht.
Qed.

Lemma Qdiv_scaled_neg (c t : Q) : 0 < t -> c < 0 -> c / t * 100 < 0.
Proof.
  intros Ht Hc.
  assert (Hi : 0 < / t) by (apply Qinv_lt_0_compat, Ht).
  assert (H : 0 < (- c) * / t) by (apply Qmult_lt_0_compat; lra).
  unfold Qdiv. lra.
Qed.

Lemma progress_positive_target (self : KeyResult) :
  0 < target self ->
  progress self == Qmin (current self / target self * 100) 100.
Proof.
  intro Ht. unfold progress.
  destruct (Qeq_bool (target self) 0) eqn:E; [| reflexivity].
  apply Qeq_bool_iff in E. lra.
Qed.

Lemma progress_zero_target (self : KeyResult) :
  target self == 0 ->
  progress self = if Qle_bool 0 (current self) then 100 else 0.
Proof.
  intro Ht. unfold progress.
  apply Qeq_bool_iff in Ht. rewrite Ht. reflexivity.
Qed.

(** C2, as stated, fails: a loss against a positive target gives a
    negative progress. *)
Lemma progress_in_range_counterexample :
  0 < target (sample_kr 10 (-5))
  /\ ~ (0 <= progress (sample_kr 10 (-5))
        /\ progress (sample_kr 10 (-5)) <= 100).
Proof.
  split; [reflexivity |].
  intros [H _]. vm_compute in H. apply H. reflexivity.
Qed.

(** C2, amended. With target > 0 the progress never exceeds 100, it lies
    in [0,100] whenever current >= 0 and is negative when current < 0;
    with target == 0 it is 100 if current >= 0 and 0 otherwise, so
    progress(0, 5) is 100 and progress(0, -5) is 0. *)
Theorem progress_bounds (self : KeyResult) :
  (0 < target self ->
   progress self <= 100
   /\ (0 <= current self -> 0 <= progress self)
   /\ (current self < 0 -> progress self < 0))
  /\ (target self == 0 ->
      (0 <= current self -> progress self == 100)
      /\ (current self < 0 -> progress self == 0))
  /\ progress (sample_kr 0 5) == 100
  /\ progress (sample_kr 0 (-5)) == 0.
Proof.
  split; [| split; [| split; reflexivity]].
  - intro Ht. rewrite (progress_positive_target self Ht).
    split; [apply Q.le_min_r |]. split; intro Hc.
    + apply Q.min_glb; [apply Qdiv_scaled_nonneg; assumption | lra].
    + eapply Qle_lt_trans; [apply Q.le_min_l |].
      apply Qdiv_scaled_neg; assumption.
  - intro Ht. rewrite (progress_zero_target self Ht). split; intro Hc.
    + apply Qle_bool_iff in Hc. rewrite Hc. reflexivity.
    + destruct (Qle_bool 0 (current self)) eqn:E; [| reflexivity].
      apply Qle_bool_iff in E. lra.
Qed.

Lemma progress_bounds_witness :
  0 < target (sample_kr 50 25)
  /\ 0 <= current (sample_kr 50 25)
  /\ 0 <= progress (sample_kr 50 25)
  /\ progress (sample_kr 50 25) <= 100.
Proof.
  assert (Ht : 0 < target (sample_kr 50 25)) by reflexivity.
  assert (Hc : 0 <= current (sample_kr 50 25)) by (simpl; lra).
  split; [exact Ht |]. split; [exact Hc |].
  pose proof (proj1 (progress_bounds (sample_kr 50 25)) Ht) as [Hle [Hge _]].
  split; [exact (Hge Hc) | exact Hle].
Defined.

(** *** Grouping by perspective *)

Lemma perspective_okrs_snoc (done : list OKR) (okr : OKR) (p : string) :
  perspective_okrs (done ++ [okr]) p
  = (perspective_okrs done p
     ++ (if String.eqb (perspective okr) p then [okr] else []))%list.
Proof. unfold perspective_okrs. rewrite filter_app. reflexivity. Qed.

Lemma add_okr_keys_in (okr : OKR) (acc : list (string * list OKR)) :
  In (perspective okr) (dict_keys acc) -> dict_keys (add_okr okr acc) = dict_keys acc.
Proof.
  induction acc as [| [p l] rest IH]; simpl; [tauto |].
  intros [H | H].
  - subst p. rewrite String.eqb_refl. reflexivity.
  - destruct (String.eqb (perspective okr) p); simpl; [reflexivity |].
    f_equal. apply IH, H.
Qed.

Lemma add_okr_keys_new (okr : OKR) (acc : list (string * list OKR)) :
  ~ In (perspective okr) (dict_keys acc) ->
  dict_keys (add_okr okr acc) = (dict_keys acc ++ [perspective okr])%list.
Proof.
  induction acc as [| [p l] rest IH]; simpl; [reflexivity |].
  intro H. destruct (String.eqb_spec (perspective okr) p) as [E | E].
  - exfalso. apply H. left. symmetry. exact E.
  - simpl. f_equal. apply IH. tauto.
Qed.

Lemma add_okr_entries (okr : OKR) (acc : list (string * list OKR))
      (p : string) (l : list OKR) :
  NoDup (dict_keys acc) ->
  In (p, l) (add_okr okr acc) ->
  (p <> perspective okr /\ In (p, l) acc)
  \/ (p = perspective okr
      /\ exists l0, In (p, l0) acc /\ l = (l0 ++ [okr])%list)
  \/ (p = perspective okr /\ ~ In p (dict_keys acc) /\ l = [okr]).
Proof.
  induction acc as [| [p0 l0] rest IH]; simpl; intros Hnd Hin.
  - destruct Hin as [Hin | []]. inversion Hin; subst.
    right; right. auto.
  - inversion Hnd as [| ? ? Hp0 Hrest]; subst.
    destruct (String.eqb_spec (perspective okr) p0) as [E | E].
    + destruct Hin as [Hin | Hin].
      * inversion Hin; subst. right; left. split; [reflexivity |].
        exists l0. auto.
      * left. split; [| auto].
        intro Heq. apply Hp0. rewrite <- E, <- Heq.
        apply (in_map fst _ _ Hin).
    + destruct Hin as [Hin | Hin].
      * inversion Hin; subst. left. split; [congruence | auto].
      * destruct (IH Hrest Hin) as [[H1 H2] | [[H1 [l1 [H2 H3]]] | [H1 [H2 H3]]]].
        -- left. auto.
        -- right; left. split; [exact H1 |]. exists l1. auto.
        -- right; right. split; [exact H1 |]. split; [| exact H3].
           intros [Hk | Hk]; [congruence | tauto].
Qed.

Lemma perspective_okrs_absent (done : list OKR) (p : string) :
  (forall o, In o done -> perspective o <> p) -> perspective_okrs done p = [].
Proof.
  induction done as [| o done IH]; simpl; intro H; [reflexivity |].
  destruct (String.eqb_spec (perspective o) p) as [E | E].
  - exfalso. apply (H o); auto.
  - apply IH. intros o' Ho'. apply H. auto.
Qed.

Lemma add_okr_grouped (okr : OKR) (acc : list (string * list OKR))
      (done : list OKR) :
  grouped acc done -> grouped (add_okr okr acc) (done ++ [okr]).
Proof.
  intros [Hnd [Hent Hcov]].
  assert (Hdec : In (perspective okr) (dict_keys acc)
                 \/ ~ In (perspective okr) (dict_keys acc)).
  { destruct (in_dec string_dec (perspective okr) (dict_keys acc)); auto. }
  split; [| split].
  - destruct Hdec as [H | H].
    + rewrite add_okr_keys_in; assumption.
    + rewrite add_okr_keys_new by assumption.
      apply NoDup_app; [exact Hnd | repeat constructor; simpl; tauto |].
      intros x Hx [Hx' | []]. subst x. tauto.
  - intros p l Hin. rewrite perspective_okrs_snoc.
    destruct (add_okr_entries okr acc p l Hnd Hin)
      as [[H1 H2] | [[H1 [l0 [H2 H3]]] | [H1 [H2 H3]]]].
    + destruct (Hent p l H2) as [Hl Hne].
      destruct (String.eqb_spec (perspective okr) p) as [E | E];
        [congruence |].
      rewrite app_nil_r. auto.
    + destruct (Hent p l0 H2) as [Hl Hne]. subst p l.
      rewrite String.eqb_refl. split; [congruence |].
      intro H. apply app_eq_nil in H. destruct H; discriminate.
    + subst p l. rewrite String.eqb_refl.
      rewrite perspective_okrs_absent; [split; [reflexivity | discriminate] |].
      intros o Ho Heq. apply H2. rewrite <- Heq. apply Hcov, Ho.
  - intros o Ho. apply in_app_or in Ho.
    destruct Hdec as [H | H].
    + rewrite add_okr_keys_in by assumption.
      destruct Ho as [Ho | [Ho | []]]; [apply Hcov, Ho | subst o; exact H].
    + rewrite add_okr_keys_new by assumption. apply in_or_app.
      destruct Ho as [Ho | [Ho | []]];
        [left; apply Hcov, Ho | right; subst o; simpl; auto].
Qed.

Lemma fold_add_okr_grouped (okrs : list OKR) :
  forall acc done,
    grouped acc done ->
    grouped (fold_left (fun acc okr => add_okr okr acc) okrs acc)
            (done ++ okrs).
Proof.
  induction okrs as [| okr okrs IH]; simpl; intros acc done H.
  - rewrite app_nil_r. exact H.
  - replace (done ++ okr :: okrs)%list with ((done ++ [okr]) ++ okrs)%list
      by (rewrite <- app_assoc; reflexivity).
    apply IH, add_okr_grouped, H.
Qed.

Lemma group_by_perspective_grouped (okrs : list OKR) :
  grouped (group_by_perspective okrs) okrs.
Proof.
  apply (fold_add_okr_grouped okrs [] []).
  split; [constructor | split]; intros; contradiction.
Qed.

Lemma values_of_okr_nodes (os : list OKR) :
  values_of (map okr_node os) = Ok (map overall_progress os).
Proof.
  induction os as [| o os IH]; simpl; [reflexivity |].
  rewrite IH. reflexivity.
Qed.

Lemma sunburst_value_of_perspective_node (p : string) (os : list OKR) :
  os <> [] ->
  sunburst_perspective_value (perspective_node (p, os))
  = Ok (mean_progress os).
Proof.
  intro Hne. unfold sunburst_perspective_value, perspective_node, children_of.
  simpl. rewrite values_of_okr_nodes. simpl.
  destruct os as [| o os]; [contradiction |].
  unfold mean_progress. rewrite length_map. reflexivity.
Qed.

(** C3, as stated, fails: the node of the first perspective of the sample
    objectives carries no value at all. *)
Lemma perspective_value_counterexample :
  node_value (hd (Node "" None None)
                 (children_of (create_okr_hierarchy sample_okrs))) = None
  /\ ~ perspective_nodes_carry_mean sample_okrs.
Proof.
  split; [reflexivity |].
  intro H.
  destruct (H (hd (Node "" None None)
                  (children_of (create_okr_hierarchy sample_okrs))))
    as [v [m [Hv _]]].
  - left. reflexivity.
  - discriminate Hv.
Qed.

(** C3, amended. [create_okr_hierarchy] builds root -> perspective
    nodes -> objective nodes -> key-result leaves; the root and the
    perspective nodes carry a name and children but no value; under the
    node of a perspective are exactly the objectives of that perspective,
    in list order, each with its overall progress as value and its key
    results as leaves valued by their progress; the mean of the objective
    values of a perspective is what the sunburst page derives from the
    node, it is not stored in it. *)
Theorem create_okr_hierarchy_values (okrs : list OKR) :
  node_name (create_okr_hierarchy okrs) = "Strategic OKRs"
  /\ node_value (create_okr_hierarchy okrs) = None
  /\ (forall o, In o okrs ->
                exists p, In p (children_of (create_okr_hierarchy okrs))
                          /\ node_name p = perspective o)
  /\ (forall p,
         In p (children_of (create_okr_hierarchy okrs)) ->
         node_value p = None
         /\ perspective_okrs okrs (node_name p) <> []
         /\ children_of p
            = map okr_node (perspective_okrs okrs (node_name p))
         /\ sunburst_perspective_value p
            = Ok (mean_progress (perspective_okrs okrs (node_name p))))
  /\ (forall o,
         node_value (okr_node o) = Some (overall_progress o)
         /\ children_of (okr_node o) = map kr_node (key_results o)
         /\ forall k, node_value (kr_node k) = Some (progress k)
                      /\ node_children (kr_node k) = None).
Proof.
  destruct (group_by_perspective_grouped okrs) as [Hnd [Hent Hcov]].
  split; [reflexivity |]. split; [reflexivity |].
  split; [| split].
  - intros o Ho. specialize (Hcov o Ho). unfold dict_keys in Hcov.
    apply in_map_iff in Hcov. destruct Hcov as [[p l] [Hp Hin]].
    simpl in Hp. exists (perspective_node (p, l)). split.
    + unfold create_okr_hierarchy, children_of. simpl.
      apply in_map, Hin.
    + simpl. exact Hp.
  - intros p Hin. unfold create_okr_hierarchy, children_of in Hin.
    simpl in Hin. apply in_map_iff in Hin.
    destruct Hin as [[q l] [Hp Hin]]. subst p.
    destruct (Hent q l Hin) as [Hl Hne]. simpl node_name.
    rewrite <- Hl. split; [reflexivity |]. split; [exact Hne |].
    split; [reflexivity |].
    apply sunburst_value_of_perspective_node, Hne.
  - intro o. repeat split.
Qed.

Lemma create_okr_hierarchy_values_witness :
  In (hd (Node "" None None)
         (children_of (create_okr_hierarchy sample_okrs)))
     (children_of (create_okr_hierarchy sample_okrs))
  /\ node_value (hd (Node "" None None)
                    (children_of (create_okr_hierarchy sample_okrs)))
     = None.
Proof.
  assert (H : In (hd (Node "" None None)
                     (children_of (create_okr_hierarchy sample_okrs)))
                 (children_of (create_okr_hierarchy sample_okrs)))
    by (left; reflexivity).
  split; [exact H |].
  exact (proj1 (proj1 (proj2 (proj2 (proj2
           (create_okr_hierarchy_values sample_okrs)))) _ H)).
Defined.

End ScorecardFacts.

(** ** Slice, drill-down and roll-up *)

Module OlapFacts.
Import Py Olap Spec Samples Lqa.

Lemma mem_In (name : string) (l : list string) :
  mem name l = true <-> In name l.
Proof.
  unfold mem. rewrite existsb_exists. split.
  - intros [x [Hx E]]. apply String.eqb_eq in E. subst. exact Hx.
  - intro H. exists name. split; [exact H | apply String.eqb_refl].
Qed.

Lemma filter_split_length {A : Type} (f : A -> bool) (l : list A) :
  (List.length (filter f l) + List.length (filter (fun x => negb (f x)) l)
   = List.length l)%nat.
Proof.
  induction l as [| x l IH]; simpl; [reflexivity |].
  destruct (f x); simpl; lia.
Qed.

(** C6. When [dimension] is a column of the frame and [value] occurs in
    it, [slice_olap] returns a frame with the same columns, whose rows are
    rows of the input with [dimension == value], at least one of them, and
    the number of its rows plus the number of input rows with
    [dimension != value] is the number of input rows. *)
Theorem slice_olap_partition
        (df : DataFrame) (dimension : string) (value : cell)
        (Hcolumn : In dimension (column_names df))
        (Hpresent : exists r, In r (rows df)
                              /\ cell_eqb (cell_of df dimension r) value = true) :
  exists out,
    slice_olap df dimension value = Ok out
    /\ columns out = columns df
    /\ (forall r, In r (rows out) <->
                  In r (rows df)
                  /\ cell_eqb (cell_of df dimension r) value = true)
    /\ rows out <> []
    /\ (List.length (rows out)
        + List.length (filter (fun r => cell_neb (cell_of df dimension r) value)
                              (rows df))
        = List.length (rows df))%nat.
Proof.
  unfold slice_olap, has_column.
  apply mem_In in Hcolumn. rewrite Hcolumn. simpl.
  eexists. split; [reflexivity |]. simpl.
  split; [reflexivity |]. split; [| split].
  - intro r. apply filter_In.
  - destruct Hpresent as [r [Hr Hv]]. intro Hnil.
    assert (Hin : In r (filter (fun r => cell_eqb (cell_of df dimension r) value)
                               (rows df)))
      by (apply filter_In; auto).
    rewrite Hnil in Hin. exact Hin.
  - apply filter_split_length.
Qed.

Lemma slice_olap_partition_witness :
  exists out,
    slice_olap sample_projects "nombre_pais" (CStr "China") = Ok out
    /\ List.length (rows out) = 3%nat.
Proof.
  assert (Hc : In "nombre_pais" (column_names sample_projects))
    by (simpl; auto).
  assert (Hp : exists r, In r (rows sample_projects)
                         /\ cell_eqb (cell_of sample_projects "nombre_pais" r)
                                     (CStr "China") = true).
  { exists [CStr "China"; CNum 2024; CNum 10; CStr "Acme"].
    split; [simpl; auto | reflexivity]. }
  destruct (slice_olap_partition sample_projects "nombre_pais" (CStr "China")
                                 Hc Hp) as [out [Hout [_ [_ [_ Hlen]]]]].
  exists out. split; [exact Hout |].
  simpl in Hlen. lia.
Defined.

(** *** Sums over groups *)

Section GroupSums.
Variable w : list cell -> Q.

Lemma total_rows_snoc (rs : list (list cell)) (r : list cell) :
  total_rows w (rs ++ [r]) == total_rows w rs + w r.
Proof.
  induction rs as [| x rs IH]; simpl; [lra |]. rewrite IH. lra.
Qed.

Lemma total_insert_group (k r : list cell) (gs : list group) :
  total_groups w (insert_group k r gs) == w r + total_groups w gs.
Proof.
  induction gs as [| [k' rs] gs IH]; simpl; [lra |].
  destruct (key_compare k k'); simpl.
  - rewrite total_rows_snoc. lra.
  - lra.
  - rewrite IH. lra.
Qed.

Variable df : DataFrame.
Variable group_cols : list string.

Lemma groupby_is_fold : groupby df group_cols = fold_left (groupby_step df group_cols) (rows df) [].
Proof. reflexivity. Qed.

Lemma total_fold_step (rs : list (list cell)) :
  forall acc,
    forallb (fun r => negb (existsb is_null (key_of df group_cols r))) rs
    = true ->
    total_groups w (fold_left (groupby_step df group_cols) rs acc)
    == total_groups w acc + total_rows w rs.
Proof.
  induction rs as [| r rs IH]; simpl; intros acc H; [lra |].
  apply andb_true_iff in H. destruct H as [Hr Hrs].
  rewrite (IH _ Hrs). unfold groupby_step.
  apply negb_true_iff in Hr. rewrite Hr.
  rewrite total_insert_group. lra.
Qed.

Lemma insert_group_key_length (n : nat) (k r : list cell) (gs : list group) :
  List.length k = n ->
  Forall (fun g : group => List.length (fst g) = n) gs ->
  Forall (fun g : group => List.length (fst g) = n) (insert_group k r gs).
Proof.
  intros Hk. induction gs as [| [k' rs] gs IH]; simpl; intro H.
  - repeat constructor. exact Hk.
  - inversion H as [| ? ? Hhd Htl]; subst.
    destruct (key_compare k k'); constructor; auto.
Qed.

Lemma fold_step_key_length (rs : list (list cell)) :
  forall acc,
    Forall (fun g : group => List.length (fst g) = List.length group_cols) acc ->
    Forall (fun g : group => List.length (fst g) = List.length group_cols)
           (fold_left (groupby_step df group_cols) rs acc).
Proof.
  induction rs as [| r rs IH]; simpl; intros acc H; [exact H |].
  apply IH. unfold groupby_step.
  destruct (existsb is_null (key_of df group_cols r)); [exact H |].
  apply insert_group_key_length; [| exact H].
  unfold key_of. apply length_map.
Qed.

End GroupSums.

Lemma sum_cells_total_rows (df : DataFrame) (col : string)
      (rs : list (list cell)) :
  sum_cells (map (cell_of df col) rs) = total_rows (weight df col) rs.
Proof.
  induction rs as [| r rs IH]; [reflexivity |].
  unfold sum_cells, total_rows in *. simpl. rewrite IH. reflexivity.
Qed.

Lemma index_of_app_skip (name : string) (l1 l2 : list string) :
  mem name l1 = false ->
  index_of name (l1 ++ l2)
  = option_map (fun j => (List.length l1 + j)%nat) (index_of name l2).
Proof.
  induction l1 as [| x l1 IH]; simpl; intro H.
  - destruct (index_of name l2); reflexivity.
  - apply orb_false_iff in H. destruct H as [Hx Hl]. rewrite Hx.
    rewrite (IH Hl). destruct (index_of name l2); reflexivity.
Qed.

Lemma index_of_agg_columns (group_cols : list string) (col : string)
      (d : dtype) (cols : list (string * dtype)) :
  mem col group_cols = false ->
  dict_get cols col = Some d ->
  exists j,
    index_of col
             (map fst (filter (fun c => negb (mem (fst c) group_cols)) cols))
    = Some j
    /\ nth_error (filter (fun c => negb (mem (fst c) group_cols)) cols) j
       = Some (col, d).
Proof.
  intro Hmem. induction cols as [| [n t] cols IH]; simpl; [discriminate |].
  destruct (String.eqb_spec col n) as [E | E].
  - intro H. inversion H; subst. rewrite Hmem. simpl.
    rewrite String.eqb_refl. exists 0%nat. auto.
  - intro H. destruct (IH H) as [j [Hj Hn]].
    destruct (negb (mem n group_cols)); simpl.
    + apply String.eqb_neq in E. rewrite E, Hj. exists (S j). auto.
    + exists j. auto.
Qed.

Lemma map_fst_group_dtype (df : DataFrame) (group_cols : list string) :
  map fst (map (group_dtype df) group_cols) = group_cols.
Proof.
  induction group_cols as [| g gs IH]; simpl; [reflexivity |].
  rewrite IH. reflexivity.
Qed.

Lemma agg_row_cell (df : DataFrame) (group_cols : list string)
      (col : string) (g : group) (j : nat) :
  List.length (fst g) = List.length group_cols ->
  nth_error (agg_columns df group_cols) j = Some (col, Numeric) ->
  cell_at (List.length group_cols + j) (agg_row df group_cols g)
  = CNum (sum_cells (map (cell_of df col) (snd g))).
Proof.
  intros Hlen Hnth. unfold cell_at, agg_row. rewrite <- Hlen.
  rewrite app_nth2_plus.
  apply nth_error_nth.
  rewrite (map_nth_error _ _ _ Hnth). reflexivity.
Qed.

Lemma aggregated_column_total (df : DataFrame) (group_cols : list string)
      (col : string) (j : nat) (gs : list group) :
  nth_error (agg_columns df group_cols) j = Some (col, Numeric) ->
  Forall (fun g : group => List.length (fst g) = List.length group_cols) gs ->
  sum_cells (map (cell_at (List.length group_cols + j))
                 (map (agg_row df group_cols) gs))
  == total_groups (weight df col) gs.
Proof.
  intros Hnth. induction gs as [| g gs IH]; simpl; intro H; [lra |].
  inversion H as [| ? ? Hg Hgs]; subst.
  rewrite (agg_row_cell df group_cols col g j Hg Hnth). simpl.
  rewrite sum_cells_total_rows. unfold sum_cells in IH.
  rewrite (IH Hgs). lra.
Qed.

Lemma groupby_agg_sum (df : DataFrame) (group_cols : list string)
      (col : string) (out : DataFrame) :
  groupby_agg df group_cols = Ok out ->
  forallb (fun r => negb (existsb is_null (key_of df group_cols r)))
          (rows df) = true ->
  col_dtype df col = Some Numeric ->
  mem col group_cols = false ->
  column_sum out col == column_sum df col.
Proof.
  intros Hout Hkeys Hdtype Hmem. unfold groupby_agg in Hout.
  destruct (index_of_agg_columns group_cols col Numeric (columns df)
                                 Hmem Hdtype) as [j [Hj Hnth]].
  fold (agg_columns df group_cols) in Hj, Hnth.
  destruct (agg_columns df group_cols) as [| c cs] eqn:Eagg;
    [discriminate |].
  rewrite <- Eagg in *. inversion Hout as [Hdef]. clear Hout.
  unfold column_sum at 1. simpl rows.
  assert (Hidx : forall r,
             cell_of {| columns := (map (group_dtype df) group_cols
                                    ++ agg_columns df group_cols)%list;
                        rows := map (agg_row df group_cols)
                                    (groupby df group_cols) |} col r
             = cell_at (List.length group_cols + j) r).
  { intro r. unfold cell_of, col_index, column_names. simpl columns.
    rewrite map_app, map_fst_group_dtype.
    rewrite (index_of_app_skip _ _ _ Hmem), Hj. reflexivity. }
  rewrite (map_ext _ _ Hidx).
  rewrite (aggregated_column_total df group_cols col j _ Hnth).
  - rewrite groupby_is_fold.
    rewrite (total_fold_step (weight df col) df group_cols _ [] Hkeys).
    unfold column_sum. rewrite sum_cells_total_rows. simpl. lra.
  - rewrite groupby_is_fold. apply fold_step_key_length. constructor.
Qed.

Lemma drill_down_is_groupby_agg (df : DataFrame) (dimension : string)
      (hierarchy : list string) (target_level : string) (out : DataFrame) :
  drill_down df dimension hierarchy target_level = Ok out ->
  groupby_agg df (group_cols_of df hierarchy target_level) = Ok out.
Proof.
  unfold drill_down.
  destruct (negb (mem target_level hierarchy)); [discriminate |].
  destruct (group_cols_of df hierarchy target_level); [discriminate |].
  auto.
Qed.

Lemma roll_up_is_groupby_agg (df : DataFrame) (dimension : string)
      (hierarchy : list string) (target_level : string) (out : DataFrame) :
  roll_up df dimension hierarchy target_level = Ok out ->
  groupby_agg df (group_cols_of df hierarchy target_level) = Ok out.
Proof.
  unfold roll_up.
  destruct (negb (mem target_level hierarchy)); [discriminate |].
  destruct (group_cols_of df hierarchy target_level); [discriminate |].
  auto.
Qed.

(** C7, as stated, fails: a row whose grouping column is missing is in no
    group, so its measure is lost from the grouped sums (10 against 15). *)
Lemma sums_preserved_counterexample :
  (exists out,
      drill_down projects_with_gap "geografia" ["nombre_pais"] "nombre_pais"
      = Ok out
      /\ rows out = [[CStr "China"; CNum 10]]
      /\ column_sum out "ganancia_neta" == 10)
  /\ column_sum projects_with_gap "ganancia_neta" == 15
  /\ ~ sums_preserved projects_with_gap ["nombre_pais"] "nombre_pais".
Proof.
  split; [| split].
  - eexists. split; [reflexivity |]. split; reflexivity.
  - reflexivity.
  - intro H.
    specialize (H "geografia"
                  {| columns := [("nombre_pais", Object);
                                 ("ganancia_neta", Numeric)];
                     rows := [[CStr "China"; CNum 10]] |}
                  "ganancia_neta").
    assert (Hsum : 10 == 15);
      [| unfold Qeq in Hsum; simpl in Hsum; discriminate Hsum].
    apply H; [left; reflexivity | reflexivity | reflexivity].
Qed.

(** C7, amended. When [drill_down] or [roll_up] accepts its arguments and
    no row has a missing value in a grouping column, the sum of every
    numeric column outside the grouping columns is the same over the
    grouped output as over the input. *)
Theorem grouped_sums_preserved
        (df : DataFrame) (hierarchy : list string) (target_level : string)
        (Hkeys : keys_present df (group_cols_of df hierarchy target_level)
                 = true) :
  sums_preserved df hierarchy target_level.
Proof.
  intros dimension out col Hout Hdtype Hmem.
  apply (groupby_agg_sum df (group_cols_of df hierarchy target_level));
    try assumption.
  destruct Hout as [Hout | Hout];
    [eapply drill_down_is_groupby_agg | eapply roll_up_is_groupby_agg];
    exact Hout.
Qed.

Lemma grouped_sums_preserved_witness :
  exists out,
    drill_down sample_projects "tiempo" ["nombre_pais"; "anio"; "mes"] "anio"
    = Ok out
    /\ column_sum out "ganancia_neta" == 23.
Proof.
  assert (Hk : keys_present sample_projects
                 (group_cols_of sample_projects
                                ["nombre_pais"; "anio"; "mes"] "anio") = true)
    by reflexivity.
  pose proof (grouped_sums_preserved sample_projects
                ["nombre_pais"; "anio"; "mes"] "anio" Hk) as H.
  destruct (drill_down sample_projects "tiempo"
                       ["nombre_pais"; "anio"; "mes"] "anio")
    as [out |] eqn:E; [| discriminate E].
  exists out. split; [reflexivity |].
  apply (Qeq_trans _ (column_sum sample_projects "ganancia_neta"));
    [| reflexivity].
  apply (H "tiempo" out "ganancia_neta");
    [left; exact E | reflexivity | reflexivity].
Defined.

End OlapFacts.

(** ** Calibration and the discovery curve *)

Module RayleighRealFacts.
Import Py Olap RayleighReal RealSpec Samples.
Import Stdlib.Reals.Reals Stdlib.Reals.Qreals Lra.
Local Open Scope R_scope.

(** Both branches are reached: two projects with history, none without. *)
Lemma calibrate_with_history :
  exists d,
    calibrate_rayleigh_sigma sample_quality no_projects = Ok d
    /\ dict_get d "small" = Some (Fin 40)
    /\ dict_get d "large" = Some (Fin 100).
Proof. eexists. split; [reflexivity |]. split; reflexivity. Qed.

Lemma calibrate_without_history :
  exists d,
    calibrate_rayleigh_sigma no_quality no_projects = Ok d
    /\ dict_get d "large" = Some (Fin 90)
    /\ dict_get d "xlarge" = None.
Proof. eexists. split; [reflexivity |]. split; reflexivity. Qed.

(** C4. Whatever the records, the sigma of the small tier is 40 days and
    that of the large tier 90 (no history) or 100 (with history), not the
    36 and 96 days that 40% of 90 and of 240 days give; with history the
    medium, xlarge and default tiers are 66, 144 and 66 days; without
    history the mapping has no xlarge tier. *)
Theorem calibrate_sigma_tiers
        (df_cal df_proy : DataFrame) (d : list (string * pyfloat))
        (Hcal : calibrate_rayleigh_sigma df_cal df_proy = Ok d) :
  dict_get d "small" = Some (Fin 40)
  /\ 40 <> 90 * (4 / 10)
  /\ 100 <> 240 * (4 / 10)
  /\ ((dict_get d "large" = Some (Fin 90)
       /\ dict_get d "xlarge" = None
       /\ dict_get d "confidence" = Some (Fin (5 / 10))
       /\ dict_keys d = ["default"; "small"; "medium"; "large"; "confidence"])
      \/ (dict_get d "large" = Some (Fin 100)
          /\ dict_get d "medium" = Some (Fin 66)
          /\ dict_get d "xlarge" = Some (Fin 144)
          /\ dict_get d "default" = Some (Fin (165 * (4 / 10)))
          /\ dict_get d "confidence" = Some (Fin (8 / 10)))).
Proof.
  unfold calibrate_rayleigh_sigma in Hcal.
  destruct (project_defects df_cal) as [pd | e]; [| discriminate Hcal].
  unfold bind in Hcal.
  split; [| split; [lra | split; [lra |]]].
  - destruct pd; inversion Hcal; reflexivity.
  - destruct pd; inversion Hcal; [left | right]; repeat split; reflexivity.
Qed.

Lemma calibrate_sigma_tiers_witness :
  exists d,
    calibrate_rayleigh_sigma sample_quality no_projects = Ok d
    /\ dict_get d "small" = Some (Fin 40).
Proof.
  destruct (calibrate_rayleigh_sigma sample_quality no_projects)
    as [d | e] eqn:E; [| discriminate E].
  exists d. split; [reflexivity |].
  exact (proj1 (calibrate_sigma_tiers sample_quality no_projects d E)).
Defined.

(** *** The curve *)

Lemma rayleigh_pdf_nonneg (sg t : R) :
  sg <> 0 -> 0 <= t -> 0 <= rayleigh_pdf sg t.
Proof.
  intros Hs Ht. unfold rayleigh_pdf.
  assert (Hss : 0 < sg * sg) by nra.
  apply Rmult_le_pos; [| left; apply exp_pos].
  unfold Rdiv. apply Rmult_le_pos; [exact Ht |].
  left. apply Rinv_0_lt_compat, Hss.
Qed.

Lemma rayleigh_pdf_pos (sg t : R) :
  sg <> 0 -> 0 < t -> 0 < rayleigh_pdf sg t.
Proof.
  intros Hs Ht. unfold rayleigh_pdf.
  assert (Hss : 0 < sg * sg) by nra.
  apply Rmult_lt_0_compat; [| apply exp_pos].
  unfold Rdiv. apply Rmult_lt_0_compat; [exact Ht |].
  apply Rinv_0_lt_compat, Hss.
Qed.

Lemma trapz_cons2 (y0 y1 x0 x1 : R) (ys xs : list R) :
  trapz (y0 :: y1 :: ys) (x0 :: x1 :: xs)
  = (x1 - x0) * (y1 + y0) / 2 + trapz (y1 :: ys) (x1 :: xs).
Proof. reflexivity. Qed.

(** Scaling the ordinates scales the integral. *)
Lemma trapz_scale (c : R) (ys : list R) :
  forall xs, trapz (map (fun p => p * c) ys) xs = trapz ys xs * c.
Proof.
  induction ys as [| y0 ys IH]; intro xs; [simpl; lra |].
  destruct xs as [| x0 xs]; [simpl; lra |].
  destruct ys as [| y1 ys]; [simpl; lra |].
  destruct xs as [| x1 xs]; [simpl; lra |].
  change (map (fun p => p * c) (y0 :: y1 :: ys))
    with (y0 * c :: y1 * c :: map (fun p => p * c) ys).
  rewrite !trapz_cons2.
  change (y1 * c :: map (fun p => p * c) ys)
    with (map (fun p => p * c) (y1 :: ys)).
  rewrite IH. lra.
Qed.

Section Grid.
Variable f : R -> R.
Variable h : R.
Hypothesis h_nonneg : 0 <= h.
Hypothesis f_nonneg : forall t, 0 <= t -> 0 <= f t.

Lemma grid_nonneg (a n : nat) (t : R) : In t (grid h a n) -> 0 <= t.
Proof.
  unfold grid. intro H. apply in_map_iff in H.
  destruct H as [i [<- _]]. apply Rmult_le_pos; [apply pos_INR | exact h_nonneg].
Qed.

Lemma grid_cons (a n : nat) :
  grid h a (S n) = INR a * h :: grid h (S a) n.
Proof. reflexivity. Qed.

(** A non-negative function has a non-negative trapezoidal integral
    over an increasing grid. *)
Lemma trapz_grid_nonneg (n : nat) :
  forall a, 0 <= trapz (map f (grid h a n)) (grid h a n).
Proof.
  induction n as [| n IH]; intro a; [simpl; lra |].
  destruct n as [| n]; [simpl; lra |].
  specialize (IH (S a)).
  rewrite (grid_cons a), (grid_cons (S a)), !map_cons, trapz_cons2.
  rewrite (grid_cons (S a)), map_cons in IH.
  assert (H0 : 0 <= f (INR a * h))
    by (apply f_nonneg, Rmult_le_pos; [apply pos_INR | exact h_nonneg]).
  assert (H1 : 0 <= f (INR (S a) * h))
    by (apply f_nonneg, Rmult_le_pos; [apply pos_INR | exact h_nonneg]).
  assert (Hd : 0 <= INR (S a) * h - INR a * h)
    by (rewrite S_INR; nra).
  assert (Hfirst : 0 <= (INR (S a) * h - INR a * h)
                        * (f (INR (S a) * h) + f (INR a * h)) / 2)
    by (unfold Rdiv; apply Rmult_le_pos; [apply Rmult_le_pos |]; lra).
  lra.
Qed.

(** With a positive step and a positive value at the first step the
    integral over at least two points is positive. *)
Lemma trapz_grid_pos (n : nat) :
  0 < h -> 0 < f h ->
  0 < trapz (map f (grid h 0 (S (S n)))) (grid h 0 (S (S n))).
Proof.
  intros Hh Hf.
  pose proof (trapz_grid_nonneg (S n) 1) as Hrest.
  rewrite (grid_cons 0), (grid_cons 1), !map_cons, trapz_cons2.
  rewrite (grid_cons 1), map_cons in Hrest.
  assert (H0 : 0 <= f (INR 0 * h))
    by (apply f_nonneg; simpl; lra).
  replace (INR 1 * h) with h in * by (simpl; lra).
  replace (INR 0 * h) with 0 in * by (simpl; lra).
  assert (Hfirst : 0 < (h - 0) * (f h + f 0) / 2)
    by (unfold Rdiv; apply Rmult_lt_0_compat;
        [apply Rmult_lt_0_compat |]; lra).
  lra.
Qed.

End Grid.

Lemma linspace0_is_grid (stop : R) (num : nat) :
  linspace0 stop num = grid (stop / INR (num - 1)) 0 num.
Proof. reflexivity. Qed.

Lemma Forall2_map_below (f : R -> R) (l : list R) :
  (forall x, In x l -> f x <= x) -> Forall2 Rle (map f l) l.
Proof.
  induction l as [| x l IH]; simpl; intro H; constructor.
  - apply H. auto.
  - apply IH. intros y Hy. apply H. auto.
Qed.

Lemma Forall2_map_above (g : R -> R) (l : list R) :
  (forall x, In x l -> x <= g x) -> Forall2 Rle l (map g l).
Proof.
  induction l as [| x l IH]; simpl; intro H; constructor.
  - apply H. auto.
  - apply IH. intros y Hy. apply H. auto.
Qed.

(** The curve for at least two days, a non-zero sigma and a non-negative
    total: it is returned, integrates to the total, peaks at sigma and
    lies within its confidence band. *)
Lemma generate_rayleigh_curve_sound (total : R) (n : nat) (sg cl : R) :
  sg <> 0 -> 0 <= total ->
  exists c,
    generate_rayleigh_curve total (S (S n)) (Some sg) cl = Ok c
    /\ List.length (time c) = S (S n)
    /\ List.length (defects_per_day c) = S (S n)
    /\ trapz (defects_per_day c) (time c) = total
    /\ peak_day c = sg
    /\ Forall2 Rle (lower_bound c) (defects_per_day c)
    /\ Forall2 Rle (defects_per_day c) (upper_bound c).
Proof.
  intros Hs Ht. unfold generate_rayleigh_curve.
  set (D := S (S n)).
  set (tm := linspace0 (INR D) D).
  set (pdf := map (rayleigh_pdf sg) tm).
  assert (HD : 0 < INR D) by (apply lt_0_INR; unfold D; lia).
  assert (HD1 : 0 < INR (D - 1)) by (apply lt_0_INR; unfold D; lia).
  assert (Hh : 0 < INR D / INR (D - 1)) by (apply Rdiv_lt_0_compat; assumption).
  assert (Hlen : List.length tm = D)
    by (unfold tm, linspace0; rewrite length_map, length_seq; reflexivity).
  assert (HI : 0 < trapz pdf tm).
  { unfold pdf, tm. rewrite linspace0_is_grid. unfold D at 2 4.
    apply trapz_grid_pos.
    - apply Rlt_le, Hh.
    - intros t Ht0. apply rayleigh_pdf_nonneg; assumption.
    - exact Hh.
    - apply rayleigh_pdf_pos; assumption. }
  destruct (Rlt_dec 0 (trapz pdf tm)) as [_ | Hn]; [| contradiction].
  set (k := total / trapz pdf tm).
  assert (Hk : 0 <= k)
    by (unfold k, Rdiv; apply Rmult_le_pos;
        [exact Ht | left; apply Rinv_0_lt_compat, HI]).
  assert (Hnonneg : forall x, In x (map (fun p => p * k) pdf) -> 0 <= x).
  { intros x Hx. apply in_map_iff in Hx. destruct Hx as [p [<- Hp]].
    unfold pdf in Hp. apply in_map_iff in Hp. destruct Hp as [t [<- Hin]].
    apply Rmult_le_pos; [| exact Hk].
    apply rayleigh_pdf_nonneg; [exact Hs |].
    unfold tm in Hin. rewrite linspace0_is_grid in Hin.
    apply (grid_nonneg _ (Rlt_le _ _ Hh) _ _ _ Hin). }
  remember (map (fun p => p * k) pdf) as dpd eqn:Edpd.
  assert (Hdlen : List.length dpd = D)
    by (rewrite Edpd; unfold pdf; rewrite !length_map; exact Hlen).
  destruct dpd as [| d ds]; [discriminate Hdlen |].
  eexists. split; [reflexivity |].
  cbn [time defects_per_day lower_bound upper_bound peak_day].
  split; [exact Hlen |]. split; [exact Hdlen |]. split; [| split].
  - rewrite Edpd, trapz_scale. unfold k. field. lra.
  - reflexivity.
  - split.
    + rewrite map_map. apply Forall2_map_below. intros x Hx.
      specialize (Hnonneg x Hx).
      destruct (Rle_dec (95 / 100) cl); apply Rmax_lub; lra.
    + apply Forall2_map_above. intros x Hx.
      specialize (Hnonneg x Hx).
      destruct (Rle_dec (95 / 100) cl); lra.
Qed.

(** C5. For 180 days, sigma 72 and 100 defects the curve is returned with
    180 points; the trapezoidal integral of [defects_per_day] over [time]
    is 100; [peak_day] is 72; and at every point
    [lower_bound <= defects_per_day <= upper_bound], whatever the
    confidence level. *)
Theorem generate_rayleigh_curve_180_72_100 (confidence_level : R) :
  exists c,
    generate_rayleigh_curve 100 180 (Some 72) confidence_level = Ok c
    /\ List.length (time c) = 180%nat
    /\ List.length (defects_per_day c) = 180%nat
    /\ trapz (defects_per_day c) (time c) = 100
    /\ peak_day c = 72
    /\ Forall2 Rle (lower_bound c) (defects_per_day c)
    /\ Forall2 Rle (defects_per_day c) (upper_bound c).
Proof.
  apply (generate_rayleigh_curve_sound 100 178 72 confidence_level); lra.
Qed.

End RayleighRealFacts.

(** * Further properties of the code *)

(** ** Rounding *)

Module PyFacts.
Import Py Spec Lqa.

Lemma round_half_even_bounds (x : Q) :
  (Qfloor x <= round_half_even x <= Qfloor x + 1)%Z.
Proof.
  unfold round_half_even.
  destruct (Qcompare (x - inject_Z (Qfloor x)) (1 # 2));
    [destruct (Z.even _) | |]; lia.
Qed.

Lemma round_half_even_Z (z : Z) : round_half_even (inject_Z z) = z.
Proof.
  unfold round_half_even. rewrite Qfloor_Z.
  destruct (Qcompare_spec (inject_Z z - inject_Z z) (1 # 2)) as [H | H | H];
    try reflexivity; exfalso; lra.
Qed.

Lemma round_half_even_mono (x y : Q) :
  x <= y -> (round_half_even x <= round_half_even y)%Z.
Proof.
  intro Hxy.
  pose proof (Qfloor_resp_le x y Hxy) as Hf.
  destruct (Z.eq_dec (Qfloor x) (Qfloor y)) as [E | E].
  - unfold round_half_even. rewrite E.
    assert (Hfrac : x - inject_Z (Qfloor y) <= y - inject_Z (Qfloor y)) by lra.
    destruct (Qcompare_spec (x - inject_Z (Qfloor y)) (1 # 2)) as [Hx | Hx | Hx];
      destruct (Qcompare_spec (y - inject_Z (Qfloor y)) (1 # 2)) as [Hy | Hy | Hy];
      try (destruct (Z.even (Qfloor y))); try lia; exfalso; lra.
  - pose proof (round_half_even_bounds x). pose proof (round_half_even_bounds y).
    lia.
Qed.

Lemma scale_pos (ndigits : nat) : 0 < scale ndigits.
Proof.
  unfold scale. change 0 with (inject_Z 0). rewrite <- Zlt_Qlt.
  apply Z.pow_pos_nonneg; lia.
Qed.

Lemma round_unfold (x : Q) (ndigits : nat) :
  round x ndigits
  = inject_Z (round_half_even (x * scale ndigits)) / scale ndigits.
Proof. reflexivity. Qed.

Lemma round_mono (x y : Q) (ndigits : nat) :
  x <= y -> round x ndigits <= round y ndigits.
Proof.
  intro H. rewrite !round_unfold.
  pose proof (scale_pos ndigits) as Hs.
  apply Qmult_le_compat_r; [| apply Qlt_le_weak, Qinv_lt_0_compat, Hs].
  rewrite <- Zle_Qle. apply round_half_even_mono.
  apply Qmult_le_compat_r; [exact H | lra].
Qed.

(** A number with at most [ndigits] decimals is left alone. *)
Lemma round_exact (z : Z) (ndigits : nat) :
  round (inject_Z z / scale ndigits) ndigits == inject_Z z / scale ndigits.
Proof.
  rewrite round_unfold.
  pose proof (scale_pos ndigits) as Hs.
  assert (E : inject_Z z / scale ndigits * scale ndigits == inject_Z z)
    by (field; lra).
  assert (Hr : round_half_even (inject_Z z / scale ndigits * scale ndigits) = z).
  { apply Z.le_antisymm.
    - rewrite <- (round_half_even_Z z) at 2.
      apply round_half_even_mono. rewrite E. lra.
    - rewrite <- (round_half_even_Z z) at 1.
      apply round_half_even_mono. rewrite E. lra. }
  rewrite Hr. reflexivity.
Qed.

Lemma round_ge (z : Z) (x : Q) (ndigits : nat) :
  inject_Z z / scale ndigits <= x ->
  inject_Z z / scale ndigits <= round x ndigits.
Proof.
  intro H. rewrite <- (round_exact z ndigits). apply round_mono, H.
Qed.

Lemma round_le (z : Z) (x : Q) (ndigits : nat) :
  x <= inject_Z z / scale ndigits ->
  round x ndigits <= inject_Z z / scale ndigits.
Proof.
  intro H. rewrite <- (round_exact z ndigits). apply round_mono, H.
Qed.

(** Integer bounds survive rounding. *)
Lemma round_ge_Z (c : Z) (x : Q) (ndigits : nat) :
  inject_Z c <= x -> inject_Z c <= round x ndigits.
Proof.
  intro H. pose proof (scale_pos ndigits) as Hs.
  assert (E : inject_Z c == inject_Z (c * 10 ^ Z.of_nat ndigits) / scale ndigits).
  { rewrite inject_Z_mult. fold (scale ndigits). field. lra. }
  rewrite E. apply round_ge. rewrite <- E. exact H.
Qed.

Lemma round_le_Z (c : Z) (x : Q) (ndigits : nat) :
  x <= inject_Z c -> round x ndigits <= inject_Z c.
Proof.
  intro H. pose proof (scale_pos ndigits) as Hs.
  assert (E : inject_Z c == inject_Z (c * 10 ^ Z.of_nat ndigits) / scale ndigits).
  { rewrite inject_Z_mult. fold (scale ndigits). field. lra. }
  rewrite E. apply round_le. rewrite <- E. exact H.
Qed.

End PyFacts.

(** ** dice, pivot, trends and cube validation *)

Module OlapExtra.
Import Py Olap Spec Samples Lqa.

Lemma filter_filter_and {A : Type} (f g : A -> bool) (l : list A) :
  filter g (filter f l) = filter (fun x => f x && g x) l.
Proof.
  induction l as [| x l IH]; simpl; [reflexivity |].
  destruct (f x); simpl; [destruct (g x) |]; rewrite IH; reflexivity.
Qed.

Lemma filter_all {A : Type} (l : list A) : filter (fun _ => true) l = l.
Proof. induction l as [| x l IH]; simpl; [| rewrite IH]; reflexivity. Qed.

Lemma cell_of_same_columns (df res : DataFrame) (dim : string) (r : list cell) :
  columns res = columns df -> cell_of res dim r = cell_of df dim r.
Proof. intro H. unfold cell_of, col_index, column_names. rewrite H. reflexivity. Qed.

(** What one turn of the loop does when it does not raise. *)
Lemma dice_step_ok (df res res' : DataFrame) (flt : string * filter_value) :
  columns res = columns df ->
  dice_step df res flt = Ok res' ->
  known df flt = true
  /\ rows res' = filter (fun r => passes df r flt) (rows res)
  /\ keeps_columns df res'
  /\ (literal flt = true -> columns res' = columns df).
Proof.
  intros Hcols. unfold dice_step, known, passes, literal.
  destruct (has_column df (fst flt)) eqn:Hk; simpl; [| discriminate].
  assert (Hcell : forall r, cell_of df (fst flt) r = cell_of res (fst flt) r)
    by (intro r; symmetry; apply cell_of_same_columns, Hcols).
  unfold cell_of in Hcell.
  destruct (col_index res (fst flt)) as [i |] eqn:Hi; [| discriminate].
  destruct (snd flt) as [v | test].
  - intro H. inversion H; subst res'; clear H. simpl.
    split; [reflexivity |]. split; [| split].
    + apply filter_ext. intro r. unfold cell_of. rewrite Hcell. reflexivity.
    + left. exact Hcols.
    + intros _. exact Hcols.
  - destruct (rows res) as [| r0 rs] eqn:Hrows.
    + intro H. inversion H; subst res'; clear H. simpl.
      split; [reflexivity |]. split; [reflexivity |].
      split; [right; auto | discriminate].
    + intro H. inversion H; subst res'; clear H. cbn [rows columns].
      split; [reflexivity |]. split; [| split].
      * transitivity (filter (fun r => test (cell_at i r)) (r0 :: rs));
          [reflexivity |].
        apply filter_ext. intro r. unfold cell_of. rewrite Hcell. reflexivity.
      * left. exact Hcols.
      * discriminate.
Qed.

Lemma dice_step_no_columns (df res : DataFrame) (flt : string * filter_value) :
  columns res = [] -> exists e, dice_step df res flt = Raise e.
Proof.
  intro H. unfold dice_step.
  destruct (negb (has_column df (fst flt))); [eauto |].
  unfold col_index, column_names. rewrite H. simpl. eauto.
Qed.

Lemma dice_loop_rows (df : DataFrame) (filters : list (string * filter_value)) :
  forall (res out : DataFrame) (P : list cell -> bool),
    keeps_columns df res ->
    rows res = filter P (rows df) ->
    dice_loop df res filters = Ok out ->
    forallb (known df) filters = true
    /\ rows out = filter (fun r => P r && forallb (passes df r) filters) (rows df)
    /\ keeps_columns df out.
Proof.
  induction filters as [| flt fs IH]; simpl; intros res out P Hk Hrows Hout.
  - inversion Hout; subst out. split; [reflexivity |]. split; [| exact Hk].
    rewrite Hrows. apply filter_ext. intro r. rewrite andb_true_r. reflexivity.
  - destruct (dice_step df res flt) as [res' |] eqn:Hstep; [| discriminate].
    simpl in Hout.
    destruct Hk as [Hcols | [Hcols _]];
      [| destruct (dice_step_no_columns df res flt Hcols) as [e He];
         rewrite He in Hstep; discriminate].
    destruct (dice_step_ok df res res' flt Hcols Hstep) as [Hkn [Hr [Hk' _]]].
    destruct (IH res' out (fun r => P r && passes df r flt) Hk') as [Hks [Ho Hko]];
      [rewrite Hr, Hrows; apply filter_filter_and | exact Hout |].
    split; [rewrite Hkn, Hks; reflexivity |]. split; [| exact Hko].
    rewrite Ho. apply filter_ext. intro r. rewrite andb_assoc. reflexivity.
Qed.

(** X1. When [dice] returns, every filter names a column, the rows of the
    result are exactly the rows of the input that pass all filters, in the
    input's order, and the result has the input's columns or is a frame
    without columns and rows. *)
Theorem dice_rows_pass_filters
        (df out : DataFrame) (filters : list (string * filter_value))
        (Hout : dice df filters = Ok out) :
  forallb (known df) filters = true
  /\ rows out = filter (fun r => forallb (passes df r) filters) (rows df)
  /\ keeps_columns df out.
Proof.
  destruct (dice_loop_rows df filters df out (fun _ => true)) as [Hk [Hr Hc]].
  - left. reflexivity.
  - symmetry. apply filter_all.
  - exact Hout.
  - split; [exact Hk |]. split; [| exact Hc].
    rewrite Hr. apply filter_ext. reflexivity.
Qed.

Lemma dice_rows_pass_filters_witness :
  exists out,
    dice sample_projects
         [("nombre_pais", FEq (CStr "China")); ("anio", FEq (CNum 2024))]
    = Ok out
    /\ List.length (rows out) = 2%nat.
Proof.
  destruct (dice sample_projects
                 [("nombre_pais", FEq (CStr "China")); ("anio", FEq (CNum 2024))])
    as [out |] eqn:E; [| discriminate E].
  exists out. split; [reflexivity |].
  destruct (dice_rows_pass_filters _ _ _ E) as [_ [Hr _]].
  rewrite Hr. reflexivity.
Defined.

Lemma dice_loop_literals (df : DataFrame) (filters : list (string * filter_value)) :
  forall res,
    columns res = columns df ->
    forallb literal filters = true ->
    (forallb (known df) filters = true ->
     dice_loop df res filters
     = Ok {| columns := columns df;
             rows := filter (fun r => forallb (passes df r) filters) (rows res) |})
    /\ (forallb (known df) filters = false ->
        exists msg, dice_loop df res filters = Raise (ValueError msg)).
Proof.
  induction filters as [| flt fs IH]; simpl; intros res Hcols Hlit.
  - split; [| discriminate]. intros _. rewrite filter_all, <- Hcols.
    destruct res; reflexivity.
  - apply andb_true_iff in Hlit. destruct Hlit as [Hl Hls].
    destruct (dice_step df res flt) as [res' | e] eqn:Hstep.
    + destruct (dice_step_ok df res res' flt Hcols Hstep) as [Hkn [Hr [_ Hc]]].
      specialize (Hc Hl). rewrite Hkn. simpl.
      destruct (IH res' Hc Hls) as [IHok IHbad].
      split.
      * intro H. rewrite (IHok H), Hr, filter_filter_and. reflexivity.
      * exact IHbad.
    + simpl. unfold dice_step in Hstep. unfold known at 1 3.
      destruct (has_column df (fst flt)) eqn:Hk; simpl in *.
      * exfalso. unfold col_index, column_names in Hstep. rewrite Hcols in Hstep.
        fold (column_names df) in Hstep.
        destruct (KpiFacts.index_of_mem _ _ Hk) as [i Hi]. rewrite Hi in Hstep.
        unfold literal in Hl. destruct (snd flt); discriminate.
      * split; [discriminate |]. intros _. inversion Hstep. eauto.
Qed.

(** X2. With literal filter values only, [dice] returns exactly when every
    dimension is a column of the frame, and then gives the frame with the
    same columns and the rows equal to every literal (the frame itself for
    no filter); otherwise it raises a ValueError. *)
Theorem dice_literal_filters
        (df : DataFrame) (filters : list (string * filter_value))
        (Hliteral : forallb literal filters = true) :
  (forallb (known df) filters = true ->
   dice df filters
   = Ok {| columns := columns df;
           rows := filter (fun r => forallb (passes df r) filters) (rows df) |})
  /\ (forallb (known df) filters = false ->
      exists msg, dice df filters = Raise (ValueError msg))
  /\ dice df [] = Ok df.
Proof.
  destruct (dice_loop_literals df filters df eq_refl Hliteral) as [Hok Hbad].
  split; [exact Hok |]. split; [exact Hbad | reflexivity].
Qed.

Lemma dice_literal_filters_witness :
  exists msg,
    dice sample_projects [("region", FEq (CStr "China"))]
    = Raise (ValueError msg).
Proof.
  assert (Hl : forallb literal [("region", FEq (CStr "China"))] = true)
    by reflexivity.
  exact (proj1 (proj2 (dice_literal_filters sample_projects _ Hl)) eq_refl).
Defined.

Lemma dice_loop_app (df : DataFrame) (f1 f2 : list (string * filter_value)) :
  forall res,
    dice_loop df res (f1 ++ f2)
    = (r <- dice_loop df res f1 ;; dice_loop df r f2).
Proof.
  induction f1 as [| flt f1 IH]; simpl; intro res; [reflexivity |].
  destruct (dice_step df res flt) as [res' | e]; simpl; [apply IH | reflexivity].
Qed.

Lemma dice_loop_same_columns (df df' : DataFrame)
      (filters : list (string * filter_value)) :
  columns df = columns df' ->
  forall res, dice_loop df res filters = dice_loop df' res filters.
Proof.
  intro H. induction filters as [| flt fs IH]; simpl; intro res; [reflexivity |].
  assert (Hstep : dice_step df res flt = dice_step df' res flt)
    by (unfold dice_step, has_column, column_names; rewrite H; reflexivity).
  rewrite Hstep. destruct (dice_step df' res flt); simpl; [apply IH | reflexivity].
Qed.

(** X3. Filtering by literals composes: [dice] with the filters [f1]
    followed by [f2] is [dice] with [f1] and then [dice] of its result with
    [f2]; and [dice] with one literal on a column of the frame is
    [slice_olap]. *)
Theorem dice_composes
        (df : DataFrame) (f1 f2 : list (string * filter_value))
        (Hliteral : forallb literal f1 = true) :
  dice df (f1 ++ f2) = (r <- dice df f1 ;; dice r f2)
  /\ (forall dimension value,
         has_column df dimension = true ->
         dice df [(dimension, FEq value)] = slice_olap df dimension value).
Proof.
  split.
  - unfold dice. rewrite dice_loop_app.
    destruct (dice_loop_literals df f1 df eq_refl Hliteral) as [Hok Hbad].
    destruct (forallb (known df) f1) eqn:Hk.
    + rewrite (Hok eq_refl). simpl.
      apply dice_loop_same_columns. reflexivity.
    + destruct (Hbad eq_refl) as [msg ->]. reflexivity.
  - intros dimension value Hcol.
    destruct (dice_loop_literals df [(dimension, FEq value)] df eq_refl eq_refl)
      as [Hok _].
    unfold dice. rewrite Hok by (simpl; unfold known; simpl; rewrite Hcol; reflexivity).
    unfold slice_olap. rewrite Hcol. simpl. f_equal. f_equal.
    apply filter_ext. intro r. unfold passes. simpl. rewrite andb_true_r.
    reflexivity.
Qed.

Lemma dice_composes_witness :
  dice sample_projects
       ([("nombre_pais", FEq (CStr "China"))] ++ [("anio", FEq (CNum 2024))])
  = (r <- dice sample_projects [("nombre_pais", FEq (CStr "China"))] ;;
     dice r [("anio", FEq (CNum 2024))]).
Proof.
  assert (Hl : forallb literal [("nombre_pais", FEq (CStr "China"))] = true)
    by reflexivity.
  exact (proj1 (dice_composes sample_projects
                              [("nombre_pais", FEq (CStr "China"))]
                              [("anio", FEq (CNum 2024))] Hl)).
Defined.

(** *** validate_olap_cube *)

Lemma filter_nil_iff {A : Type} (f : A -> bool) (l : list A) :
  filter f l = [] <-> forall x, In x l -> f x = false.
Proof.
  induction l as [| a l IH]; simpl.
  - split; [intros _ x [] | reflexivity].
  - destruct (f a) eqn:E.
    + split; [discriminate |]. intro H. rewrite (H a) in E by auto. discriminate.
    + rewrite IH. split.
      * intros H x [-> | Hx]; auto.
      * intros H x Hx. apply H. auto.
Qed.

Lemma length_eqb_0 {A : Type} (l : list A) :
  (List.length l =? 0)%nat = true <-> l = [].
Proof. destruct l; simpl; split; intro H; try reflexivity; discriminate. Qed.

Lemma dict_get_set_same {V : Type} (d : list (string * V)) (k : string) (v : V) :
  dict_get (dict_set d k v) k = Some v.
Proof.
  induction d as [| [k' v'] d IH]; simpl.
  - rewrite String.eqb_refl. reflexivity.
  - destruct (String.eqb k k') eqn:E; simpl; rewrite E; [reflexivity | exact IH].
Qed.

Lemma dict_get_set_other {V : Type} (d : list (string * V)) (k k' : string) (v : V) :
  k' <> k -> dict_get (dict_set d k v) k' = dict_get d k'.
Proof.
  intro Hne. induction d as [| [k0 v0] d IH]; simpl.
  - apply String.eqb_neq in Hne. rewrite Hne. reflexivity.
  - destruct (String.eqb_spec k k0) as [E | E]; simpl.
    + subst k0. apply String.eqb_neq in Hne. rewrite Hne. reflexivity.
    + destruct (String.eqb k' k0); [reflexivity | exact IH].
Qed.

Lemma null_counts_lookup (df : DataFrame) (measures : list string) (m : string) :
  forall d,
    dict_get
      (fold_left
         (fun d measure =>
            if has_column df measure
            then dict_set d measure (null_count df measure)
            else d)
         measures d) m
    = if mem m measures && has_column df m
      then Some (null_count df m)
      else dict_get d m.
Proof.
  induction measures as [| x ms IH]; simpl; intro d; [reflexivity |].
  rewrite IH. destruct (String.eqb_spec m x) as [E | E]; simpl.
  - subst x. destruct (has_column df m) eqn:Hc.
    + rewrite andb_true_r, dict_get_set_same.
      destruct (mem m ms); reflexivity.
    + rewrite andb_false_r. reflexivity.
  - destruct (mem m ms && has_column df m); [reflexivity |].
    destruct (has_column df x); [apply dict_get_set_other, E | reflexivity].
Qed.

Lemma null_count_bounds (df : DataFrame) (m : string) :
  (0 <= null_count df m <= len df)%Z.
Proof.
  unfold null_count, len.
  pose proof (filter_length_le is_null (map (cell_of df m) (rows df))) as H.
  rewrite length_map in H. lia.
Qed.

(** X4. [validate_olap_cube] reports a cube as valid exactly when every
    required dimension and measure is a column; its missing lists are the
    required names that are not columns; and [null_counts] has an entry,
    the number of missing values (between 0 and the row count), for exactly
    the required measures that are columns. *)
Theorem validate_olap_cube_report
        (df : DataFrame) (required_dimensions required_measures : list string) :
  let report := validate_olap_cube df required_dimensions required_measures in
  (valid report = true <->
   forall c, In c (required_dimensions ++ required_measures)%list ->
             has_column df c = true)
  /\ (forall c, In c (missing_dimensions report) <->
                In c required_dimensions /\ has_column df c = false)
  /\ (forall c, In c (missing_measures report) <->
                In c required_measures /\ has_column df c = false)
  /\ (forall m, In m required_measures -> has_column df m = true ->
                dict_get (null_counts report) m = Some (null_count df m)
                /\ (0 <= null_count df m <= row_count report)%Z)
  /\ (forall m, has_column df m = false \/ ~ In m required_measures ->
                dict_get (null_counts report) m = None).
Proof.
  cbn zeta. unfold validate_olap_cube. cbn [valid missing_dimensions
    missing_measures null_counts row_count].
  split; [| split; [| split; [| split]]].
  - rewrite andb_true_iff, !length_eqb_0, !filter_nil_iff. split.
    + intros [Hd Hm] c Hc. apply in_app_or in Hc.
      destruct Hc as [Hc | Hc]; [specialize (Hd c Hc) | specialize (Hm c Hc)];
        destruct (has_column df c); [reflexivity | discriminate
                                    | reflexivity | discriminate].
    + intro H. split; intros c Hc; rewrite H; try reflexivity;
        apply in_or_app; auto.
  - intro c. rewrite filter_In, negb_true_iff. reflexivity.
  - intro c. rewrite filter_In, negb_true_iff. reflexivity.
  - intros m Hin Hc. rewrite null_counts_lookup.
    apply OlapFacts.mem_In in Hin. rewrite Hin, Hc. simpl.
    split; [reflexivity | apply null_count_bounds].
  - intros m H. rewrite null_counts_lookup.
    destruct H as [H | H].
    + rewrite H, andb_false_r. reflexivity.
    + destruct (mem m required_measures) eqn:E; [| reflexivity].
      apply OlapFacts.mem_In in E. contradiction.
Qed.

Lemma validate_olap_cube_report_witness :
  valid (validate_olap_cube sample_projects ["nombre_pais"] ["ganancia_neta"])
  = true
  /\ dict_get (null_counts (validate_olap_cube sample_projects ["nombre_pais"]
                                               ["nombre_cliente"]))
              "nombre_cliente" = Some 1%Z.
Proof.
  split.
  - apply (proj1 (validate_olap_cube_report sample_projects ["nombre_pais"]
                                            ["ganancia_neta"])).
    simpl. intros c [<- | [<- | []]]; reflexivity.
  - apply (proj1 (proj2 (proj2 (proj2 (validate_olap_cube_report
             sample_projects ["nombre_pais"] ["nombre_cliente"])))));
      [simpl; auto | reflexivity].
Defined.

(** *** calculate_metric_trend *)

Lemma relative_change_up (first last_val : Q) :
  ~ first == 0 ->
  5 < (last_val - first) / Qabs first * 100 -> first < last_val.
Proof.
  intros Hne H.
  assert (Ha : 0 < Qabs first).
  { pose proof (Qabs_nonneg first) as Hn.
    destruct (Qlt_le_dec 0 (Qabs first)) as [Hp | Hp]; [exact Hp |].
    exfalso. apply Hne.
    assert (Hz : Qabs first == 0) by lra.
    revert Hz. apply Qabs_case; intros; lra. }
  set (q := (last_val - first) / Qabs first) in *.
  assert (Hx : last_val - first == q * Qabs first) by (unfold q; field; lra).
  assert (Hq : 0 < q * Qabs first) by (apply Qmult_lt_0_compat; lra).
  lra.
Qed.

Lemma relative_change_down (first last_val : Q) :
  ~ first == 0 ->
  (last_val - first) / Qabs first * 100 < - (5) -> last_val < first.
Proof.
  intros Hne H.
  assert (Ha : 0 < Qabs first).
  { pose proof (Qabs_nonneg first) as Hn.
    destruct (Qlt_le_dec 0 (Qabs first)) as [Hp | Hp]; [exact Hp |].
    exfalso. apply Hne.
    assert (Hz : Qabs first == 0) by lra.
    revert Hz. apply Qabs_case; intros; lra. }
  set (q := (last_val - first) / Qabs first) in *.
  assert (Hx : last_val - first == q * Qabs first) by (unfold q; field; lra).
  assert (Hq : 0 < (- q) * Qabs first) by (apply Qmult_lt_0_compat; lra).
  lra.
Qed.

(** The value the trend compares the last bucket with. *)
Lemma first_val_not_zero (v : Q) :
  ~ (if negb (Qeq_bool v 0) then v else 1 # 100) == 0.
Proof.
  destruct (Qeq_bool v 0) eqn:E; simpl.
  - intro H. discriminate H.
  - intro H. apply Qeq_bool_iff in H. congruence.
Qed.

Lemma first_val_ge (v : Q) :
  v <= (if negb (Qeq_bool v 0) then v else 1 # 100).
Proof.
  destruct (Qeq_bool v 0) eqn:E; simpl; [| lra].
  apply Qeq_bool_iff in E. lra.
Qed.



Lemma tail_length {A : Type} (n : Z) (l : list A) :
  (0 <= n)%Z -> (Z.of_nat (List.length (tail n l)) <= n)%Z.
Proof.
  intro Hn. unfold tail.
  destruct (n =? 0)%Z eqn:E0; [simpl; lia |].
  destruct (0 <? n)%Z eqn:Ep; [| lia].
  rewrite length_skipn. lia.
Qed.

Lemma tail_all {A : Type} (n : Z) (l : list A) :
  (Z.of_nat (List.length l) <= n)%Z -> tail n l = l.
Proof.
  intro H. unfold tail.
  destruct (n =? 0)%Z eqn:E0.
  - destruct l; [reflexivity | simpl in H; lia].
  - destruct (0 <? n)%Z eqn:Ep; [| lia].
    replace (List.length l - Z.to_nat n)%nat with 0%nat by lia. reflexivity.
Qed.

Lemma trend_values_of (df : DataFrame) (time_column metric_column : string)
      (periods : Z) :
  has_column df time_column = true ->
  has_column df metric_column = true ->
  trend_values (calculate_metric_trend df time_column metric_column periods)
  = tail periods (map snd (grouped_sums df time_column metric_column)).
Proof.
  intros Ht Hm. unfold calculate_metric_trend. rewrite Ht, Hm. simpl.
  destruct (List.length _ <? 2)%nat; reflexivity.
Qed.

Lemma grouped_sums_total (df : DataFrame) (by_col measure : string) :
  list_sum (map snd (grouped_sums df by_col measure))
  == total_groups (weight df measure) (groupby df [by_col]).
Proof.
  unfold grouped_sums. rewrite map_map. simpl.
  induction (groupby df [by_col]) as [| g gs IH]; simpl; [lra |].
  rewrite IH, OlapFacts.sum_cells_total_rows. lra.
Qed.



(** *** pivot_olap *)



(** *** drill_down and roll_up *)

Lemma insert_group_not_nil (k r : list cell) (gs : list group) :
  insert_group k r gs <> [].
Proof.
  destruct gs as [| [k' rs] gs]; simpl; [discriminate |].
  destruct (key_compare k k'); discriminate.
Qed.

Lemma insert_group_length (k r : list cell) (gs : list group) :
  (List.length (insert_group k r gs) <= S (List.length gs))%nat.
Proof.
  induction gs as [| [k' rs] gs IH]; simpl; [lia |].
  destruct (key_compare k k'); simpl; lia.
Qed.

(** No group at all: every row was dropped for its missing key. *)
Lemma groupby_fold_nil (df : DataFrame) (group_cols : list string)
      (rs : list (list cell)) :
  forall acc,
    fold_left (groupby_step df group_cols) rs acc = []
    <-> acc = []
        /\ Forall (fun r => existsb is_null (key_of df group_cols r) = true) rs.
Proof.
  induction rs as [| r rs IH]; intro acc; simpl.
  - split; [intro H; split; [exact H | constructor] | intros [H _]; exact H].
  - rewrite IH. unfold groupby_step.
    destruct (existsb is_null (key_of df group_cols r)) eqn:E.
    + split; intros [Ha Hf].
      * split; [exact Ha | constructor; assumption].
      * split; [exact Ha | inversion Hf; assumption].
    + split; intros [Ha Hf].
      * exfalso. exact (insert_group_not_nil _ _ _ Ha).
      * inversion Hf; congruence.
Qed.

Lemma groupby_fold_length (df : DataFrame) (group_cols : list string)
      (rs : list (list cell)) :
  forall acc,
    (List.length (fold_left (groupby_step df group_cols) rs acc)
     <= List.length acc + List.length rs)%nat.
Proof.
  induction rs as [| r rs IH]; intro acc; simpl; [lia |].
  specialize (IH (groupby_step df group_cols acc r)).
  unfold groupby_step in *.
  destruct (existsb is_null (key_of df group_cols r)); [lia |].
  pose proof (insert_group_length (key_of df group_cols r) r acc). lia.
Qed.

Lemma agg_columns_nil (df : DataFrame) (group_cols : list string) :
  agg_columns df group_cols = []
  <-> forall c, In c (column_names df) -> mem c group_cols = true.
Proof.
  unfold agg_columns, column_names.
  induction (columns df) as [| [c d] l IH]; simpl.
  - split; [intros _ c [] | reflexivity].
  - destruct (mem c group_cols) eqn:E; simpl.
    + rewrite IH. split.
      * intros H c' [<- | Hc']; [exact E | apply H, Hc'].
      * intros H c' Hc'. apply H. right. exact Hc'.
    + split; [discriminate |]. intro H.
      specialize (H c (or_introl eq_refl)). congruence.
Qed.



(** *** Grouping twice *)

Lemma Qplus_0_r_eq (q : Q) : q + 0 = q.
Proof.
  destruct q as [n d]. unfold Qplus. cbn [Qnum Qden].
  rewrite Z.mul_1_r, Z.mul_0_l, Z.add_0_r, Pos.mul_1_r. reflexivity.
Qed.

Lemma cell_compare_antisym (a b : cell) :
  cell_compare b a = CompOpp (cell_compare a b).
Proof.
  destruct a as [x | s |], b as [y | t |]; simpl; try reflexivity.
  - symmetry. apply Qcompare_antisym.
  - apply String.compare_antisym.
Qed.

Lemma cell_compare_eq_eq (a b c : cell) :
  cell_compare a b = Eq -> cell_compare b c = Eq -> cell_compare a c = Eq.
Proof.
  destruct a as [x | s |], b as [y | t |], c as [z | u |]; simpl;
    try discriminate; try reflexivity.
  - rewrite <- !Qeq_alt. intros H1 H2. rewrite H1. exact H2.
  - intros H1 H2. apply String.compare_eq_iff in H1. subst. exact H2.
Qed.

Lemma cell_compare_eq_lt (a b c : cell) :
  cell_compare a b = Eq -> cell_compare b c = Lt -> cell_compare a c = Lt.
Proof.
  destruct a as [x | s |], b as [y | t |], c as [z | u |]; simpl;
    try discriminate; try reflexivity.
  - rewrite <- Qeq_alt, <- !Qlt_alt. intros H1 H2. rewrite H1. exact H2.
  - intros H1 H2. apply String.compare_eq_iff in H1. subst. exact H2.
Qed.

Lemma cell_compare_lt_eq (a b c : cell) :
  cell_compare a b = Lt -> cell_compare b c = Eq -> cell_compare a c = Lt.
Proof.
  destruct a as [x | s |], b as [y | t |], c as [z | u |]; simpl;
    try discriminate; try reflexivity.
  - rewrite <- Qeq_alt, <- !Qlt_alt. intros H1 H2. rewrite <- H2. exact H1.
  - intros H1 H2. apply String.compare_eq_iff in H2. subst. exact H1.
Qed.

Lemma cell_compare_lt_lt (a b c : cell) :
  cell_compare a b = Lt -> cell_compare b c = Lt -> cell_compare a c = Lt.
Proof.
  destruct a as [x | s |], b as [y | t |], c as [z | u |]; simpl;
    try discriminate; try reflexivity.
  - rewrite <- !Qlt_alt. apply Qlt_trans.
  - intros H1 H2.
    apply OrderedTypeEx.String_as_OT.cmp_lt.
    apply OrderedTypeEx.String_as_OT.cmp_lt in H1, H2.
    exact (OrderedTypeEx.String_as_OT.lt_trans _ _ _ H1 H2).
Qed.

Lemma key_compare_antisym (k1 : list cell) :
  forall k2, key_compare k2 k1 = CompOpp (key_compare k1 k2).
Proof.
  induction k1 as [| a k1 IH]; intros [| b k2]; simpl; try reflexivity.
  rewrite (cell_compare_antisym a b).
  destruct (cell_compare a b); simpl; [apply IH | reflexivity | reflexivity].
Qed.

Lemma key_compare_lt_trans (k1 : list cell) :
  forall k2 k3,
    key_compare k1 k2 = Lt -> key_compare k2 k3 = Lt -> key_compare k1 k3 = Lt.
Proof.
  induction k1 as [| a k1 IH]; intros [| b k2] [| c k3]; simpl;
    try discriminate; try reflexivity.
  destruct (cell_compare a b) eqn:Eab; try discriminate;
    destruct (cell_compare b c) eqn:Ebc; try discriminate; intros H1 H2.
  - rewrite (cell_compare_eq_eq _ _ _ Eab Ebc). apply (IH k2); assumption.
  - rewrite (cell_compare_eq_lt _ _ _ Eab Ebc). reflexivity.
  - rewrite (cell_compare_lt_eq _ _ _ Eab Ebc). reflexivity.
  - rewrite (cell_compare_lt_lt _ _ _ Eab Ebc). reflexivity.
Qed.

(** [groupby] keeps its groups in strictly increasing key order. *)
Lemma insert_group_keys (k r : list cell) (gs : list group) (P : list cell -> Prop) :
  P k -> Forall (fun g : group => P (fst g)) gs ->
  Forall (fun g : group => P (fst g)) (insert_group k r gs).
Proof.
  intros Hk. induction gs as [| [k' rs] gs IH]; simpl; intro H.
  - repeat constructor. exact Hk.
  - inversion H as [| ? ? Hhd Htl]; subst.
    destruct (key_compare k k'); constructor; auto.
Qed.

Lemma insert_group_sorted (k r : list cell) (gs : list group) :
  ForallOrdPairs (fun g1 g2 : group => key_compare (fst g1) (fst g2) = Lt) gs ->
  ForallOrdPairs (fun g1 g2 : group => key_compare (fst g1) (fst g2) = Lt)
                 (insert_group k r gs).
Proof.
  induction gs as [| [k' rs] gs IH]; simpl; intro H.
  - constructor; constructor.
  - inversion H as [| ? ? Hhd Htl]; subst.
    destruct (key_compare k k') eqn:E.
    + constructor; assumption.
    + constructor; [| exact H].
      constructor; [exact E |].
      revert Hhd. apply Forall_impl. intros g Hg. cbn [fst] in *.
      exact (key_compare_lt_trans _ _ _ E Hg).
    + constructor; [| apply IH, Htl].
      apply (insert_group_keys k r gs (fun k0 => key_compare k' k0 = Lt)).
      * rewrite key_compare_antisym, E. reflexivity.
      * exact Hhd.
Qed.

Lemma groupby_fold_sorted (df : DataFrame) (group_cols : list string)
      (rs : list (list cell)) :
  forall acc,
    ForallOrdPairs (fun g1 g2 : group => key_compare (fst g1) (fst g2) = Lt) acc ->
    ForallOrdPairs (fun g1 g2 : group => key_compare (fst g1) (fst g2) = Lt)
                   (fold_left (groupby_step df group_cols) rs acc).
Proof.
  induction rs as [| r rs IH]; simpl; intros acc H; [exact H |].
  apply IH. unfold groupby_step.
  destruct (existsb is_null (key_of df group_cols r)); [exact H |].
  apply insert_group_sorted, H.
Qed.

(** Every group key is the key of a row of the frame and holds no missing
    value. *)
Lemma groupby_fold_keys (df : DataFrame) (group_cols : list string)
      (rs : list (list cell)) :
  forall acc,
    Forall (fun g : group =>
              existsb is_null (fst g) = false
              /\ exists r, fst g = key_of df group_cols r) acc ->
    Forall (fun g : group =>
              existsb is_null (fst g) = false
              /\ exists r, fst g = key_of df group_cols r)
           (fold_left (groupby_step df group_cols) rs acc).
Proof.
  induction rs as [| r rs IH]; simpl; intros acc H; [exact H |].
  apply IH. unfold groupby_step.
  destruct (existsb is_null (key_of df group_cols r)) eqn:E; [exact H |].
  apply (insert_group_keys _ r acc
           (fun k => existsb is_null k = false
                     /\ exists r, k = key_of df group_cols r)).
  - split; [exact E | exists r; reflexivity].
  - exact H.
Qed.

(** Grouping one row per key, in key order, gives one group per row. *)
Lemma regroup_sorted (out : DataFrame) (group_cols : list string)
      (row_of : group -> list cell) (gs2 : list group) :
  forall gs1,
    ForallOrdPairs (fun g1 g2 : group => key_compare (fst g1) (fst g2) = Lt)
                   (gs1 ++ gs2) ->
    Forall (fun g : group =>
              existsb is_null (fst g) = false
              /\ key_of out group_cols (row_of g) = fst g) gs2 ->
    fold_left (groupby_step out group_cols) (map row_of gs2)
              (map (fun g : group => (fst g, [row_of g])) gs1)
    = map (fun g : group => (fst g, [row_of g])) (gs1 ++ gs2).
Proof.
  induction gs2 as [| g gs2 IH]; intros gs1 Hs Hk.
  - rewrite app_nil_r. reflexivity.
  - inversion Hk as [| ? ? [Hnull Hkey] Hk']; subst.
    cbn [map fold_left]. unfold groupby_step at 2. rewrite Hkey, Hnull.
    assert (Hins : insert_group (fst g) (row_of g)
                     (map (fun g0 : group => (fst g0, [row_of g0])) gs1)
                   = map (fun g0 : group => (fst g0, [row_of g0])) (gs1 ++ [g])).
    { assert (Hlt : Forall (fun g1 : group =>
                              key_compare (fst g1) (fst g) = Lt) gs1).
      { clear - Hs. induction gs1 as [| g1 gs1 IH]; [constructor |].
        cbn [app] in Hs. inversion Hs as [| ? ? Hhd Htl]; subst.
        constructor; [| apply IH, Htl].
        rewrite Forall_forall in Hhd. apply Hhd.
        apply in_or_app. right. left. reflexivity. }
      clear - Hlt. induction gs1 as [| g1 gs1 IH]; [reflexivity |].
      inversion Hlt as [| ? ? H1 Htl]; subst.
      cbn [map app insert_group fst].
      rewrite key_compare_antisym, H1. cbn [CompOpp].
      rewrite (IH Htl). reflexivity. }
    rewrite Hins.
    rewrite (IH (gs1 ++ [g])%list).
    + rewrite <- app_assoc. reflexivity.
    + rewrite <- app_assoc. exact Hs.
    + exact Hk'.
Qed.

Lemma index_of_app_in (name : string) (l1 l2 : list string) :
  mem name l1 = true -> index_of name (l1 ++ l2) = index_of name l1.
Proof.
  induction l1 as [| x l1 IH]; simpl; [discriminate |].
  destruct (String.eqb name x); [reflexivity |]. simpl.
  intro H. rewrite (IH H). reflexivity.
Qed.

Lemma index_of_nth (name : string) (l : list string) :
  forall i, index_of name l = Some i -> nth_error l i = Some name.
Proof.
  induction l as [| x l IH]; simpl; intros i H; [discriminate H |].
  destruct (String.eqb name x) eqn:E.
  - injection H as <-. apply String.eqb_eq in E. subst. reflexivity.
  - destruct (index_of name l) as [j |]; [| discriminate H].
    injection H as <-. simpl. apply IH. reflexivity.
Qed.

Lemma index_of_unique {V : Type} (l : list (string * V)) (c : string * V) :
  NoDup (map fst l) -> In c l ->
  exists j, index_of (fst c) (map fst l) = Some j /\ nth_error l j = Some c.
Proof.
  induction l as [| x l IH]; simpl; intros Hnd Hin; [destruct Hin |].
  inversion Hnd as [| ? ? Hx Hnd']; subst.
  destruct Hin as [-> | Hin].
  - rewrite String.eqb_refl. exists 0%nat. split; reflexivity.
  - destruct (String.eqb (fst c) (fst x)) eqn:E.
    + exfalso. apply String.eqb_eq in E. apply Hx. rewrite <- E.
      apply in_map, Hin.
    + destruct (IH Hnd' Hin) as [j [Hj Hn]]. rewrite Hj.
      exists (S j). split; [reflexivity | exact Hn].
Qed.

Lemma NoDup_map_filter {V : Type} (f : string * V -> bool) (l : list (string * V)) :
  NoDup (map fst l) -> NoDup (map fst (filter f l)).
Proof.
  induction l as [| x l IH]; simpl; intro H; [constructor |].
  inversion H as [| ? ? Hx Hnd]; subst.
  destruct (f x); [| apply IH, Hnd].
  simpl. constructor; [| apply IH, Hnd].
  intro Hin. apply Hx. apply in_map_iff in Hin.
  destruct Hin as [y [Ey Hy]]. apply filter_In in Hy.
  rewrite <- Ey. apply in_map, Hy.
Qed.

Lemma first_valid_single (l : list cell) :
  first_valid [first_valid l] = first_valid l.
Proof. destruct (first_valid l); reflexivity. Qed.

Lemma filter_idem {A : Type} (f : A -> bool) (l : list A) :
  filter f (filter f l) = filter f l.
Proof.
  induction l as [| x l IH]; simpl; [reflexivity |].
  destruct (f x) eqn:E; simpl; rewrite ?E, IH; reflexivity.
Qed.

Lemma mem_app (name : string) (l1 l2 : list string) :
  mem name (l1 ++ l2) = mem name l1 || mem name l2.
Proof. unfold mem. apply existsb_app. Qed.

Lemma mem_filter_other (name : string) (f : string -> bool) (l : list string) :
  f name = true -> mem name (filter f l) = mem name l.
Proof.
  intro Hf. induction l as [| x l IH]; simpl; [reflexivity |].
  destruct (f x) eqn:E; simpl.
  - rewrite IH. reflexivity.
  - rewrite IH. destruct (String.eqb name x) eqn:En; [| reflexivity].
    apply String.eqb_eq in En. subst. congruence.
Qed.

Lemma frame_eta (d : DataFrame) :
  {| columns := columns d; rows := rows d |} = d.
Proof. destruct d. reflexivity. Qed.

Section Regroup.

Variable df out : DataFrame.
Variable group_cols : list string.
Hypothesis group_cols_in_frame :
  forall c, In c group_cols -> has_column df c = true.
Hypothesis columns_out :
  columns out
  = (map (group_dtype df) group_cols ++ agg_columns df group_cols)%list.

Lemma column_names_out :
  column_names out
  = (group_cols ++ map fst (agg_columns df group_cols))%list.
Proof.
  unfold column_names. rewrite columns_out, map_app.
  rewrite OlapFacts.map_fst_group_dtype. reflexivity.
Qed.

Lemma has_column_out (c : string) : has_column out c = has_column df c.
Proof.
  unfold has_column at 1. rewrite column_names_out, mem_app.
  destruct (mem c group_cols) eqn:E.
  - symmetry. apply group_cols_in_frame. apply OlapFacts.mem_In, E.
  - cbn [orb]. unfold agg_columns, has_column, column_names.
    induction (columns df) as [| [x d] l IH]; simpl; [reflexivity |].
    destruct (mem x group_cols) eqn:Ex; simpl; rewrite IH.
    + destruct (String.eqb c x) eqn:Ec; [| reflexivity].
      apply String.eqb_eq in Ec. subst. congruence.
    + reflexivity.
Qed.

Lemma agg_columns_out : agg_columns out group_cols = agg_columns df group_cols.
Proof.
  unfold agg_columns at 1. rewrite columns_out, filter_app.
  assert (H : filter (fun c : string * dtype => negb (mem (fst c) group_cols))
                     (map (group_dtype df) group_cols) = []).
  { assert (Hall : forall l, (forall c, In c l -> mem c group_cols = true) ->
                             filter (fun c : string * dtype =>
                                       negb (mem (fst c) group_cols))
                                    (map (group_dtype df) l) = []).
    { induction l as [| x l IH]; intro Hl; [reflexivity |].
      simpl. rewrite (Hl x (or_introl eq_refl)). simpl.
      apply IH. intros c Hc. apply Hl. right. exact Hc. }
    apply Hall. intros c Hc. apply OlapFacts.mem_In, Hc. }
  rewrite H. unfold agg_columns. apply filter_idem.
Qed.

Lemma group_dtype_out :
  map (group_dtype out) group_cols = map (group_dtype df) group_cols.
Proof.
  apply map_ext_in. intros g Hg. unfold group_dtype at 1, col_dtype.
  rewrite columns_out.
  assert (H : forall l rest,
             In g l ->
             dict_get (map (group_dtype df) l ++ rest)%list g
             = Some (snd (group_dtype df g))).
  { induction l as [| x l IH]; intros rest Hin; [destruct Hin |].
    cbn [map app dict_get]. unfold group_dtype at 1.
    destruct (String.eqb g x) eqn:E.
    - apply String.eqb_eq in E. subst. reflexivity.
    - destruct Hin as [-> | Hin]; [rewrite String.eqb_refl in E; discriminate |].
      apply IH, Hin. }
  rewrite (H group_cols _ Hg). reflexivity.
Qed.

(** The key of an aggregated row is the key of its group. *)
Lemma key_of_agg_row (g : group) (r : list cell) :
  fst g = key_of df group_cols r ->
  key_of out group_cols (agg_row df group_cols g) = fst g.
Proof.
  intro Hk. transitivity (key_of df group_cols r); [| symmetry; exact Hk].
  unfold key_of. apply map_ext_in.
  intros c Hc. unfold cell_of at 1, col_index.
  rewrite column_names_out.
  rewrite index_of_app_in by (apply OlapFacts.mem_In, Hc).
  destruct (KpiFacts.index_of_mem c group_cols) as [i Hi];
    [apply OlapFacts.mem_In, Hc |].
  rewrite Hi. apply index_of_nth in Hi.
  unfold cell_at, agg_row. rewrite Hk. unfold key_of.
  assert (Hlt : (i < List.length group_cols)%nat)
    by (apply nth_error_Some; congruence).
  rewrite app_nth1 by (rewrite length_map; exact Hlt).
  apply nth_error_nth.
  rewrite (map_nth_error _ _ _ Hi). reflexivity.
Qed.

Hypothesis distinct_columns : NoDup (column_names df).

(** Aggregating the single row of a group again changes nothing. *)
Lemma agg_cell_again (g : group) (c : string * dtype) :
  List.length (fst g) = List.length group_cols ->
  In c (agg_columns df group_cols) ->
  agg_cell out [agg_row df group_cols g] c = agg_cell df (snd g) c.
Proof.
  intros Hlen Hin.
  assert (Hcell : cell_of out (fst c) (agg_row df group_cols g)
                  = agg_cell df (snd g) c).
  { unfold cell_of, col_index. rewrite column_names_out.
    assert (Hmem : mem (fst c) group_cols = false).
    { unfold agg_columns in Hin. apply filter_In in Hin.
      destruct Hin as [_ H]. apply negb_true_iff in H. exact H. }
    rewrite (OlapFacts.index_of_app_skip _ _ _ Hmem).
    destruct (index_of_unique (agg_columns df group_cols) c) as [j [Hj Hn]];
      [apply NoDup_map_filter, distinct_columns | exact Hin |].
    rewrite Hj. cbn [option_map]. unfold cell_at, agg_row.
    rewrite <- Hlen, app_nth2_plus.
    apply nth_error_nth. rewrite (map_nth_error _ _ _ Hn). reflexivity. }
  unfold agg_cell at 1. cbn [map]. rewrite Hcell.
  unfold agg_cell. destruct (snd c).
  - unfold sum_cells. cbn [fold_right num_of]. rewrite Qplus_0_r_eq.
    reflexivity.
  - apply first_valid_single.
Qed.

Hypothesis rows_out :
  rows out = map (agg_row df group_cols) (groupby df group_cols).

Lemma groupby_again :
  groupby out group_cols
  = map (fun g : group => (fst g, [agg_row df group_cols g]))
        (groupby df group_cols).
Proof.
  rewrite (OlapFacts.groupby_is_fold out), rows_out.
  apply (regroup_sorted out group_cols (agg_row df group_cols)
                        (groupby df group_cols) []).
  - cbn [app]. rewrite OlapFacts.groupby_is_fold.
    apply groupby_fold_sorted. constructor.
  - pose proof (groupby_fold_keys df group_cols (rows df) [] (Forall_nil _))
      as H.
    rewrite <- OlapFacts.groupby_is_fold in H.
    revert H. apply Forall_impl. intros g [Hnull [r Hr]].
    split; [exact Hnull | apply (key_of_agg_row g r), Hr].
Qed.

Lemma groupby_agg_again :
  agg_columns df group_cols <> [] ->
  groupby_agg out group_cols = Ok out.
Proof.
  intro Hagg. unfold groupby_agg. rewrite agg_columns_out.
  assert (Hm : forall (a : list (string * dtype)) (x : DataFrame),
             a <> [] ->
             match a with
             | [] => Raise (ValueError "No objects to concatenate")
             | _ :: _ => Ok x
             end = Ok x)
    by (intros [| c cs] x H; [contradiction | reflexivity]).
  rewrite (Hm _ _ Hagg).
  rewrite group_dtype_out, groupby_again, map_map.
  transitivity (Ok {| columns := columns out; rows := rows out |});
    [| rewrite frame_eta; reflexivity].
  f_equal. f_equal.
  - symmetry. exact columns_out.
  - rewrite rows_out. apply map_ext_in. intros g Hg.
    unfold agg_row at 1. cbn [fst snd]. unfold agg_row. f_equal.
    rewrite agg_columns_out. apply map_ext_in. intros c' Hc'.
    apply agg_cell_again; [| exact Hc'].
    pose proof (OlapFacts.fold_step_key_length df group_cols (rows df) []
                  (Forall_nil _)) as Hkeys.
    rewrite <- OlapFacts.groupby_is_fold in Hkeys.
    rewrite Forall_forall in Hkeys. apply Hkeys, Hg.
Qed.

End Regroup.

(** X30. Drilling down (or rolling up) is idempotent on frames with
    distinct column names: applied to its own result, with the same
    hierarchy and target level, either function returns that result
    unchanged. *)
Theorem drill_down_idempotent
        (df out : DataFrame) (dimension dimension' : string)
        (hierarchy : list string) (target_level : string)
        (Hdistinct : NoDup (column_names df))
        (Hout : drill_down df dimension hierarchy target_level = Ok out) :
  drill_down out dimension' hierarchy target_level = Ok out
  /\ roll_up out dimension' hierarchy target_level = Ok out.
Proof.
  unfold drill_down in Hout.
  destruct (negb (mem target_level hierarchy)) eqn:Em; [discriminate Hout |].
  destruct (group_cols_of df hierarchy target_level) as [| g gs] eqn:Eg;
    [discriminate Hout |].
  assert (Hin : forall c, In c (g :: gs) -> has_column df c = true).
  { intros c Hc. rewrite <- Eg in Hc. unfold group_cols_of in Hc.
    apply filter_In in Hc. apply Hc. }
  assert (Hagg : agg_columns df (g :: gs) <> []).
  { unfold groupby_agg in Hout.
    destruct (agg_columns df (g :: gs)); [discriminate Hout | discriminate]. }
  assert (Hcols : columns out
                  = (map (group_dtype df) (g :: gs)
                     ++ agg_columns df (g :: gs))%list).
  { unfold groupby_agg in Hout.
    destruct (agg_columns df (g :: gs)); [discriminate Hout |].
    injection Hout as <-. reflexivity. }
  assert (Hrows : rows out
                  = map (agg_row df (g :: gs)) (groupby df (g :: gs))).
  { unfold groupby_agg in Hout.
    destruct (agg_columns df (g :: gs)); [discriminate Hout |].
    injection Hout as <-. reflexivity. }
  assert (Hgc : group_cols_of out hierarchy target_level = g :: gs).
  { rewrite <- Eg. unfold group_cols_of. apply filter_ext.
    intro c. apply (has_column_out df out (g :: gs) Hin Hcols). }
  assert (Hagain : groupby_agg out (g :: gs) = Ok out)
    by (apply (groupby_agg_again df); assumption).
  unfold drill_down, roll_up. rewrite Em, Hgc. split; exact Hagain.
Qed.

Lemma drill_down_idempotent_witness :
  exists out,
    drill_down sample_projects "tiempo" ["nombre_pais"; "anio"] "anio" = Ok out
    /\ drill_down out "tiempo" ["nombre_pais"; "anio"] "anio" = Ok out.
Proof.
  destruct (drill_down sample_projects "tiempo" ["nombre_pais"; "anio"] "anio")
    as [out |] eqn:E; [| discriminate E].
  exists out. split; [reflexivity |].
  assert (Hd : NoDup (column_names sample_projects)).
  { unfold column_names. simpl.
    repeat (constructor; [simpl; intuition discriminate |]). constructor. }
  exact (proj1 (drill_down_idempotent sample_projects out "tiempo" "tiempo"
                  ["nombre_pais"; "anio"] "anio" Hd E)).
Defined.

End OlapExtra.

(** ** The KPI calculators together *)

Module KpiExtra.
Import Py Olap Kpi Spec Samples Lqa.

Lemma index_of_none (name : string) (l : list string) :
  index_of name l = None -> mem name l = false.
Proof.
  induction l as [| x l IH]; simpl; [reflexivity |].
  destruct (String.eqb name x); [discriminate |].
  destruct (index_of name l); [discriminate |]. intros _. apply IH. reflexivity.
Qed.

Lemma series_raise (df : DataFrame) (name : string) (e : exn) :
  series df name = Raise e -> e = KeyError name /\ has_column df name = false.
Proof.
  unfold series, col_index, has_column.
  destruct (index_of name (column_names df)) eqn:E; [discriminate |].
  intro H. inversion H. split; [reflexivity | apply index_of_none, E].
Qed.

Lemma series_ok (df : DataFrame) (name : string) (s : list cell) :
  series df name = Ok s ->
  s = map (cell_of df name) (rows df).
Proof.
  unfold series, cell_of.
  destruct (col_index df name); [| discriminate].
  intro H. inversion H. reflexivity.
Qed.

Lemma filter_map_length {A B : Type} (f : B -> bool) (g : A -> B) (l : list A) :
  List.length (filter f (map g l)) = List.length (filter (fun x => f (g x)) l).
Proof.
  induction l as [| x l IH]; simpl; [reflexivity |].
  destruct (f (g x)); simpl; rewrite IH; reflexivity.
Qed.

Lemma filter_or_length {A : Type} (f g : A -> bool) (l : list A) :
  (List.length (filter f l) <= List.length (filter (fun x => f x || g x) l))%nat.
Proof.
  induction l as [| x l IH]; simpl; [lia |].
  destruct (f x); simpl; [lia |]. destruct (g x); simpl; lia.
Qed.

Lemma percent_bounds (a b t : Z) :
  (0 <= a <= b)%Z -> (b <= t)%Z -> (0 < t)%Z ->
  0 <= inject_Z a / inject_Z t * 100
  /\ inject_Z a / inject_Z t * 100 <= inject_Z b / inject_Z t * 100
  /\ inject_Z b / inject_Z t * 100 <= 100.
Proof.
  intros [Ha Hab] Hbt Ht.
  assert (Ht' : 0 < inject_Z t) by (change 0 with (inject_Z 0); rewrite <- Zlt_Qlt; exact Ht).
  assert (Hi : 0 < / inject_Z t) by (apply Qinv_lt_0_compat, Ht').
  assert (Ha' : 0 <= inject_Z a) by (change 0 with (inject_Z 0); rewrite <- Zle_Qle; exact Ha).
  assert (Hab' : inject_Z a <= inject_Z b) by (rewrite <- Zle_Qle; exact Hab).
  assert (Hbt' : inject_Z b <= inject_Z t) by (rewrite <- Zle_Qle; exact Hbt).
  unfold Qdiv.
  assert (H1 : 0 <= inject_Z a * / inject_Z t)
    by (apply Qmult_le_0_compat; lra).
  assert (H2 : inject_Z a * / inject_Z t <= inject_Z b * / inject_Z t)
    by (apply Qmult_le_compat_r; lra).
  assert (H3 : inject_Z b * / inject_Z t <= inject_Z t * / inject_Z t)
    by (apply Qmult_le_compat_r; lra).
  assert (H4 : inject_Z t * / inject_Z t == 1) by (field; lra).
  lra.
Qed.

(** X8. On any frame on which both are computed, the completion rate and
    the team utilization are percentages, and the utilization is at least
    the completion rate: 0 <= completion <= utilization <= 100. *)
Theorem completion_below_utilization
        (df_proy : DataFrame) (completion utilization : kpi)
        (Hc : calculate_completion_rate df_proy = Ok completion)
        (Hu : calculate_team_utilization df_proy = Ok utilization) :
  0 <= fst completion
  /\ fst completion <= fst utilization
  /\ fst utilization <= 100.
Proof.
  unfold calculate_completion_rate in Hc.
  unfold calculate_team_utilization in Hu.
  destruct (empty df_proy) eqn:Eempty.
  - inversion Hc; inversion Hu; simpl. repeat split; lra.
  - destruct (series df_proy "ganancia_neta") as [gan |] eqn:Eg;
      [| discriminate Hc].
    destruct (series df_proy "costo_total_real") as [cost |] eqn:Ecost;
      [| discriminate Hu].
    simpl in Hc, Hu.
    assert (Hlen : (0 < len df_proy)%Z).
    { unfold len. unfold empty in Eempty.
      destruct (rows df_proy); [discriminate | simpl; lia]. }
    assert (Hpos : (len df_proy >? 0)%Z = true) by lia.
    rewrite Hpos in Hc, Hu.
    rewrite (series_ok _ _ _ Eg) in Hc.
    unfold Zlen in Hc, Hu. rewrite filter_map_length in Hc.
    set (completed := filter (fun r => gt0 (cell_of df_proy "ganancia_neta" r))
                             (rows df_proy)) in *.
    set (active := filter (fun r => gt0 (cell_of df_proy "ganancia_neta" r)
                                    || gt0 (cell_of df_proy "costo_total_real" r))
                          (rows df_proy)) in *.
    assert (H1 : (List.length completed <= List.length active)%nat)
      by apply filter_or_length.
    assert (H2 : (List.length active <= List.length (rows df_proy))%nat)
      by apply filter_length_le.
    destruct (percent_bounds (Z.of_nat (List.length completed))
                             (Z.of_nat (List.length active)) (len df_proy))
      as [B1 [B2 B3]]; [lia | unfold len; lia | exact Hlen |].
    inversion Hc; inversion Hu; simpl.
    split; [apply (PyFacts.round_ge_Z 0), B1 |].
    split; [apply PyFacts.round_mono, B2 | apply (PyFacts.round_le_Z 100), B3].
Qed.

Lemma completion_below_utilization_witness :
  exists completion utilization,
    calculate_completion_rate two_projects = Ok completion
    /\ calculate_team_utilization two_projects = Ok utilization
    /\ fst completion <= fst utilization.
Proof.
  destruct (calculate_completion_rate two_projects) as [c |] eqn:Ec;
    [| discriminate Ec].
  destruct (calculate_team_utilization two_projects) as [u |] eqn:Eu;
    [| discriminate Eu].
  exists c, u. split; [reflexivity |]. split; [reflexivity |].
  exact (proj1 (proj2 (completion_below_utilization two_projects c u Ec Eu))).
Defined.

Lemma bind_raise {A B : Type} (m : result A) (k : A -> result B) (e : exn) :
  bind m k = Raise e ->
  m = Raise e \/ exists a, m = Ok a /\ k a = Raise e.
Proof.
  destruct m as [a | e0]; simpl; intro H; [eauto |].
  left. inversion H. reflexivity.
Qed.

Lemma missing_proy (df_proy df_cal : DataFrame) (col : string) (e : exn) :
  In col ["ganancia_neta"; "costo_total_real"; "nombre_proyecto"] ->
  series df_proy col = Raise e -> missing_column df_proy df_cal e.
Proof.
  intros Hin H. apply series_raise in H. destruct H as [-> Hc].
  exists col. auto.
Qed.

Lemma missing_cal (df_proy df_cal : DataFrame) (e : exn) :
  series df_cal "cantidad_defectos_encontrados" = Raise e ->
  missing_column df_proy df_cal e.
Proof.
  intro H. apply series_raise in H. destruct H as [-> Hc].
  exists "cantidad_defectos_encontrados". auto.
Qed.

Lemma completion_rate_raise (df_proy df_cal : DataFrame) (e : exn) :
  calculate_completion_rate df_proy = Raise e -> missing_column df_proy df_cal e.
Proof.
  unfold calculate_completion_rate.
  destruct (empty df_proy); [discriminate |]. intro H.
  apply bind_raise in H. destruct H as [H | [a [_ H]]]; [| discriminate H].
  apply (missing_proy _ _ "ganancia_neta"); [simpl; auto | exact H].
Qed.

Lemma budget_efficiency_raise (df_proy df_cal : DataFrame) (e : exn) :
  calculate_budget_efficiency df_proy = Raise e -> missing_column df_proy df_cal e.
Proof.
  unfold calculate_budget_efficiency. intro H.
  apply bind_raise in H. destruct H as [H | [a [_ H]]];
    [apply (missing_proy _ _ "costo_total_real"); [simpl; auto | exact H] |].
  apply bind_raise in H. destruct H as [H | [b [_ H]]];
    [apply (missing_proy _ _ "ganancia_neta"); [simpl; auto | exact H] |].
  destruct (filter _ (rows df_proy)); discriminate H.
Qed.

Lemma team_utilization_raise (df_proy df_cal : DataFrame) (e : exn) :
  calculate_team_utilization df_proy = Raise e -> missing_column df_proy df_cal e.
Proof.
  unfold calculate_team_utilization.
  destruct (empty df_proy); [discriminate |]. intro H.
  apply bind_raise in H. destruct H as [H | [a [_ H]]];
    [apply (missing_proy _ _ "ganancia_neta"); [simpl; auto | exact H] |].
  apply bind_raise in H. destruct H as [H | [b [_ H]]];
    [apply (missing_proy _ _ "costo_total_real"); [simpl; auto | exact H] |].
  discriminate H.
Qed.

Lemma defect_density_raise (df_cal df_proy : DataFrame) (e : exn) :
  calculate_defect_density df_cal df_proy = Raise e ->
  missing_column df_proy df_cal e.
Proof.
  unfold calculate_defect_density.
  destruct (empty df_cal || empty df_proy); [discriminate |]. intro H.
  apply bind_raise in H. destruct H as [H | [a [_ H]]];
    [apply missing_cal, H |].
  apply bind_raise in H. destruct H as [H | [b [_ H]]];
    [apply (missing_proy _ _ "nombre_proyecto"); [simpl; auto | exact H] |].
  discriminate H.
Qed.

Lemma avg_resolution_time_raise (df_proy df_cal : DataFrame) (e : exn) :
  calculate_avg_resolution_time df_cal = Raise e ->
  missing_column df_proy df_cal e.
Proof.
  unfold calculate_avg_resolution_time.
  destruct (empty df_cal || negb (has_column df_cal "severidad"));
    [discriminate |]. intro H.
  apply bind_raise in H. destruct H as [H | [a [_ H]]];
    [apply missing_cal, H |].
  destruct (Qeq_bool (sum_cells a) 0); discriminate H.
Qed.

Lemma client_satisfaction_raise (df_proy df_cal : DataFrame) (e : exn) :
  calculate_client_satisfaction df_proy df_cal = Raise e ->
  missing_column df_proy df_cal e.
Proof.
  unfold calculate_client_satisfaction. intro H.
  apply bind_raise in H. destruct H as [H | [a [_ H]]];
    [apply budget_efficiency_raise, H |].
  apply bind_raise in H. destruct H as [H | [b [_ H]]];
    [apply defect_density_raise, H | discriminate H].
Qed.

Lemma all_kpis_keys (df_proy df_cal : DataFrame) (m : list (string * pyval)) :
  calculate_all_kpis df_proy df_cal = Ok m -> dict_keys m = known_kpis.
Proof.
  unfold calculate_all_kpis.
  destruct (calculate_completion_rate df_proy); [| discriminate].
  destruct (calculate_budget_efficiency df_proy); [| discriminate].
  destruct (calculate_team_utilization df_proy); [| discriminate].
  destruct (calculate_defect_density df_cal df_proy); [| discriminate].
  destruct (calculate_avg_resolution_time df_cal); [| discriminate].
  destruct (calculate_client_satisfaction df_proy df_cal); [| discriminate].
  simpl. intro H. inversion H. reflexivity.
Qed.



(** X10. The client satisfaction index, whenever it is computed, is built
    from the budget efficiency and the defect density of the same frames;
    it is at most 100 when the density is not negative and at least 0 when
    moreover the budget efficiency is not negative. *)
Theorem client_satisfaction_range
        (df_proy df_cal : DataFrame) (satisfaction : kpi)
        (Hs : calculate_client_satisfaction df_proy df_cal = Ok satisfaction) :
  exists budget density,
    calculate_budget_efficiency df_proy = Ok budget
    /\ calculate_defect_density df_cal df_proy = Ok density
    /\ (0 <= fst density -> fst satisfaction <= 100)
    /\ (0 <= fst budget -> 0 <= fst satisfaction).
Proof.
  unfold calculate_client_satisfaction in Hs.
  destruct (calculate_budget_efficiency df_proy) as [b |]; [| discriminate Hs].
  destruct (calculate_defect_density df_cal df_proy) as [d |];
    [| discriminate Hs].
  simpl in Hs. inversion Hs; subst satisfaction; clear Hs.
  exists b, d. split; [reflexivity |]. split; [reflexivity |]. simpl.
  pose proof (Q.le_min_r (fst b * 2) 100) as Hmin.
  pose proof (Q.le_max_r (100 - fst d * 2) 0) as Hmax.
  split; intro H.
  - apply (PyFacts.round_le_Z 100).
    assert (Hq : Qmax (100 - fst d * 2) 0 <= 100)
      by (apply Q.max_lub; lra).
    change (inject_Z 100) with 100. lra.
  - apply (PyFacts.round_ge_Z 0).
    assert (Hb : 0 <= Qmin (fst b * 2) 100)
      by (apply Q.min_glb; lra).
    change (inject_Z 0) with 0. lra.
Qed.

Lemma client_satisfaction_range_witness :
  exists satisfaction,
    calculate_client_satisfaction two_projects sample_quality = Ok satisfaction
    /\ fst satisfaction <= 100.
Proof.
  destruct (calculate_client_satisfaction two_projects sample_quality)
    as [k |] eqn:E; [| discriminate E].
  exists k. split; [reflexivity |].
  destruct (client_satisfaction_range two_projects sample_quality k E)
    as [b [d [Hb [Hd [Hle _]]]]].
  apply Hle. vm_compute in Hd. inversion Hd. simpl. discriminate.
Defined.

Ltac qle_facts :=
  repeat match goal with
         | H : Qle_bool _ _ = true |- _ => apply Qle_bool_iff in H
         | H : Qle_bool ?a ?b = false |- _ =>
             assert (b < a)
               by (let Hq := fresh "Hq" in
                   apply Qnot_le_lt; intro Hq; apply Qle_bool_iff in Hq;
                   congruence);
             clear H
         end.

(** X11. For the six known KPI names the colour is never gray, and it
    never gets worse as the value improves: for a higher-is-better KPI a
    larger value has at least the rank of a smaller one, for a
    lower-is-better KPI (defect density, resolution time) at most. *)
Theorem get_kpi_color_monotone
        (kpi_type : string) (v v' : Q)
        (Hknown : In kpi_type known_kpis) (Hle : v <= v') :
  get_kpi_color v kpi_type <> "gray"
  /\ (if lower_is_better kpi_type
      then color_rank (get_kpi_color v' kpi_type)
           <= color_rank (get_kpi_color v kpi_type)
      else color_rank (get_kpi_color v kpi_type)
           <= color_rank (get_kpi_color v' kpi_type))%Z.
Proof.
  simpl in Hknown.
  destruct Hknown as [<- | [<- | [<- | [<- | [<- | [<- | []]]]]]];
    unfold get_kpi_color, lower_is_better;
    cbn [dict_get thresholds String.eqb Ascii.eqb Bool.eqb green yellow inverse];
    repeat match goal with
           | |- context [Qle_bool ?a ?b] =>
               let E := fresh "E" in destruct (Qle_bool a b) eqn:E
           end;
    (split; [discriminate |]);
    first [ vm_compute; discriminate | exfalso; qle_facts; lra ].
Qed.

Lemma get_kpi_color_monotone_witness :
  (color_rank (get_kpi_color 12 "defect_density")
   <= color_rank (get_kpi_color 8 "defect_density"))%Z.
Proof.
  assert (Hk : In "defect_density" known_kpis) by (simpl; tauto).
  assert (Hle : 8 <= 12) by (unfold Qle; simpl; lia).
  exact (proj2 (get_kpi_color_monotone "defect_density" 8 12 Hk Hle)).
Defined.

Lemma grouped_sums_add_up (df : DataFrame) (by_col measure : string) :
  keys_present df [by_col] = true ->
  list_sum (map snd (grouped_sums df by_col measure)) == column_sum df measure.
Proof.
  intro Hkeys.
  rewrite OlapExtra.grouped_sums_total, OlapFacts.groupby_is_fold.
  rewrite (OlapFacts.total_fold_step (weight df measure) df [by_col] _ []
                                     Hkeys).
  unfold column_sum. rewrite OlapFacts.sum_cells_total_rows. simpl. lra.
Qed.

(** X12. When the defect density is computed on a quality frame whose rows
    all have a severity, the severity breakdown of its metadata adds up to
    the total of the defect-count column. *)
Theorem severity_breakdown_adds_up
        (df_cal df_proy : DataFrame) (density : kpi) (breakdown : list (cell * Q))
        (Hd : calculate_defect_density df_cal df_proy = Ok density)
        (Hb : dict_get (snd density) "severity_breakdown"
              = Some (VSeries breakdown))
        (Hcolumn : has_column df_cal "severidad" = true)
        (Hseverity : keys_present df_cal ["severidad"] = true) :
  list_sum (map snd breakdown)
  == column_sum df_cal "cantidad_defectos_encontrados".
Proof.
  unfold calculate_defect_density in Hd.
  destruct (empty df_cal || empty df_proy).
  - inversion Hd; subst density. discriminate Hb.
  - destruct (series df_cal "cantidad_defectos_encontrados"); [| discriminate Hd].
    destruct (series df_proy "nombre_proyecto"); [| discriminate Hd].
    simpl in Hd. inversion Hd; subst density; clear Hd.
    rewrite Hcolumn in Hb. simpl in Hb. inversion Hb; subst breakdown.
    apply grouped_sums_add_up, Hseverity.
Qed.

Lemma severity_breakdown_adds_up_witness :
  exists density breakdown,
    calculate_defect_density sample_quality two_projects = Ok density
    /\ dict_get (snd density) "severity_breakdown" = Some (VSeries breakdown)
    /\ list_sum (map snd breakdown) == 9.
Proof.
  destruct (calculate_defect_density sample_quality two_projects)
    as [k |] eqn:E; [| discriminate E].
  destruct (dict_get (snd k) "severity_breakdown") as [[| | | | bd] |] eqn:Eb;
    try (vm_compute in E; inversion E; subst k; discriminate Eb).
  exists k, bd. split; [reflexivity |]. split; [exact Eb |].
  rewrite (severity_breakdown_adds_up sample_quality two_projects k bd E Eb);
    reflexivity.
Defined.

Lemma estimated_days_bounds (c : cell) :
  1 # 2 <= estimated_days c /\ estimated_days c <= 7.
Proof.
  destruct c as [q | s |]; simpl; try (split; discriminate).
  unfold severity_days. cbn [dict_get].
  repeat match goal with
         | |- context [String.eqb ?a ?b] => destruct (String.eqb a b)
         end; split; discriminate.
Qed.

Lemma weighted_time_bounds (e w : list cell -> Q) (rs : list (list cell)) :
  (forall r, 1 # 2 <= e r /\ e r <= 7) ->
  (forall r, In r rs -> 0 <= w r) ->
  0 <= Kpi.Qsum (map w rs)
  /\ (1 # 2) * Kpi.Qsum (map w rs) <= Kpi.Qsum (map (fun r => e r * w r) rs)
  /\ Kpi.Qsum (map (fun r => e r * w r) rs) <= 7 * Kpi.Qsum (map w rs).
Proof.
  intros He. induction rs as [| r rs IH]; simpl; intro Hw.
  - repeat split; lra.
  - destruct IH as [I0 [I1 I2]]; [intros r' Hr'; apply Hw; auto |].
    destruct (He r) as [E1 E2].
    assert (Hr : 0 <= w r) by (apply Hw; auto).
    assert (P1 : 0 <= (e r - (1 # 2)) * w r) by (apply Qmult_le_0_compat; lra).
    assert (P2 : 0 <= (7 - e r) * w r) by (apply Qmult_le_0_compat; lra).
    repeat split; lra.
Qed.

Lemma sum_cells_Qsum (f : list cell -> cell) (rs : list (list cell)) :
  sum_cells (map f rs) = Kpi.Qsum (map (fun r => num_of (f r)) rs).
Proof.
  induction rs as [| r rs IH]; [reflexivity |].
  unfold sum_cells, Kpi.Qsum in *. simpl. rewrite IH. reflexivity.
Qed.

Lemma quotient_bounds (lo hi num den : Q) :
  0 < den -> lo * den <= num -> num <= hi * den ->
  lo <= num / den /\ num / den <= hi.
Proof.
  intros Hd Hlo Hhi.
  assert (Hx : num == num / den * den) by (field; lra).
  set (q := num / den) in *.
  split.
  - apply Qnot_lt_le. intro H.
    assert (0 < (lo - q) * den) by (apply Qmult_lt_0_compat; lra). lra.
  - apply Qnot_lt_le. intro H.
    assert (0 < (q - hi) * den) by (apply Qmult_lt_0_compat; lra). lra.
Qed.

(** X13. When no defect count is negative, the average resolution time is
    either the 0 of the "No data" / "No defects" answers or lies between
    half a day and seven days, the least and the greatest of the estimated
    days per severity. *)
Theorem avg_resolution_time_range
        (df_cal : DataFrame) (resolution : kpi)
        (Hr : calculate_avg_resolution_time df_cal = Ok resolution)
        (Hnonneg : defects_nonneg df_cal) :
  (fst resolution == 0
   /\ (status_of resolution = Some (VStr "No data")
       \/ status_of resolution = Some (VStr "No defects")))
  \/ (1 # 2 <= fst resolution /\ fst resolution <= 7).
Proof.
  unfold calculate_avg_resolution_time in Hr.
  destruct (empty df_cal || negb (has_column df_cal "severidad")).
  - inversion Hr. left. split; [reflexivity | left; reflexivity].
  - destruct (series df_cal "cantidad_defectos_encontrados") as [defects |] eqn:Es;
      [| discriminate Hr].
    simpl in Hr. apply series_ok in Es. subst defects.
    destruct (Qeq_bool _ 0) eqn:Ezero.
    + inversion Hr. left. split; [reflexivity | right; reflexivity].
    + inversion Hr; subst resolution; clear Hr. right. cbn [fst].
      rewrite sum_cells_Qsum in *.
      destruct (weighted_time_bounds
                  (fun r => estimated_days (cell_of df_cal "severidad" r))
                  (fun r => num_of (cell_of df_cal
                                            "cantidad_defectos_encontrados" r))
                  (rows df_cal))
        as [W0 [W1 W2]];
        [intro r; apply estimated_days_bounds | exact Hnonneg |].
      assert (Hpos : 0 < Kpi.Qsum
                           (map (fun r => num_of (cell_of df_cal
                                   "cantidad_defectos_encontrados" r))
                                (rows df_cal))).
      { apply Qnot_le_lt. intro H.
        assert (Hz : Kpi.Qsum
                       (map (fun r => num_of (cell_of df_cal
                               "cantidad_defectos_encontrados" r))
                            (rows df_cal)) == 0) by lra.
        apply Qeq_bool_iff in Hz. congruence. }
      destruct (quotient_bounds (1 # 2) 7 _ _ Hpos W1 W2) as [B1 B2].
      split.
      * assert (Hhalf : 1 # 2 == inject_Z 5 / scale 1) by reflexivity.
        rewrite Hhalf. apply PyFacts.round_ge. rewrite <- Hhalf. exact B1.
      * apply (PyFacts.round_le_Z 7). exact B2.
Qed.

Lemma avg_resolution_time_range_witness :
  exists resolution,
    calculate_avg_resolution_time sample_quality = Ok resolution
    /\ 1 # 2 <= fst resolution /\ fst resolution <= 7.
Proof.
  destruct (calculate_avg_resolution_time sample_quality) as [k |] eqn:E;
    [| discriminate E].
  exists k.
  assert (Hn : defects_nonneg sample_quality).
  { intros r Hr. simpl in Hr.
    destruct Hr as [<- | [<- | [<- | []]]]; discriminate. }
  destruct (avg_resolution_time_range sample_quality k E Hn) as [[H0 _] | H];
    [| split; [reflexivity | exact H]].
  exfalso. vm_compute in E. inversion E; subst k. discriminate H0.
Defined.

(** *** calculate_budget_efficiency *)

Lemma fold_Qmax_ge_init (l : list Q) : forall x, x <= fold_left Qmax l x.
Proof.
  induction l as [| y l IH]; intro x; simpl; [lra |].
  apply Qle_trans with (Qmax x y); [apply Q.le_max_l | apply IH].
Qed.

Lemma fold_Qmax_ge (l : list Q) :
  forall x y, In y (x :: l) -> y <= fold_left Qmax l x.
Proof.
  induction l as [| z l IH]; intros x y Hy.
  - destruct Hy as [Hy | []]. subst y. simpl. lra.
  - simpl. destruct Hy as [Hy | [Hy | Hy]].
    + subst y. apply Qle_trans with (Qmax x z);
        [apply Q.le_max_l | apply fold_Qmax_ge_init].
    + subst y. apply Qle_trans with (Qmax x z);
        [apply Q.le_max_r | apply fold_Qmax_ge_init].
    + apply IH. right. exact Hy.
Qed.

Lemma fold_Qmin_le_init (l : list Q) : forall x, fold_left Qmin l x <= x.
Proof.
  induction l as [| y l IH]; intro x; simpl; [lra |].
  apply Qle_trans with (Qmin x y); [apply IH | apply Q.le_min_l].
Qed.

Lemma fold_Qmin_le (l : list Q) :
  forall x y, In y (x :: l) -> fold_left Qmin l x <= y.
Proof.
  induction l as [| z l IH]; intros x y Hy.
  - destruct Hy as [Hy | []]. subst y. simpl. lra.
  - simpl. destruct Hy as [Hy | [Hy | Hy]].
    + subst y. apply Qle_trans with (Qmin x z);
        [apply fold_Qmin_le_init | apply Q.le_min_l].
    + subst y. apply Qle_trans with (Qmin x z);
        [apply fold_Qmin_le_init | apply Q.le_min_r].
    + apply IH. right. exact Hy.
Qed.

Lemma Qsum_bounds (lo hi : Q) (l : list Q) :
  (forall y, In y l -> lo <= y /\ y <= hi) ->
  lo * inject_Z (Zlen l) <= Qsum l /\ Qsum l <= hi * inject_Z (Zlen l).
Proof.
  unfold Zlen. induction l as [| x l IH]; intro H.
  - change (inject_Z (Z.of_nat (@List.length Q []))) with 0. simpl.
    split; lra.
  - destruct IH as [I1 I2]; [intros y Hy; apply H; right; exact Hy |].
    destruct (H x) as [H1 H2]; [left; reflexivity |].
    assert (E : inject_Z (Z.of_nat (List.length (x :: l)))
                == 1 + inject_Z (Z.of_nat (List.length l))).
    { cbn [List.length]. rewrite Nat2Z.inj_succ, <- Z.add_1_l, inject_Z_plus.
      reflexivity. }
    rewrite E. unfold Qsum in *. cbn [fold_right].
    set (n := inject_Z (Z.of_nat (List.length l))) in *.
    set (t := fold_right Qplus 0 l) in *.
    assert (E1 : lo * (1 + n) == lo + lo * n) by ring.
    assert (E2 : hi * (1 + n) == hi + hi * n) by ring.
    rewrite E1, E2. split; lra.
Qed.

(** The mean of a non-empty list lies between its least and its greatest
    value. *)
Lemma mean_between_extremes (x : Q) (l : list Q) :
  Qmin_list (x :: l) <= Qsum (x :: l) / inject_Z (Zlen (x :: l))
  /\ Qsum (x :: l) / inject_Z (Zlen (x :: l)) <= Qmax_list (x :: l).
Proof.
  assert (Hn : 0 < inject_Z (Zlen (x :: l))).
  { change 0 with (inject_Z 0). rewrite <- Zlt_Qlt. unfold Zlen. simpl. lia. }
  destruct (Qsum_bounds (Qmin_list (x :: l)) (Qmax_list (x :: l)) (x :: l))
    as [B1 B2].
  { intros y Hy. split; [apply fold_Qmin_le | apply fold_Qmax_ge]; exact Hy. }
  apply quotient_bounds; assumption.
Qed.

(** X27. A budget efficiency that is returned is either the "No data"
    answer, value 0 with no project analysed because no row has a positive
    cost and a profit, or the rounded mean return of the analysed projects:
    it is the reported [avg_roi], lies between the reported [worst_roi] and
    [best_roi], counts at least one and at most all rows, and agrees with
    its status: "healthy" from 30 on, "warning" between 15 and 30,
    "critical" up to 15. *)
Theorem budget_efficiency_between_extremes
        (df_proy : DataFrame) (budget : kpi)
        (Hb : calculate_budget_efficiency df_proy = Ok budget) :
  (fst budget == 0
   /\ status_of budget = Some (VStr "No data")
   /\ dict_get (snd budget) "projects_analyzed" = Some (VInt 0)
   /\ forall r, In r (rows df_proy) ->
                gt0 (cell_of df_proy "costo_total_real" r)
                && notna (cell_of df_proy "ganancia_neta" r) = false)
  \/ exists worst best n status,
      dict_get (snd budget) "worst_roi" = Some (VFloat worst)
      /\ dict_get (snd budget) "best_roi" = Some (VFloat best)
      /\ dict_get (snd budget) "avg_roi" = Some (VFloat (fst budget))
      /\ dict_get (snd budget) "projects_analyzed" = Some (VInt n)
      /\ status_of budget = Some (VStr status)
      /\ worst <= fst budget /\ fst budget <= best
      /\ (1 <= n <= len df_proy)%Z
      /\ ((status = "healthy" /\ 30 <= fst budget)
          \/ (status = "warning" /\ 15 <= fst budget /\ fst budget <= 30)
          \/ (status = "critical" /\ fst budget <= 15)).
Proof.
  unfold calculate_budget_efficiency in Hb.
  destruct (series df_proy "costo_total_real"); [| discriminate Hb].
  destruct (series df_proy "ganancia_neta"); [| discriminate Hb].
  cbn [bind] in Hb.
  set (valid := fun r => gt0 (cell_of df_proy "costo_total_real" r)
                         && notna (cell_of df_proy "ganancia_neta" r)) in *.
  destruct (filter valid (rows df_proy)) as [| r rs] eqn:Ef.
  - injection Hb as <-. left.
    split; [reflexivity |]. split; [reflexivity |]. split; [reflexivity |].
    intros r Hr. change (valid r = false).
    destruct (valid r) eqn:Ev; [| reflexivity].
    assert (Hin : In r (filter valid (rows df_proy)))
      by (apply filter_In; split; assumption).
    rewrite Ef in Hin. destruct Hin.
  - right.
    set (roi := map (fun r => num_of (cell_of df_proy "ganancia_neta" r)
                              / num_of (cell_of df_proy "costo_total_real" r)
                              * 100) (r :: rs)) in *.
    set (avg := Qsum roi / inject_Z (Zlen roi)) in *.
    injection Hb as <-.
    destruct (mean_between_extremes
                (num_of (cell_of df_proy "ganancia_neta" r)
                 / num_of (cell_of df_proy "costo_total_real" r) * 100)
                (map (fun r => num_of (cell_of df_proy "ganancia_neta" r)
                               / num_of (cell_of df_proy "costo_total_real" r)
                               * 100) rs)) as [M1 M2].
    change (_ :: map _ rs) with roi in M1, M2. fold avg in M1, M2.
    exists (round (Qmin_list roi) 2), (round (Qmax_list roi) 2),
      (Zlen (r :: rs)),
      (if Qle_bool 30 avg then "healthy"
       else if Qle_bool 15 avg then "warning" else "critical").
    split; [reflexivity |]. split; [reflexivity |]. split; [reflexivity |].
    split; [reflexivity |]. split; [reflexivity |]. cbn [fst].
    split; [apply PyFacts.round_mono, M1 |].
    split; [apply PyFacts.round_mono, M2 |].
    split.
    { rewrite <- Ef. unfold Zlen, len.
      pose proof (filter_length_le valid (rows df_proy)) as Hle.
      rewrite Ef in *. simpl List.length in *. lia. }
    destruct (Qle_bool 30 avg) eqn:E30.
    + left. split; [reflexivity |].
      apply Qle_bool_iff in E30. apply (PyFacts.round_ge_Z 30). exact E30.
    + assert (H30 : avg <= 30).
      { apply Qnot_lt_le. intro H. apply Qlt_le_weak in H.
        rewrite (proj2 (Qle_bool_iff 30 avg) H) in E30. discriminate E30. }
      right. destruct (Qle_bool 15 avg) eqn:E15.
      * left. split; [reflexivity |]. apply Qle_bool_iff in E15.
        split; [apply (PyFacts.round_ge_Z 15) | apply (PyFacts.round_le_Z 30)];
          assumption.
      * right. split; [reflexivity |].
        apply (PyFacts.round_le_Z 15).
        apply Qnot_lt_le. intro H. apply Qlt_le_weak in H.
        rewrite (proj2 (Qle_bool_iff 15 avg) H) in E15. discriminate E15.
Qed.

Lemma budget_efficiency_between_extremes_witness :
  exists budget,
    calculate_budget_efficiency two_projects = Ok budget
    /\ dict_get (snd budget) "avg_roi" = Some (VFloat (fst budget)).
Proof.
  destruct (calculate_budget_efficiency two_projects) as [k |] eqn:E;
    [| discriminate E].
  exists k. split; [reflexivity |].
  destruct (budget_efficiency_between_extremes two_projects k E)
    as [[_ [_ [Hn _]]] | [w [b [n [s [_ [_ [Ha _]]]]]]]]; [| exact Ha].
  exfalso. vm_compute in E. inversion E; subst k. discriminate Hn.
Defined.

(** *** The KPI page *)

Lemma completion_rate_keys (df_proy : DataFrame) (k : kpi) :
  calculate_completion_rate df_proy = Ok k ->
  exists a b,
    getitem (snd k) "completed" = Ok a /\ getitem (snd k) "total" = Ok b.
Proof.
  unfold calculate_completion_rate.
  destruct (empty df_proy).
  - intro H. injection H as <-. eexists. eexists. split; reflexivity.
  - destruct (series df_proy "ganancia_neta"); [| discriminate].
    cbn [bind]. intro H. injection H as <-.
    eexists. eexists. split; reflexivity.
Qed.

Lemma budget_efficiency_keys (df_proy : DataFrame) (k : kpi) :
  calculate_budget_efficiency df_proy = Ok k ->
  exists a, getitem (snd k) "avg_roi" = Ok a.
Proof.
  unfold calculate_budget_efficiency.
  destruct (series df_proy "costo_total_real"); [| discriminate].
  destruct (series df_proy "ganancia_neta"); [| discriminate].
  cbn [bind]. destruct (filter _ (rows df_proy));
    intro H; injection H as <-; eexists; reflexivity.
Qed.

Lemma team_utilization_keys (df_proy : DataFrame) (k : kpi) :
  calculate_team_utilization df_proy = Ok k ->
  if empty df_proy
  then getitem (snd k) "unique_clients" = Raise (KeyError "unique_clients")
  else exists a, getitem (snd k) "unique_clients" = Ok a.
Proof.
  unfold calculate_team_utilization.
  destruct (empty df_proy).
  - intro H. injection H as <-. reflexivity.
  - destruct (series df_proy "ganancia_neta"); [| discriminate].
    destruct (series df_proy "costo_total_real"); [| discriminate].
    cbn [bind]. intro H. injection H as <-. eexists. reflexivity.
Qed.

Lemma defect_density_keys (df_cal df_proy : DataFrame) (k : kpi) :
  calculate_defect_density df_cal df_proy = Ok k ->
  if empty df_cal || empty df_proy
  then getitem (snd k) "severity_breakdown"
       = Raise (KeyError "severity_breakdown")
  else exists a, getitem (snd k) "severity_breakdown" = Ok a.
Proof.
  unfold calculate_defect_density.
  destruct (empty df_cal || empty df_proy).
  - intro H. injection H as <-. reflexivity.
  - destruct (series df_cal "cantidad_defectos_encontrados"); [| discriminate].
    destruct (series df_proy "nombre_proyecto"); [| discriminate].
    cbn [bind]. intro H. injection H as <-. eexists. reflexivity.
Qed.

Lemma avg_resolution_time_keys (df_cal : DataFrame) (k : kpi) :
  calculate_avg_resolution_time df_cal = Ok k ->
  if empty df_cal || negb (has_column df_cal "severidad")
     || Qeq_bool (column_sum df_cal "cantidad_defectos_encontrados") 0
  then getitem (snd k) "total_defects" = Raise (KeyError "total_defects")
  else exists a, getitem (snd k) "total_defects" = Ok a.
Proof.
  unfold calculate_avg_resolution_time.
  destruct (empty df_cal || negb (has_column df_cal "severidad")).
  - intro H. injection H as <-. reflexivity.
  - destruct (series df_cal "cantidad_defectos_encontrados") as [s |] eqn:Es;
      [| discriminate].
    apply series_ok in Es. subst s. cbn [bind orb]. unfold column_sum.
    destruct (Qeq_bool _ 0).
    + intro H. injection H as <-. reflexivity.
    + intro H. injection H as <-. eexists. reflexivity.
Qed.

Lemma client_satisfaction_keys (df_proy df_cal : DataFrame) (k : kpi) :
  calculate_client_satisfaction df_proy df_cal = Ok k ->
  exists a b,
    getitem (snd k) "quality_component" = Ok a
    /\ getitem (snd k) "budget_component" = Ok b.
Proof.
  unfold calculate_client_satisfaction.
  destruct (calculate_budget_efficiency df_proy); [| discriminate].
  destruct (calculate_defect_density df_cal df_proy); [| discriminate].
  cbn [bind]. intro H. injection H as <-.
  eexists. eexists. split; reflexivity.
Qed.

Lemma empty_with_column (df : DataFrame) (name : string) :
  has_column df name = true -> empty df = true -> rows df = [].
Proof.
  unfold has_column, column_names, empty. intros Hc He.
  destruct (rows df); [reflexivity |].
  destruct (columns df); [discriminate Hc | discriminate He].
Qed.

(** X28. The KPI page fails on frames without history even when every
    column is there: whenever the six KPIs are computed, the page raises
    [KeyError] over [unique_clients] if the project frame is empty, over
    [severity_breakdown] if only the quality frame is empty, and over
    [total_defects] if both have rows but the quality frame has no
    [severidad] column or no defect at all; in every other case all eight
    entries are read. *)
Theorem kpi_page_needs_history
        (df_proy df_cal : DataFrame) (kpis : list (string * pyval))
        (Hk : calculate_all_kpis df_proy df_cal = Ok kpis) :
  (empty df_proy = true ->
   kpi_page df_proy df_cal = Raise (KeyError "unique_clients"))
  /\ (empty df_proy = false -> empty df_cal = true ->
      kpi_page df_proy df_cal = Raise (KeyError "severity_breakdown"))
  /\ (empty df_proy = false -> empty df_cal = false ->
      has_column df_cal "severidad" = false
      \/ column_sum df_cal "cantidad_defectos_encontrados" == 0 ->
      kpi_page df_proy df_cal = Raise (KeyError "total_defects"))
  /\ (empty df_proy = false -> empty df_cal = false ->
      has_column df_cal "severidad" = true ->
      ~ column_sum df_cal "cantidad_defectos_encontrados" == 0 ->
      exists vs,
        kpi_page df_proy df_cal = Ok vs /\ List.length vs = 8%nat).
Proof.
  unfold kpi_page. rewrite Hk. cbn [bind].
  unfold calculate_all_kpis in Hk.
  destruct (calculate_completion_rate df_proy) as [k1 |] eqn:E1;
    [| discriminate Hk].
  destruct (calculate_budget_efficiency df_proy) as [k2 |] eqn:E2;
    [| discriminate Hk].
  destruct (calculate_team_utilization df_proy) as [k3 |] eqn:E3;
    [| discriminate Hk].
  destruct (calculate_defect_density df_cal df_proy) as [k4 |] eqn:E4;
    [| discriminate Hk].
  destruct (calculate_avg_resolution_time df_cal) as [k5 |] eqn:E5;
    [| discriminate Hk].
  destruct (calculate_client_satisfaction df_proy df_cal) as [k6 |] eqn:E6;
    [| discriminate Hk].
  cbn [bind] in Hk. injection Hk as <-.
  destruct (completion_rate_keys _ _ E1) as [a1 [b1 [H1a H1b]]].
  destruct (budget_efficiency_keys _ _ E2) as [a2 H2].
  pose proof (team_utilization_keys _ _ E3) as H3.
  pose proof (defect_density_keys _ _ _ E4) as H4.
  pose proof (avg_resolution_time_keys _ _ E5) as H5.
  destruct (client_satisfaction_keys _ _ _ E6) as [a6 [b6 [H6a H6b]]].
  assert (R1 : forall key,
             metadata_item
               [("completion_rate", kpi_entry k1 "%");
                ("budget_efficiency", kpi_entry k2 "%");
                ("team_utilization", kpi_entry k3 "%");
                ("defect_density", kpi_entry k4 "defects/project");
                ("avg_resolution_time", kpi_entry k5 "days");
                ("client_satisfaction", kpi_entry k6 "index")]
               "completion_rate" key = getitem (snd k1) key)
    by reflexivity.
  assert (R2 : forall key,
             metadata_item
               [("completion_rate", kpi_entry k1 "%");
                ("budget_efficiency", kpi_entry k2 "%");
                ("team_utilization", kpi_entry k3 "%");
                ("defect_density", kpi_entry k4 "defects/project");
                ("avg_resolution_time", kpi_entry k5 "days");
                ("client_satisfaction", kpi_entry k6 "index")]
               "budget_efficiency" key = getitem (snd k2) key)
    by reflexivity.
  assert (R3 : forall key,
             metadata_item
               [("completion_rate", kpi_entry k1 "%");
                ("budget_efficiency", kpi_entry k2 "%");
                ("team_utilization", kpi_entry k3 "%");
                ("defect_density", kpi_entry k4 "defects/project");
                ("avg_resolution_time", kpi_entry k5 "days");
                ("client_satisfaction", kpi_entry k6 "index")]
               "team_utilization" key = getitem (snd k3) key)
    by reflexivity.
  assert (R4 : forall key,
             metadata_item
               [("completion_rate", kpi_entry k1 "%");
                ("budget_efficiency", kpi_entry k2 "%");
                ("team_utilization", kpi_entry k3 "%");
                ("defect_density", kpi_entry k4 "defects/project");
                ("avg_resolution_time", kpi_entry k5 "days");
                ("client_satisfaction", kpi_entry k6 "index")]
               "defect_density" key = getitem (snd k4) key)
    by reflexivity.
  assert (R5 : forall key,
             metadata_item
               [("completion_rate", kpi_entry k1 "%");
                ("budget_efficiency", kpi_entry k2 "%");
                ("team_utilization", kpi_entry k3 "%");
                ("defect_density", kpi_entry k4 "defects/project");
                ("avg_resolution_time", kpi_entry k5 "days");
                ("client_satisfaction", kpi_entry k6 "index")]
               "avg_resolution_time" key = getitem (snd k5) key)
    by reflexivity.
  assert (R6 : forall key,
             metadata_item
               [("completion_rate", kpi_entry k1 "%");
                ("budget_efficiency", kpi_entry k2 "%");
                ("team_utilization", kpi_entry k3 "%");
                ("defect_density", kpi_entry k4 "defects/project");
                ("avg_resolution_time", kpi_entry k5 "days");
                ("client_satisfaction", kpi_entry k6 "index")]
               "client_satisfaction" key = getitem (snd k6) key)
    by reflexivity.
  unfold kpi_page_reads. cbn [read_items].
  rewrite !R1, !R2, !R3, !R4, !R5, !R6, H1a, H1b, H2, H6a, H6b.
  cbn [bind].
  split; [| split; [| split]].
  - intro Hp. rewrite Hp in H3. rewrite H3. reflexivity.
  - intros Hp Hc. rewrite Hp in H3. destruct H3 as [a3 ->]. cbn [bind].
    rewrite Hc in H4. cbn [orb] in H4. rewrite H4. reflexivity.
  - intros Hp Hc Hsev. rewrite Hp in H3. destruct H3 as [a3 ->]. cbn [bind].
    rewrite Hp, Hc in H4. cbn [orb] in H4. destruct H4 as [a4 ->]. cbn [bind].
    rewrite Hc in H5. cbn [orb] in H5.
    assert (Hcond : negb (has_column df_cal "severidad")
                    || Qeq_bool (column_sum df_cal
                                   "cantidad_defectos_encontrados") 0 = true).
    { destruct Hsev as [Hs | Hz].
      - rewrite Hs. reflexivity.
      - apply Qeq_bool_iff in Hz. rewrite Hz. apply orb_true_r. }
    rewrite Hcond in H5. rewrite H5. reflexivity.
  - intros Hp Hc Hs Hz. rewrite Hp in H3. destruct H3 as [a3 ->]. cbn [bind].
    rewrite Hp, Hc in H4. cbn [orb] in H4. destruct H4 as [a4 ->]. cbn [bind].
    rewrite Hc, Hs in H5. cbn [orb negb] in H5.
    destruct (Qeq_bool (column_sum df_cal "cantidad_defectos_encontrados") 0)
      eqn:Eq.
    + exfalso. apply Hz. apply Qeq_bool_iff. exact Eq.
    + destruct H5 as [a5 ->]. cbn [bind]. eexists. split; reflexivity.
Qed.

Lemma kpi_page_needs_history_witness :
  kpi_page no_projects no_quality = Raise (KeyError "unique_clients").
Proof.
  destruct (calculate_all_kpis no_projects no_quality) as [kpis |] eqn:E;
    [| discriminate E].
  apply (proj1 (kpi_page_needs_history no_projects no_quality kpis E)).
  reflexivity.
Defined.

End KpiExtra.

(** ** Scores, tables and generated objectives *)

Module ScorecardExtra.
Import Py Scorecard ScorecardData Spec Samples Lqa.

Lemma progress_le_100 (k : KeyResult) : progress k <= 100.
Proof.
  unfold progress.
  destruct (Qeq_bool (target k) 0); [destruct (Qle_bool 0 (current k)) |];
    try discriminate.
  apply Q.le_min_r.
Qed.

Lemma Qsum_le_100 (l : list Q) :
  (forall x, In x l -> x <= 100) ->
  Qsum l <= 100 * inject_Z (Z.of_nat (List.length l)).
Proof.
  induction l as [| x l IH]; intro H.
  - simpl. discriminate.
  - change (Qsum (x :: l)) with (x + Qsum l).
    change (List.length (x :: l)) with (S (List.length l)).
    rewrite Nat2Z.inj_succ. unfold Z.succ. rewrite inject_Z_plus.
    assert (Hx : x <= 100) by (apply H; left; reflexivity).
    assert (Hl : Qsum l <= 100 * inject_Z (Z.of_nat (List.length l)))
      by (apply IH; intros y Hy; apply H; right; exact Hy).
    change (inject_Z 1) with 1. lra.
Qed.

Lemma Qsum_all_100 (l : list Q) :
  (forall x, In x l -> x == 100) ->
  Qsum l == 100 * inject_Z (Z.of_nat (List.length l)).
Proof.
  induction l as [| x l IH]; intro H.
  - reflexivity.
  - change (Qsum (x :: l)) with (x + Qsum l).
    change (List.length (x :: l)) with (S (List.length l)).
    rewrite Nat2Z.inj_succ. unfold Z.succ. rewrite inject_Z_plus.
    assert (Hx : x == 100) by (apply H; left; reflexivity).
    assert (Hl : Qsum l == 100 * inject_Z (Z.of_nat (List.length l)))
      by (apply IH; intros y Hy; apply H; right; exact Hy).
    change (inject_Z 1) with 1. lra.
Qed.

Lemma length_pos_Q {A : Type} (l : list A) :
  l <> [] -> 0 < inject_Z (Z.of_nat (List.length l)).
Proof.
  intro H. change 0 with (inject_Z 0). rewrite <- Zlt_Qlt.
  destruct l; [contradiction | simpl; lia].
Qed.

Lemma mean_le_100 (l : list Q) :
  l <> [] -> (forall x, In x l -> x <= 100) ->
  Qsum l / inject_Z (Z.of_nat (List.length l)) <= 100.
Proof.
  intros Hne H. pose proof (length_pos_Q l Hne) as Hn.
  pose proof (Qsum_le_100 l H) as Hs.
  apply Qle_shift_div_r; [exact Hn | exact Hs].
Qed.

Lemma overall_progress_le_100 (okr : OKR) : overall_progress okr <= 100.
Proof.
  unfold overall_progress.
  destruct (key_results okr) as [| k ks] eqn:E; [discriminate |].
  rewrite <- (length_map progress).
  apply mean_le_100; [discriminate |].
  intros x Hx. apply in_map_iff in Hx. destruct Hx as [k' [<- _]].
  apply progress_le_100.
Qed.

(** X14. The progress of a key result never exceeds 100, whatever its
    target, and a key result that has reached a positive target is at 100
    and "On Track"; the overall progress of an objective never exceeds 100,
    is 0 without key results and 100, "On Track", when every key result is
    at 100. *)
Theorem progress_and_status
        (k : KeyResult) (okr : OKR) :
  progress k <= 100
  /\ (0 < target k -> target k <= current k ->
      progress k == 100 /\ kr_status k = "On Track")
  /\ overall_progress okr <= 100
  /\ (key_results okr = [] ->
      overall_progress okr = 0 /\ okr_status okr = "Off Track")
  /\ (key_results okr <> [] ->
      (forall k', In k' (key_results okr) -> progress k' == 100) ->
      overall_progress okr == 100 /\ okr_status okr = "On Track").
Proof.
  split; [apply progress_le_100 |]. split; [| split; [| split]].
  - intros Ht Hc.
    assert (Hp : progress k == 100).
    { rewrite (ScorecardFacts.progress_positive_target k Ht).
      apply Q.min_r.
      assert (H1 : 1 <= current k / target k)
        by (apply Qle_shift_div_l; lra).
      lra. }
    split; [exact Hp |]. unfold kr_status.
    assert (H90 : Qle_bool 90 (progress k) = true)
      by (apply Qle_bool_iff; rewrite Hp; discriminate).
    rewrite H90. reflexivity.
  - apply overall_progress_le_100.
  - intro H. unfold okr_status, overall_progress. rewrite H.
    split; reflexivity.
  - intros Hne Hall.
    assert (Ho : overall_progress okr == 100).
    { unfold overall_progress.
      destruct (key_results okr) as [| k0 ks] eqn:E; [contradiction |].
      rewrite <- (length_map progress).
      assert (Hs : Qsum (map progress (k0 :: ks))
                   == 100 * inject_Z (Z.of_nat
                                        (List.length (map progress (k0 :: ks))))).
      { apply Qsum_all_100. intros x Hx. apply in_map_iff in Hx.
        destruct Hx as [k' [<- Hk']]. apply Hall, Hk'. }
      rewrite Hs. field.
      pose proof (length_pos_Q (map progress (k0 :: ks))) as Hn.
      assert (0 < inject_Z (Z.of_nat (List.length (map progress (k0 :: ks)))))
        by (apply Hn; discriminate).
      lra. }
    split; [exact Ho |]. unfold okr_status.
    assert (H90 : Qle_bool 90 (overall_progress okr) = true)
      by (apply Qle_bool_iff; rewrite Ho; discriminate).
    rewrite H90. reflexivity.
Qed.

Lemma progress_and_status_witness :
  progress (sample_kr 10 12) == 100 /\ kr_status (sample_kr 10 12) = "On Track".
Proof.
  assert (Ht : 0 < target (sample_kr 10 12)) by reflexivity.
  assert (Hc : target (sample_kr 10 12) <= current (sample_kr 10 12))
    by (simpl; discriminate).
  exact (proj1 (proj2 (progress_and_status
                         (sample_kr 10 12)
                         (sample_okr "Optimizar Costos Operativos" "Financial" [])))
               Ht Hc).
Defined.

(** *** The perspective score against the hierarchy *)

Lemma leaves_of_perspective_node (q : string) (l : list OKR) :
  leaves (perspective_node (q, l)) = kr_total l.
Proof.
  unfold leaves, kr_total, perspective_node, children_of. simpl.
  induction l as [| o l IH]; simpl; [reflexivity |].
  rewrite IH, length_map. reflexivity.
Qed.

Lemma perspective_score_of (okrs : list OKR) (q : string) :
  perspective_okrs okrs q <> [] ->
  fst (calculate_perspective_score okrs q)
  = round (mean_progress (perspective_okrs okrs q)) 1
  /\ score_entry (calculate_perspective_score okrs q) "okr_count"
     = Some (SInt (Z.of_nat (List.length (perspective_okrs okrs q))))
  /\ score_entry (calculate_perspective_score okrs q) "kr_count"
     = Some (SInt (kr_total (perspective_okrs okrs q))).
Proof.
  intro Hne. unfold calculate_perspective_score, score_entry.
  destruct (perspective_okrs okrs q) as [| o l]; [contradiction |].
  repeat split.
Qed.

Lemma mean_progress_le_100 (l : list OKR) : l <> [] -> mean_progress l <= 100.
Proof.
  intro Hne. unfold mean_progress. rewrite <- (length_map overall_progress).
  apply mean_le_100.
  - destruct l; [contradiction | discriminate].
  - intros x Hx. apply in_map_iff in Hx. destruct Hx as [o [<- _]].
    apply overall_progress_le_100.
Qed.

(** X15. For every perspective node of the hierarchy the perspective score
    is the mean the sunburst derives from that node, rounded to one
    decimal, at most 100, and its counts are the node's numbers of
    objective nodes and of key-result leaves; for a perspective that names
    no node the score is 0 with status "No OKRs". *)
Theorem perspective_score_matches_hierarchy (okrs : list OKR) :
  (forall p,
      In p (children_of (create_okr_hierarchy okrs)) ->
      exists m,
        sunburst_perspective_value p = Ok m
        /\ fst (calculate_perspective_score okrs (node_name p)) = round m 1
        /\ fst (calculate_perspective_score okrs (node_name p)) <= 100
        /\ score_entry (calculate_perspective_score okrs (node_name p))
                       "okr_count"
           = Some (SInt (Z.of_nat (List.length (children_of p))))
        /\ score_entry (calculate_perspective_score okrs (node_name p))
                       "kr_count"
           = Some (SInt (leaves p)))
  /\ (forall q,
         (forall p, In p (children_of (create_okr_hierarchy okrs)) ->
                    node_name p <> q) ->
         calculate_perspective_score okrs q
         = (0, [("okr_count", SInt 0); ("kr_count", SInt 0);
                ("status", SStr "No OKRs")])).
Proof.
  destruct (ScorecardFacts.group_by_perspective_grouped okrs)
    as [Hnd [Hent Hcov]].
  split.
  - intros p Hin. unfold create_okr_hierarchy, children_of in Hin.
    simpl in Hin. apply in_map_iff in Hin.
    destruct Hin as [[q l] [Hp Hin]]. subst p.
    destruct (Hent q l Hin) as [Hl Hne].
    exists (mean_progress l).
    split; [apply ScorecardFacts.sunburst_value_of_perspective_node, Hne |].
    simpl node_name.
    assert (Hne' : perspective_okrs okrs q <> []) by (rewrite <- Hl; exact Hne).
    destruct (perspective_score_of okrs q Hne') as [Hs [Ho Hk]].
    rewrite Hs, Ho, Hk, <- Hl.
    split; [reflexivity |].
    split; [apply (PyFacts.round_le_Z 100), mean_progress_le_100, Hne |].
    split.
    + unfold perspective_node, children_of. simpl. rewrite length_map.
      reflexivity.
    + rewrite leaves_of_perspective_node. reflexivity.
  - intros q Hq. unfold calculate_perspective_score.
    destruct (perspective_okrs okrs q) as [| o l] eqn:E; [reflexivity |].
    exfalso.
    assert (Ho : In o (perspective_okrs okrs q)) by (rewrite E; left; reflexivity).
    unfold perspective_okrs in Ho. apply filter_In in Ho.
    destruct Ho as [Ho Hp]. apply String.eqb_eq in Hp.
    specialize (Hcov o Ho). unfold dict_keys in Hcov.
    apply in_map_iff in Hcov. destruct Hcov as [[q' l'] [Hq' Hin]].
    simpl in Hq'. apply (Hq (perspective_node (q', l'))).
    + unfold create_okr_hierarchy, children_of. simpl. apply in_map, Hin.
    + simpl. congruence.
Qed.

Lemma perspective_score_matches_hierarchy_witness :
  exists m,
    sunburst_perspective_value
      (hd (Node "" None None) (children_of (create_okr_hierarchy sample_okrs)))
    = Ok m
    /\ fst (calculate_perspective_score sample_okrs "Financial") = round m 1.
Proof.
  assert (H : In (hd (Node "" None None)
                     (children_of (create_okr_hierarchy sample_okrs)))
                 (children_of (create_okr_hierarchy sample_okrs)))
    by (left; reflexivity).
  destruct (proj1 (perspective_score_matches_hierarchy sample_okrs) _ H)
    as [m [Hm [Hs _]]].
  exists m. split; [exact Hm | exact Hs].
Defined.

(** *** The table of objectives *)

Lemma table_rows (okrs : list OKR) :
  Olap.rows (format_okr_table okrs)
  = flat_map (fun okr => map (okr_table_row okr) (key_results okr)) okrs.
Proof.
  unfold format_okr_table.
  destruct (flat_map _ okrs); reflexivity.
Qed.

Lemma table_length (okrs : list OKR) :
  Z.of_nat (List.length
              (flat_map (fun okr => map (okr_table_row okr) (key_results okr))
                        okrs))
  = kr_total okrs.
Proof.
  induction okrs as [| o l IH]; simpl; [reflexivity |].
  rewrite length_app, length_map, Nat2Z.inj_add, IH. reflexivity.
Qed.

Lemma table_slice_length (p : string) (okrs : list OKR) :
  Z.of_nat
    (List.length
       (filter (fun r => Olap.cell_eqb (Olap.cell_at 0 r) (Olap.CStr p))
               (flat_map (fun okr => map (okr_table_row okr) (key_results okr))
                         okrs)))
  = kr_total (perspective_okrs okrs p).
Proof.
  induction okrs as [| o l IH]; simpl; [reflexivity |].
  rewrite filter_app, length_app, Nat2Z.inj_add, IH.
  assert (Hrow : filter (fun r => Olap.cell_eqb (Olap.cell_at 0 r) (Olap.CStr p))
                        (map (okr_table_row o) (key_results o))
                 = if String.eqb (perspective o) p
                   then map (okr_table_row o) (key_results o) else []).
  { induction (key_results o) as [| k ks IHk]; simpl.
    - destruct (String.eqb (perspective o) p); reflexivity.
    - destruct (String.eqb (perspective o) p); rewrite IHk; reflexivity. }
  rewrite Hrow.
  destruct (String.eqb (perspective o) p); simpl;
    [rewrite length_map |]; reflexivity.
Qed.

(** X16. The table of objectives has one row per key result.  When there
    is at least one key result, slicing the table by a perspective returns
    as many rows as the key-result count of that perspective's score; with
    no key result at all the table has no columns and the slice raises. *)
Theorem okr_table_by_perspective (okrs : list OKR) (p : string) :
  Olap.len (format_okr_table okrs) = kr_total okrs
  /\ (kr_total okrs <> 0%Z ->
      exists out,
        Olap.slice_olap (format_okr_table okrs) "Perspectiva" (Olap.CStr p)
        = Ok out
        /\ Olap.len out = kr_total (perspective_okrs okrs p)
        /\ (perspective_okrs okrs p <> [] ->
            score_entry (calculate_perspective_score okrs p) "kr_count"
            = Some (SInt (Olap.len out))))
  /\ (kr_total okrs = 0%Z ->
      exists msg,
        Olap.slice_olap (format_okr_table okrs) "Perspectiva" (Olap.CStr p)
        = Raise (ValueError msg)).
Proof.
  pose proof (table_rows okrs) as Hrows.
  pose proof (table_length okrs) as Hlen.
  split; [unfold Olap.len; rewrite Hrows; exact Hlen |]. split.
  - intro Hne. unfold format_okr_table in *.
    destruct (flat_map (fun okr => map (okr_table_row okr) (key_results okr)) okrs)
      as [| r rs] eqn:E; [simpl in Hlen; congruence |].
    eexists. split; [reflexivity |]. unfold Olap.len. cbn [Olap.rows].
    assert (Hs : Z.of_nat
                   (List.length
                      (filter (fun r0 => Olap.cell_eqb
                                           (Olap.cell_of
                                              {| Olap.columns :=
                                                   [("Perspectiva", Olap.Object);
                                                    ("Objetivo", Olap.Object);
                                                    ("Key Result", Olap.Object);
                                                    ("Objetivo_Valor", Olap.Numeric);
                                                    ("Actual", Olap.Numeric);
                                                    ("Progreso", Olap.Object);
                                                    ("Estado", Olap.Object);
                                                    ("Responsable", Olap.Object)];
                                                 Olap.rows := r :: rs |}
                                              "Perspectiva" r0)
                                           (Olap.CStr p))
                              (r :: rs)))
                 = kr_total (perspective_okrs okrs p)).
    { rewrite <- (table_slice_length p okrs), E. reflexivity. }
    split; [exact Hs |].
    intro Hp. rewrite Hs.
    apply (proj2 (proj2 (perspective_score_of okrs p Hp))).
  - intro Hz. unfold format_okr_table in *.
    destruct (flat_map (fun okr => map (okr_table_row okr) (key_results okr)) okrs)
      as [| r rs] eqn:E; [| simpl in Hlen; lia].
    eexists. reflexivity.
Qed.

Lemma okr_table_by_perspective_witness :
  exists out,
    Olap.slice_olap (format_okr_table sample_okrs) "Perspectiva"
                    (Olap.CStr "Financial") = Ok out
    /\ Olap.len out = 3%Z.
Proof.
  assert (Hne : kr_total sample_okrs <> 0%Z) by discriminate.
  destruct (proj1 (proj2 (okr_table_by_perspective sample_okrs "Financial")) Hne)
    as [out [Hout [Hlen _]]].
  exists out. split; [exact Hout | exact Hlen].
Defined.

(** *** Generated objectives *)



End ScorecardExtra.

(** ** Estimates, predictions and QA staffing *)

Module RayleighExtra.
Import Py Rayleigh Spec Lqa.

(** The multipliers of [estimate_base_defects], named as in the source. *)
Lemma estimate_unfold (project_size team_size : Z) (level cx : string) :
  exists exp_mult comp_mult team_mult,
    estimate_base_defects project_size team_size level cx
    = Qmax (inject_Z project_size / 1000 * 20 * exp_mult * comp_mult * team_mult) 1
    /\ 0 < comp_mult
    /\ team_mult = (if (team_size >? 5)%Z
                    then 1 + (5 # 100) * inject_Z (team_size - 5) else 1)
    /\ exp_mult = match dict_get [("Junior", 15 # 10); ("Mid", 1);
                                  ("Senior", 6 # 10)] level with
                  | Some m => m
                  | None => 1
                  end
    /\ comp_mult = match dict_get [("Baja", 7 # 10); ("Media", 1);
                                   ("Alta", 14 # 10); ("Muy Alta", 18 # 10)] cx with
                   | Some m => m
                   | None => 1
                   end.
Proof.
  do 3 eexists. split; [reflexivity |]. split; [| repeat split].
  cbn [dict_get].
  repeat match goal with
         | |- context [String.eqb ?a ?b] => destruct (String.eqb a b)
         end; reflexivity.
Qed.

Lemma exp_mult_pos (level : string) :
  0 < match dict_get [("Junior", 15 # 10); ("Mid", 1); ("Senior", 6 # 10)]
                     level with
      | Some m => m
      | None => 1
      end.
Proof.
  cbn [dict_get].
  repeat match goal with
         | |- context [String.eqb ?a ?b] => destruct (String.eqb a b)
         end; reflexivity.
Qed.

Lemma team_mult_ge_1 (team_size : Z) :
  1 <= (if (team_size >? 5)%Z
        then 1 + (5 # 100) * inject_Z (team_size - 5) else 1).
Proof.
  destruct (team_size >? 5)%Z eqn:E; [| lra].
  assert (H : 0 <= inject_Z (team_size - 5))
    by (change 0 with (inject_Z 0); rewrite <- Zle_Qle; lia).
  lra.
Qed.

Lemma team_mult_mono (t t' : Z) :
  (t <= t')%Z ->
  (if (t >? 5)%Z then 1 + (5 # 100) * inject_Z (t - 5) else 1)
  <= (if (t' >? 5)%Z then 1 + (5 # 100) * inject_Z (t' - 5) else 1).
Proof.
  intro H.
  destruct (t >? 5)%Z eqn:E; destruct (t' >? 5)%Z eqn:E'; try lia; try lra.
  - assert (Hi : inject_Z (t - 5) <= inject_Z (t' - 5))
      by (rewrite <- Zle_Qle; lia).
    lra.
  - assert (Hi : 0 <= inject_Z (t' - 5))
      by (change 0 with (inject_Z 0); rewrite <- Zle_Qle; lia).
    lra.
Qed.

Lemma Qmax1_le (a b : Q) :
  a <= b \/ (a <= 1 /\ b <= 1) -> Qmax a 1 <= Qmax b 1.
Proof.
  intros [H | [Ha Hb]].
  - apply Q.max_le_compat_r, H.
  - rewrite (Q.max_r a 1 Ha), (Q.max_r b 1 Hb). lra.
Qed.

Lemma base_density (z : Q) : z / 1000 * 20 == z * (1 # 50).
Proof. field. Qed.

(** X18. The defect estimate is at least 1; it does not decrease when the
    project grows, nor, for a project of non-negative size, when the team
    grows; a senior team is estimated at most as high as a mid-level team
    and that at most as high as a junior team; and an unknown experience
    level counts as "Mid". *)
Theorem estimate_base_defects_monotone
        (size size' team team' : Z) (level cx : string) :
  1 <= estimate_base_defects size team level cx
  /\ ((size <= size')%Z ->
      estimate_base_defects size team level cx
      <= estimate_base_defects size' team level cx)
  /\ ((0 <= size)%Z -> (team <= team')%Z ->
      estimate_base_defects size team level cx
      <= estimate_base_defects size team' level cx)
  /\ estimate_base_defects size team "Senior" cx
     <= estimate_base_defects size team "Mid" cx
  /\ estimate_base_defects size team "Mid" cx
     <= estimate_base_defects size team "Junior" cx
  /\ (level <> "Junior" -> level <> "Mid" -> level <> "Senior" ->
      estimate_base_defects size team level cx
      = estimate_base_defects size team "Mid" cx).
Proof.
  pose proof (exp_mult_pos level) as He.
  pose proof (team_mult_ge_1 team) as Ht.
  pose proof (team_mult_ge_1 team') as Ht'.
  destruct (estimate_unfold size team level cx)
    as [e [c [t [E [Hc [Et [Ee Ec]]]]]]].
  assert (Ht0 : 1 <= t) by (rewrite Et; exact Ht).
  assert (He0 : 0 < e) by (rewrite Ee; exact He).
  split; [rewrite E; apply Q.le_max_r |]. split; [| split; [| split; [| split]]].
  - intro Hle.
    destruct (estimate_unfold size' team level cx)
      as [e2 [c2 [t2 [E2 [_ [Et2 [Ee2 Ec2]]]]]]].
    rewrite E, E2. rewrite <- Ee in Ee2. rewrite <- Ec in Ec2.
    rewrite <- Et in Et2. subst e2 c2 t2. clear Ee Ec Et.
    apply Q.max_le_compat_r.
    assert (Hs : inject_Z size <= inject_Z size') by (rewrite <- Zle_Qle; exact Hle).
    assert (Hb : inject_Z size / 1000 * 20 <= inject_Z size' / 1000 * 20)
      by (rewrite !base_density; lra).
    apply Qmult_le_compat_r; [| lra].
    apply Qmult_le_compat_r; [| lra].
    apply Qmult_le_compat_r; [exact Hb | lra].
  - intros Hsize Hle.
    destruct (estimate_unfold size team' level cx)
      as [e2 [c2 [t2 [E2 [_ [Et2 [Ee2 Ec2]]]]]]].
    rewrite E, E2. rewrite <- Ee in Ee2. rewrite <- Ec in Ec2.
    subst e2 c2.
    pose proof (team_mult_mono team team' Hle) as Hm.
    rewrite <- Et, <- Et2 in Hm. clear Ee Ec Et Et2 E E2.
    apply Q.max_le_compat_r.
    assert (Hs : 0 <= inject_Z size)
      by (change 0 with (inject_Z 0); rewrite <- Zle_Qle; exact Hsize).
    rewrite !base_density.
    assert (Ha : 0 <= inject_Z size * (1 # 50) * e * c).
    { apply Qmult_le_0_compat; [| lra].
      apply Qmult_le_0_compat; lra. }
    assert (Hp : 0 <= inject_Z size * (1 # 50) * e * c * (t2 - t))
      by (apply Qmult_le_0_compat; lra).
    lra.
  - destruct (estimate_unfold size team "Senior" cx)
      as [e1 [c1 [t1 [E1 [_ [Et1 [Ee1 Ec1]]]]]]].
    destruct (estimate_unfold size team "Mid" cx)
      as [e2 [c2 [t2 [E2 [_ [Et2 [Ee2 Ec2]]]]]]].
    rewrite E1, E2. cbn in Ee1, Ee2. subst e1 e2 c1 c2 t1 t2.
    rewrite <- Ec, <- Et. apply Qmax1_le.
    rewrite !base_density.
    set (m := inject_Z size * (1 # 50) * c * t).
    assert (Hm : inject_Z size * (1 # 50) * (6 # 10) * c * t == (6 # 10) * m)
      by (unfold m; ring).
    assert (Hm' : inject_Z size * (1 # 50) * 1 * c * t == m)
      by (unfold m; ring).
    rewrite Hm, Hm'.
    destruct (Qlt_le_dec m 0); [right | left]; lra.
  - destruct (estimate_unfold size team "Mid" cx)
      as [e1 [c1 [t1 [E1 [_ [Et1 [Ee1 Ec1]]]]]]].
    destruct (estimate_unfold size team "Junior" cx)
      as [e2 [c2 [t2 [E2 [_ [Et2 [Ee2 Ec2]]]]]]].
    rewrite E1, E2. cbn in Ee1, Ee2. subst e1 e2 c1 c2 t1 t2.
    rewrite <- Ec, <- Et. apply Qmax1_le.
    rewrite !base_density.
    set (m := inject_Z size * (1 # 50) * c * t).
    assert (Hm : inject_Z size * (1 # 50) * (15 # 10) * c * t == (15 # 10) * m)
      by (unfold m; ring).
    assert (Hm' : inject_Z size * (1 # 50) * 1 * c * t == m)
      by (unfold m; ring).
    rewrite Hm, Hm'.
    destruct (Qlt_le_dec m 0); [right | left]; lra.
  - intros H1 H2 H3. unfold estimate_base_defects. cbn [dict_get].
    apply String.eqb_neq in H1, H2, H3. rewrite H1, H2, H3. reflexivity.
Qed.

Lemma estimate_base_defects_monotone_witness :
  estimate_base_defects 50000 8 "Mid" "Alta"
  <= estimate_base_defects 60000 8 "Mid" "Alta".
Proof.
  assert (H : (50000 <= 60000)%Z) by lia.
  exact (proj1 (proj2 (estimate_base_defects_monotone
                         50000 60000 8 8 "Mid" "Alta")) H).
Defined.

(** *** predict_defects_rayleigh *)

Lemma round_of_integer (x : Q) (z : Z) (ndigits : nat) :
  x == inject_Z z -> round x ndigits == inject_Z z.
Proof.
  intro H. apply Qle_antisym.
  - apply PyFacts.round_le_Z. lra.
  - apply PyFacts.round_ge_Z. lra.
Qed.

Lemma default_sigma (months : Z) :
  inject_Z (months * 30) * (4 # 10) == inject_Z (12 * months).
Proof. rewrite !inject_Z_mult. change (inject_Z 30) with 30. change (inject_Z 12) with 12. ring. Qed.

Lemma predict_total_ge_1 (size months team : Z) (level cx : string)
      (sg : option Q) :
  1 <= total_defects (predict_defects_rayleigh size months team level cx sg).
Proof.
  cbn [predict_defects_rayleigh total_defects].
  apply (PyFacts.round_ge_Z 1).
  unfold estimate_base_defects. apply Q.le_max_r.
Qed.

Lemma share_bounds (total frac : Q) :
  1 <= total -> 0 <= frac -> frac <= 1 ->
  0 <= round (total * frac) 1 /\ round (total * frac) 1 <= round total 1.
Proof.
  intros Ht H0 H1.
  assert (Hp : 0 <= total * frac) by (apply Qmult_le_0_compat; lra).
  assert (Hq : 0 <= total * (1 - frac)) by (apply Qmult_le_0_compat; lra).
  split.
  - apply (PyFacts.round_ge_Z 0). exact Hp.
  - apply PyFacts.round_mono. lra.
Qed.

(** X19. A prediction has at least one defect in total and a duration of
    30 days per month.  Without a sigma of its own the peak day is sigma,
    12 days per month, that is 40% of the duration, so inside a project of
    positive duration; each of the four severity shares lies between 0 and
    the total. *)
Theorem predict_defects_defaults
        (size months team : Z) (level cx : string) :
  let p := predict_defects_rayleigh size months team level cx None in
  1 <= total_defects p
  /\ duration_days p = (months * 30)%Z
  /\ sigma p == inject_Z (12 * months)
  /\ peak_day p == sigma p
  /\ ((0 < months)%Z ->
      0 < peak_day p /\ peak_day p < inject_Z (duration_days p))
  /\ List.length (severity_distribution p) = 4%nat
  /\ (forall name share,
         In (name, share) (severity_distribution p) ->
         0 <= share /\ share <= total_defects p).
Proof.
  cbn zeta.
  split; [apply predict_total_ge_1 |]. split; [reflexivity |].
  cbn [predict_defects_rayleigh sigma peak_day duration_days
       severity_distribution total_defects].
  pose proof (default_sigma months) as Hs.
  assert (Hp : round (inject_Z (months * 30) * (4 # 10)) 1
               == inject_Z (12 * months))
    by (apply round_of_integer, Hs).
  split; [exact Hs |]. split; [rewrite Hp, Hs; reflexivity |].
  split; [| split; [reflexivity |]].
  - intro Hm. rewrite Hp. split.
    + change 0 with (inject_Z 0). rewrite <- Zlt_Qlt. lia.
    + rewrite <- Zlt_Qlt. lia.
  - intros name share Hin.
    assert (Ht : 1 <= estimate_base_defects size team level cx)
      by (unfold estimate_base_defects; apply Q.le_max_r).
    simpl in Hin.
    destruct Hin as [H | [H | [H | [H | []]]]]; inversion H; subst;
      apply share_bounds; try exact Ht; discriminate.
Qed.

Lemma predict_defects_defaults_witness :
  0 < peak_day (predict_defects_rayleigh 50000 6 8 "Mid" "Alta" None)
  /\ peak_day (predict_defects_rayleigh 50000 6 8 "Mid" "Alta" None)
     < inject_Z (duration_days
                   (predict_defects_rayleigh 50000 6 8 "Mid" "Alta" None)).
Proof.
  assert (Hm : (0 < 6)%Z) by lia.
  exact (proj1 (proj2 (proj2 (proj2 (proj2
           (predict_defects_defaults 50000 6 8 "Mid" "Alta"))))) Hm).
Defined.

(** *** recommend_qa_resources *)

Lemma recommend_qa_engineers (defects : Q) (months : Z) :
  months <> 0%Z ->
  exists r,
    recommend_qa_resources defects months = Ok r
    /\ qa_engineers r
       = Qceiling
           (Qmax (defects / 50
                  * (if (months <=? 3)%Z then 13 # 10
                     else if (months <=? 6)%Z then 1 else 9 # 10)) 1).
Proof.
  intro Hm. unfold recommend_qa_resources.
  assert (E0 : (months =? 0)%Z = false) by lia.
  destruct (Qlt_le_dec defects 30);
    [| destruct (Qlt_le_dec defects 80)];
    rewrite E0; eexists; split; reflexivity.
Qed.

(** X20. [recommend_qa_resources] raises ZeroDivisionError exactly for a
    duration of 0 months; otherwise it recommends at least one QA engineer,
    whatever the number of predicted defects, and never fewer engineers
    for more defects over the same duration. *)
Theorem recommend_qa_staffing (defects defects' : Q) (months : Z) :
  (months = 0%Z ->
   recommend_qa_resources defects months = Raise ZeroDivisionError)
  /\ (months <> 0%Z ->
      exists r,
        recommend_qa_resources defects months = Ok r
        /\ (1 <= qa_engineers r)%Z
        /\ (defects <= defects' ->
            exists r',
              recommend_qa_resources defects' months = Ok r'
              /\ (qa_engineers r <= qa_engineers r')%Z)).
Proof.
  split.
  - intros ->. unfold recommend_qa_resources.
    destruct (Qlt_le_dec defects 30);
      [| destruct (Qlt_le_dec defects 80)]; reflexivity.
  - intro Hm.
    destruct (recommend_qa_engineers defects months Hm) as [r [Hr Hq]].
    exists r. split; [exact Hr |]. split.
    + rewrite Hq. rewrite <- (Qceiling_Z 1) at 1.
      apply Qceiling_resp_le. apply Q.le_max_r.
    + intro Hle.
      destruct (recommend_qa_engineers defects' months Hm) as [r' [Hr' Hq']].
      exists r'. split; [exact Hr' |]. rewrite Hq, Hq'.
      apply Qceiling_resp_le, Q.max_le_compat_r.
      set (m := if (months <=? 3)%Z then 13 # 10
                else if (months <=? 6)%Z then 1 else 9 # 10).
      assert (Hmpos : 0 < m)
        by (unfold m; destruct (months <=? 3)%Z;
            [| destruct (months <=? 6)%Z]; reflexivity).
      apply Qmult_le_compat_r; [| lra].
      unfold Qdiv. apply Qmult_le_compat_r; [exact Hle | discriminate].
Qed.

Lemma recommend_qa_staffing_witness :
  exists r,
    recommend_qa_resources 0 6 = Ok r /\ (1 <= qa_engineers r)%Z.
Proof.
  assert (Hm : 6%Z <> 0%Z) by discriminate.
  destruct (proj2 (recommend_qa_staffing 0 0 6) Hm) as [r [Hr [Hq _]]].
  exists r. split; [exact Hr | exact Hq].
Defined.

End RayleighExtra.

(** ** Model confidence *)

Module RayleighDataExtra.
Import Py Olap RayleighData Spec Samples Lqa.

Lemma unique_length_from (l seen : list cell) :
  (List.length
     (fold_left
        (fun seen c =>
           if is_null c || existsb (cell_eqb c) seen then seen
           else (seen ++ [c])%list)
        l seen)
   <= List.length seen + List.length l)%nat.
Proof.
  revert seen. induction l as [| c l IH]; intro seen; simpl; [lia |].
  destruct (is_null c || existsb (cell_eqb c) seen).
  - specialize (IH seen). lia.
  - specialize (IH (seen ++ [c])%list). rewrite length_app in IH. simpl in IH.
    lia.
Qed.

Lemma nunique_bounds (l : list cell) :
  (0 <= Kpi.nunique l <= Z.of_nat (List.length l))%Z.
Proof.
  unfold Kpi.nunique, Kpi.Zlen, Kpi.unique.
  pose proof (unique_length_from l []) as H. simpl in H. lia.
Qed.

(** X21. [calculate_model_confidence] fails only with a KeyError when the
    project frame has no [nombre_proyecto] column.  Otherwise it counts at
    most as many projects as there are project rows and exactly the
    quality rows, its score lies between 0.50 and 0.95, and a history with
    at least as many projects and records never scores lower. *)
Theorem model_confidence_monotone
        (df_cal df_proy df_cal' df_proy' : DataFrame) :
  (forall e, calculate_model_confidence df_cal df_proy = Raise e ->
             e = KeyError "nombre_proyecto"
             /\ has_column df_proy "nombre_proyecto" = false)
  /\ (has_column df_proy "nombre_proyecto" = true ->
      exists c,
        calculate_model_confidence df_cal df_proy = Ok c
        /\ num_quality_records c = len df_cal
        /\ (0 <= num_projects c <= len df_proy)%Z
        /\ 50 # 100 <= score c /\ score c <= 95 # 100)
  /\ (forall c c',
         calculate_model_confidence df_cal df_proy = Ok c ->
         calculate_model_confidence df_cal' df_proy' = Ok c' ->
         (num_projects c <= num_projects c')%Z ->
         (num_quality_records c <= num_quality_records c')%Z ->
         score c <= score c').
Proof.
  split; [| split].
  - intros e H. unfold calculate_model_confidence in H.
    destruct (series df_proy "nombre_proyecto") as [names |] eqn:Es.
    + cbn [bind] in H.
      destruct ((Kpi.nunique names >=? 100) && (len df_cal >=? 1000))%Z;
        [discriminate H |].
      destruct ((Kpi.nunique names >=? 50) && (len df_cal >=? 500))%Z;
        [discriminate H |].
      destruct ((Kpi.nunique names >=? 20) && (len df_cal >=? 200))%Z;
        discriminate H.
    + simpl in H. inversion H; subst. apply KpiExtra.series_raise, Es.
  - intro Hc. unfold calculate_model_confidence.
    destruct (KpiFacts.series_defined _ _ Hc) as [names Hn]. rewrite Hn.
    cbn [bind].
    pose proof (nunique_bounds names) as Hu.
    apply KpiExtra.series_ok in Hn.
    assert (Hl : List.length names = List.length (rows df_proy))
      by (rewrite Hn; apply length_map).
    destruct ((Kpi.nunique names >=? 100) && (len df_cal >=? 1000))%Z;
      [| destruct ((Kpi.nunique names >=? 50) && (len df_cal >=? 500))%Z;
         [| destruct ((Kpi.nunique names >=? 20) && (len df_cal >=? 200))%Z]];
      eexists; (split; [reflexivity |]); cbn [num_quality_records num_projects score];
      (split; [reflexivity |]); (split; [unfold len; lia |]);
      split; discriminate.
  - intros c c' H H'. unfold calculate_model_confidence in H, H'.
    destruct (series df_proy "nombre_proyecto") as [names |]; [| discriminate H].
    destruct (series df_proy' "nombre_proyecto") as [names' |];
      [| discriminate H'].
    cbn [bind] in H, H'.
    destruct ((Kpi.nunique names >=? 100) && (len df_cal >=? 1000))%Z eqn:A1;
      [| destruct ((Kpi.nunique names >=? 50) && (len df_cal >=? 500))%Z eqn:A2;
         [| destruct ((Kpi.nunique names >=? 20) && (len df_cal >=? 200))%Z eqn:A3]];
      (destruct ((Kpi.nunique names' >=? 100) && (len df_cal' >=? 1000))%Z eqn:B1;
       [| destruct ((Kpi.nunique names' >=? 50) && (len df_cal' >=? 500))%Z eqn:B2;
          [| destruct ((Kpi.nunique names' >=? 20) && (len df_cal' >=? 200))%Z eqn:B3]]);
      inversion H; inversion H'; subst c c';
      cbn [num_quality_records num_projects score];
      intros Hp Hq; unfold Qle; simpl; lia.
Qed.

Lemma model_confidence_monotone_witness :
  exists c c',
    calculate_model_confidence no_quality no_projects = Ok c
    /\ calculate_model_confidence sample_quality two_projects = Ok c'
    /\ score c <= score c'.
Proof.
  destruct (proj1 (proj2 (model_confidence_monotone
                            no_quality no_projects sample_quality two_projects))
                  eq_refl) as [c [E [Hq [Hp _]]]].
  destruct (proj1 (proj2 (model_confidence_monotone
                            sample_quality two_projects no_quality no_projects))
                  eq_refl) as [c' [E' [Hq' [Hp' _]]]].
  exists c, c'. split; [exact E |]. split; [exact E' |].
  apply (proj2 (proj2 (model_confidence_monotone
                         no_quality no_projects sample_quality two_projects))
               c c' E E').
  - unfold len in Hp, Hp'. simpl in Hp, Hp'. lia.
  - rewrite Hq, Hq'. unfold len. simpl. lia.
Defined.

End RayleighDataExtra.

(** ** The curve, the prediction page and the calibration *)

Module RayleighRealExtra.
Import Py Olap RayleighReal RealSpec Samples.
Import Stdlib.Reals.Reals Stdlib.Reals.Qreals Lra.
Local Open Scope R_scope.

Lemma fold_Rmax_ge_init (l : list R) :
  forall d, d <= fold_left Rmax l d.
Proof.
  induction l as [| x l IH]; intro d; [simpl; lra |].
  simpl. apply Rle_trans with (Rmax d x); [apply Rmax_l | apply IH].
Qed.

Lemma fold_Rmax_ge (l : list R) :
  forall d x, In x (d :: l) -> x <= fold_left Rmax l d.
Proof.
  induction l as [| y l IH]; intros d x Hx.
  - destruct Hx as [<- | []]. simpl. lra.
  - simpl. destruct Hx as [Hx | [Hx | Hx]].
    + subst x.
      apply Rle_trans with (Rmax d y); [apply Rmax_l | apply fold_Rmax_ge_init].
    + subst x.
      apply Rle_trans with (Rmax d y); [apply Rmax_r | apply fold_Rmax_ge_init].
    + apply IH. right. exact Hx.
Qed.

Lemma fold_Rmax_in (l : list R) :
  forall d, In (fold_left Rmax l d) (d :: l).
Proof.
  induction l as [| y l IH]; intro d; [left; reflexivity |].
  simpl. destruct (IH (Rmax d y)) as [H | H].
  - unfold Rmax in H at 1. destruct (Rle_dec d y).
    + right. left. exact H.
    + left. exact H.
  - right. right. exact H.
Qed.

Lemma cumsum_from_length (l : list R) :
  forall acc, List.length (cumsum_from acc l) = List.length l.
Proof.
  induction l as [| x l IH]; intro acc; [reflexivity |].
  simpl. rewrite IH. reflexivity.
Qed.

Lemma cumsum_from_last (l : list R) :
  forall acc x dflt,
    last (cumsum_from acc (x :: l)) dflt = acc + Rsum (x :: l).
Proof.
  induction l as [| y l IH]; intros acc x dflt.
  - simpl. lra.
  - change (cumsum_from acc (x :: y :: l))
      with ((acc + x) :: cumsum_from (acc + x) (y :: l)).
    change (last ((acc + x) :: cumsum_from (acc + x) (y :: l)) dflt)
      with (last (cumsum_from (acc + x) (y :: l)) dflt).
    rewrite IH. simpl. lra.
Qed.

Lemma linspace0_length (stop : R) (num : nat) :
  List.length (linspace0 stop num) = num.
Proof. unfold linspace0. rewrite length_map, length_seq. reflexivity. Qed.

(** X22. Whatever the arguments, a curve that is returned has at least one
    point and five arrays of [duration_days] values; its first time is 0;
    [peak_value] is a value of [defects_per_day] and no value exceeds it;
    the last cumulative value is the sum of [defects_per_day]; the lower
    bound is never negative; the margin is 30% from confidence 0.95 on and
    20% below; and [peak_day] is the sigma that was used. *)
Theorem curve_arrays (total : R) (duration_days : nat) (sg : option R)
        (cl : R) (c : curve)
        (Hc : generate_rayleigh_curve total duration_days sg cl = Ok c) :
  (1 <= duration_days)%nat
  /\ List.length (time c) = duration_days
  /\ List.length (defects_per_day c) = duration_days
  /\ List.length (cumulative_defects c) = duration_days
  /\ List.length (upper_bound c) = duration_days
  /\ List.length (lower_bound c) = duration_days
  /\ hd 1 (time c) = 0
  /\ In (peak_value c) (defects_per_day c)
  /\ Forall (fun d => d <= peak_value c) (defects_per_day c)
  /\ last (cumulative_defects c) 0 = Rsum (defects_per_day c)
  /\ Forall (fun d => 0 <= d) (lower_bound c)
  /\ upper_bound c
     = map (fun d => d * (if Rle_dec (95 / 100) cl then 13 / 10 else 12 / 10))
           (defects_per_day c)
  /\ peak_day c = RayleighReal.sigma c
  /\ RayleighReal.sigma c = match sg with
               | Some s => s
               | None => INR duration_days * (4 / 10)
               end.
Proof.
  unfold generate_rayleigh_curve in Hc.
  remember (linspace0 (INR duration_days) duration_days) as tm eqn:Etm.
  remember (match sg with
            | Some s => s
            | None => INR duration_days * (4 / 10)
            end) as s eqn:Es.
  remember (map (rayleigh_pdf s) tm) as pdf eqn:Epdf.
  remember (if Rlt_dec 0 (trapz pdf tm)
            then map (fun p => p * (total / trapz pdf tm)) pdf
            else map (fun _ => 0) tm) as dpd eqn:Edpd.
  assert (Htm : List.length tm = duration_days)
    by (rewrite Etm; apply linspace0_length).
  assert (Hd : List.length dpd = duration_days).
  { rewrite Edpd. destruct (Rlt_dec 0 (trapz pdf tm));
      rewrite ?Epdf, !length_map; exact Htm. }
  destruct dpd as [| d ds]; [discriminate Hc |].
  injection Hc as <-.
  cbn [time defects_per_day cumulative_defects upper_bound lower_bound
       peak_day peak_value RayleighReal.sigma].
  split; [simpl in Hd; lia |].
  split; [exact Htm |].
  split; [exact Hd |].
  split; [unfold cumsum; rewrite cumsum_from_length; exact Hd |].
  split; [cbn [List.length]; rewrite length_map; exact Hd |].
  split; [cbn [List.length]; rewrite !length_map; exact Hd |].
  split.
  { rewrite Etm. destruct duration_days as [| n]; [discriminate Hd |].
    unfold linspace0. cbn [seq map hd]. simpl INR at 1. lra. }
  split; [apply fold_Rmax_in |].
  split.
  { apply Forall_forall. intros x Hx. apply fold_Rmax_ge. exact Hx. }
  split.
  { unfold cumsum. rewrite cumsum_from_last. lra. }
  split.
  { apply Forall_forall. intros x [<- | Hx]; [apply Rmax_r |].
    apply in_map_iff in Hx. destruct Hx as [y [<- _]]. apply Rmax_r. }
  split.
  { cbn [map]. f_equal.
    - destruct (Rle_dec (95 / 100) cl); lra.
    - apply map_ext. intro a. destruct (Rle_dec (95 / 100) cl); lra. }
  split; reflexivity.
Qed.

Lemma curve_arrays_witness :
  exists c,
    generate_rayleigh_curve 100 2 (Some 1) (95 / 100) = Ok c
    /\ In (peak_value c) (defects_per_day c).
Proof.
  destruct (RayleighRealFacts.generate_rayleigh_curve_sound 100 0 1 (95 / 100))
    as [c [E _]]; [lra | lra |].
  exists c. split; [exact E |].
  apply (curve_arrays 100 2 (Some 1) (95 / 100) c E).
Defined.

(** X23. A duration of zero days makes [np.max] raise [ValueError] on the
    empty array, whatever the other arguments.  A duration of one day is
    answered with a single point at time 0 that carries no defect at all:
    the requested total is lost. *)
Theorem curve_short_durations (total : R) (sg : option R) (cl : R) :
  generate_rayleigh_curve total 0 sg cl
  = Raise (ValueError
             "zero-size array to reduction operation maximum which has no identity")
  /\ exists c,
      generate_rayleigh_curve total 1 sg cl = Ok c
      /\ time c = [0]
      /\ defects_per_day c = [0]
      /\ cumulative_defects c = [0]
      /\ upper_bound c = [0]
      /\ lower_bound c = [0]
      /\ peak_value c = 0
      /\ trapz (defects_per_day c) (time c) = 0.
Proof.
  split.
  - unfold generate_rayleigh_curve, linspace0. cbn [seq map trapz].
    destruct (Rlt_dec 0 0); reflexivity.
  - unfold generate_rayleigh_curve, linspace0. cbn [seq map trapz].
    destruct (Rlt_dec 0 0) as [H | _]; [lra |].
    eexists. split; [reflexivity |].
    cbn [time defects_per_day cumulative_defects upper_bound lower_bound
         peak_value fold_left map cumsum cumsum_from trapz].
    split; [f_equal; simpl; lra |].
    split; [reflexivity |].
    split; [f_equal; lra |].
    split; [f_equal; lra |].
    split; [| split; reflexivity].
    f_equal. rewrite Rmult_0_l. apply Rmax_left. lra.
Qed.

(** The curve over at least two days with a non-zero sigma, with what the
    source computes on the way: the integral of the density over the grid
    is positive, so the density is rescaled by [total / integral]. *)
Lemma curve_scaled (total : R) (n : nat) (sg cl : R) :
  sg <> 0 ->
  let D := S (S n) in
  let tm := linspace0 (INR D) D in
  let integral := trapz (map (rayleigh_pdf sg) tm) tm in
  0 < integral
  /\ exists c d ds,
      generate_rayleigh_curve total D (Some sg) cl = Ok c
      /\ time c = tm
      /\ defects_per_day c
         = map (fun t => rayleigh_pdf sg t * (total / integral)) tm
      /\ defects_per_day c = d :: ds
      /\ peak_value c = fold_left Rmax ds d
      /\ peak_day c = sg
      /\ lower_bound c
         = map (fun d =>
                  Rmax (d * (1 - (if Rle_dec (95 / 100) cl
                                  then 30 / 100 else 20 / 100))) 0)
               (defects_per_day c).
Proof.
  intros Hs D tm integral.
  assert (HD : 0 < INR D) by (apply lt_0_INR; unfold D; lia).
  assert (HD1 : 0 < INR (D - 1)) by (apply lt_0_INR; unfold D; lia).
  assert (Hh : 0 < INR D / INR (D - 1)) by (apply Rdiv_lt_0_compat; assumption).
  assert (HI : 0 < integral).
  { unfold integral, tm. rewrite RayleighRealFacts.linspace0_is_grid.
    unfold D at 2 4.
    apply RayleighRealFacts.trapz_grid_pos.
    - apply Rlt_le, Hh.
    - intros t Ht0. apply RayleighRealFacts.rayleigh_pdf_nonneg; assumption.
    - exact Hh.
    - apply RayleighRealFacts.rayleigh_pdf_pos; assumption. }
  split; [exact HI |].
  unfold generate_rayleigh_curve. fold D. fold tm. fold integral.
  destruct (Rlt_dec 0 integral) as [_ | Hn]; [| contradiction].
  rewrite map_map.
  remember (map (fun t => rayleigh_pdf sg t * (total / integral)) tm)
    as dpd eqn:Edpd.
  assert (Hlen : List.length dpd = D)
    by (rewrite Edpd, length_map; apply linspace0_length).
  destruct dpd as [| d ds]; [discriminate Hlen |].
  eexists. exists d, ds. split; [reflexivity |].
  cbn [time defects_per_day peak_value peak_day lower_bound].
  rewrite map_map.
  repeat split; reflexivity.
Qed.

Lemma default_sigma_explicit (total : R) (D : nat) (cl : R) :
  generate_rayleigh_curve total D None cl
  = generate_rayleigh_curve total D (Some (INR D * (4 / 10))) cl.
Proof. reflexivity. Qed.

Lemma linspace0_two (stop : R) (n : nat) :
  linspace0 stop (S (S n))
  = 0 :: stop / INR (S n)
      :: map (fun i => INR i * (stop / INR (S n))) (seq 2 n).
Proof.
  unfold linspace0. cbn [seq map]. replace (S (S n) - 1)%nat with (S n) by lia.
  f_equal; [simpl; lra |]. f_equal. simpl INR at 1. lra.
Qed.

Lemma rayleigh_pdf_0 (sg : R) : rayleigh_pdf sg 0 = 0.
Proof. unfold rayleigh_pdf, Rdiv. rewrite Rmult_0_l, Rmult_0_l. reflexivity. Qed.

(** A positive total gives a positive peak value. *)
Lemma peak_value_pos (total : R) (n : nat) (sg cl : R) (c : curve) :
  sg <> 0 -> 0 < total ->
  generate_rayleigh_curve total (S (S n)) (Some sg) cl = Ok c ->
  0 < peak_value c.
Proof.
  intros Hs Ht Hc.
  destruct (curve_scaled total n sg cl Hs)
    as [HI [c0 [d [ds [Hc0 [_ [Hdpd [Hcons [Hpeak _]]]]]]]]].
  rewrite Hc in Hc0. injection Hc0 as <-.
  set (D := S (S n)) in *.
  set (tm := linspace0 (INR D) D) in *.
  set (I := trapz (map (rayleigh_pdf sg) tm) tm) in *.
  assert (HD : 0 < INR D) by (apply lt_0_INR; unfold D; lia).
  assert (HD1 : 0 < INR (S n)) by (apply lt_0_INR; lia).
  assert (Hh : 0 < INR D / INR (S n)) by (apply Rdiv_lt_0_compat; assumption).
  rewrite Hpeak.
  assert (Hin : In (rayleigh_pdf sg (INR D / INR (S n)) * (total / I)) (d :: ds)).
  { rewrite <- Hcons, Hdpd. apply in_map_iff.
    exists (INR D / INR (S n)). split; [reflexivity |].
    unfold tm, D. rewrite linspace0_two. right. left. reflexivity. }
  apply Rlt_le_trans with (rayleigh_pdf sg (INR D / INR (S n)) * (total / I));
    [| apply fold_Rmax_ge; exact Hin].
  apply Rmult_lt_0_compat.
  - apply RayleighRealFacts.rayleigh_pdf_pos; assumption.
  - apply Rdiv_lt_0_compat; assumption.
Qed.



(** *** The prediction page *)

Lemma Q2R_inject_Z (z : Z) : Q2R (inject_Z z) = IZR z.
Proof. unfold Q2R. simpl. field. Qed.

Lemma qa_engineers_ge_1 (defects : Q) (months : Z) :
  months <> 0%Z ->
  exists q,
    Rayleigh.recommend_qa_resources defects months = Ok q
    /\ (1 <= Rayleigh.qa_engineers q)%Z.
Proof.
  intro Hm.
  destruct (RayleighExtra.recommend_qa_engineers defects months Hm)
    as [q [Hq Heng]].
  exists q. split; [exact Hq |]. rewrite Heng.
  change 1%Z with (Qceiling (inject_Z 1)).
  apply Qceiling_resp_le. apply Q.le_max_r.
Qed.



(** *** calibrate_rayleigh_sigma *)

Lemma series_missing (df : DataFrame) (name : string) :
  has_column df name = false -> series df name = Raise (KeyError name).
Proof.
  intro H. destruct (series df name) as [s | e] eqn:E.
  - exfalso. unfold series, col_index, has_column in *.
    destruct (index_of name (column_names df)) as [i |] eqn:Ei;
      [| discriminate E].
    clear E. revert i Ei H. generalize (column_names df) as l.
    induction l as [| x l IH]; intros i Ei H; [discriminate Ei |].
    simpl in Ei, H. destruct (String.eqb name x); [discriminate H |].
    simpl in H. destruct (index_of name l) as [j |]; [| discriminate Ei].
    apply (IH j); [reflexivity | exact H].
  - destruct (KpiExtra.series_raise df name e E) as [-> _]. reflexivity.
Qed.

Lemma dtype_has_column (df : DataFrame) (name : string) (d : dtype) :
  col_dtype df name = Some d -> has_column df name = true.
Proof.
  unfold col_dtype, has_column, column_names, mem.
  induction (columns df) as [| [k v] l IH]; simpl; [discriminate |].
  destruct (String.eqb name k); [reflexivity |]. exact IH.
Qed.

Lemma Rsum_group_totals (df : DataFrame) (col : string) (gs : list group) :
  Rsum (map (fun p : cell * Q => Q2R (snd p))
            (map (fun g : group =>
                    (hd CNull (fst g),
                     sum_cells (map (cell_of df col) (snd g)))) gs))
  = Q2R (Spec.total_groups (Spec.weight df col) gs).
Proof.
  induction gs as [| g gs IH].
  - simpl. unfold Q2R. simpl. lra.
  - cbn [map Rsum fold_right Spec.total_groups snd]. fold (Rsum).
    unfold Rsum in IH. rewrite IH. rewrite Q2R_plus.
    rewrite OlapFacts.sum_cells_total_rows. reflexivity.
Qed.

(** X26. [calibrate_rayleigh_sigma] raises [KeyError] when the quality
    frame lacks the project or the defect column.  With the project column
    and a numeric defect column it returns, and falls back to the
    low-confidence defaults exactly when every record lacks a project
    name, which covers the frame without rows.  With a single project the standard deviation it reports is NaN;
    from two projects on it is a non-negative number.  When every record
    names its project, the reported average is the total number of
    defects divided by the number of projects. *)
Theorem calibrate_history (df_cal df_proy : DataFrame) :
  let projects := groupby df_cal ["nombre_proyecto"] in
  (has_column df_cal "nombre_proyecto" = false ->
   calibrate_rayleigh_sigma df_cal df_proy
   = Raise (KeyError "nombre_proyecto"))
  /\ (has_column df_cal "nombre_proyecto" = true ->
      has_column df_cal "cantidad_defectos_encontrados" = false ->
      exists k, calibrate_rayleigh_sigma df_cal df_proy = Raise (KeyError k))
  /\ (has_column df_cal "nombre_proyecto" = true ->
      col_dtype df_cal "cantidad_defectos_encontrados" = Some Numeric ->
      exists d,
        calibrate_rayleigh_sigma df_cal df_proy = Ok d
        /\ (dict_get d "confidence" = Some (Fin (5 / 10))
            <-> Forall (fun r => cell_of df_cal "nombre_proyecto" r = CNull)
                       (rows df_cal))
        /\ (List.length projects = 1%nat ->
            dict_get d "std_historical_defects" = Some NaN)
        /\ ((2 <= List.length projects)%nat ->
            exists s,
              dict_get d "std_historical_defects" = Some (Fin s) /\ 0 <= s)
        /\ (Spec.keys_present df_cal ["nombre_proyecto"] = true ->
            rows df_cal <> [] ->
            dict_get d "avg_historical_defects"
            = Some (Fin (Q2R (column_sum df_cal "cantidad_defectos_encontrados")
                         / INR (List.length projects))))).
Proof.
  intro projects.
  split; [| split].
  - intro H. unfold calibrate_rayleigh_sigma, project_defects.
    rewrite (series_missing _ _ H). reflexivity.
  - intros H1 H2. unfold calibrate_rayleigh_sigma, project_defects.
    destruct (KpiFacts.series_defined _ _ H1) as [s ->].
    rewrite (series_missing _ _ H2). cbn [bind]. eexists. reflexivity.
  - intros H1 Hd.
    pose proof (dtype_has_column _ _ _ Hd) as H2.
    unfold calibrate_rayleigh_sigma, project_defects.
    destruct (KpiFacts.series_defined _ _ H1) as [s1 ->].
    destruct (KpiFacts.series_defined _ _ H2) as [s2 ->].
    cbn [bind]. unfold grouped_sums. fold projects.
    assert (Hnil : projects = []
                   <-> Forall (fun r => cell_of df_cal "nombre_proyecto" r = CNull)
                              (rows df_cal)).
    { unfold projects. rewrite OlapFacts.groupby_is_fold, OlapExtra.groupby_fold_nil.
      split.
      - intros [_ Hf]. revert Hf. apply Forall_impl. intros r Hr.
        unfold key_of in Hr. cbn [map existsb] in Hr.
        destruct (cell_of df_cal "nombre_proyecto" r);
          try discriminate Hr; reflexivity.
      - intro Hf. split; [reflexivity |]. revert Hf. apply Forall_impl.
        intros r Hr. unfold key_of. cbn [map existsb]. rewrite Hr.
        reflexivity. }
    destruct projects as [| g gs] eqn:Ep.
    + eexists. split; [reflexivity |]. cbn [map dict_get String.eqb].
      split; [| split; [| split]].
      * split; [intros _; apply Hnil; reflexivity | reflexivity].
      * intro H. discriminate H.
      * intro H. simpl in H. lia.
      * intros Hk Hrows. exfalso.
        destruct (rows df_cal) as [| r rs] eqn:Er; [apply Hrows; reflexivity |].
        assert (Hall : Forall
                         (fun r => cell_of df_cal "nombre_proyecto" r = CNull)
                         (r :: rs)) by (apply Hnil; reflexivity).
        unfold Spec.keys_present in Hk. rewrite Er in Hk.
        cbn [forallb] in Hk. apply andb_true_iff in Hk. destruct Hk as [Hk _].
        inversion Hall as [| ? ? Hr _]; subst.
        unfold key_of in Hk. cbn [map existsb] in Hk. rewrite Hr in Hk.
        discriminate Hk.
    + eexists. split; [reflexivity |].
      split; [| split; [| split]].
      * split.
        -- intro H. exfalso. simpl in H. injection H as H. lra.
        -- intro H. apply Hnil in H. discriminate H.
      * intro H. destruct gs; [reflexivity | discriminate H].
      * intro H. destruct gs as [| g' gs']; [simpl in H; lia |].
        eexists. split; [reflexivity |]. apply sqrt_pos.
      * intros Hk Hrows.
        cbn [dict_get String.eqb Ascii.eqb Bool.eqb andb].
        set (totals := map (fun p : cell * Q => Q2R (snd p)) _).
        assert (Hmean : mean totals = Fin (Rsum totals / nR totals))
          by reflexivity.
        rewrite Hmean. do 2 f_equal.
        assert (Hn : nR totals = INR (List.length (g :: gs)))
          by (unfold nR, totals; rewrite !length_map; reflexivity).
        rewrite Hn. f_equal.
        unfold totals. rewrite Rsum_group_totals. apply Qeq_eqR.
        rewrite <- Ep. unfold projects.
        rewrite OlapFacts.groupby_is_fold.
        rewrite (OlapFacts.total_fold_step _ _ _ _ [] Hk).
        unfold column_sum. rewrite OlapFacts.sum_cells_total_rows.
        simpl. ring.
Qed.

Lemma calibrate_history_witness :
  exists d,
    calibrate_rayleigh_sigma sample_quality no_projects = Ok d
    /\ dict_get d "avg_historical_defects" = Some (Fin (Q2R 9 / INR 2)).
Proof.
  assert (H1 : has_column sample_quality "nombre_proyecto" = true)
    by reflexivity.
  assert (H2 : col_dtype sample_quality "cantidad_defectos_encontrados"
               = Some Numeric) by reflexivity.
  assert (Hk : Spec.keys_present sample_quality ["nombre_proyecto"] = true)
    by reflexivity.
  assert (Hr : rows sample_quality <> []) by discriminate.
  destruct (proj2 (proj2 (calibrate_history sample_quality no_projects)) H1 H2)
    as [d [E [_ [_ [_ Havg]]]]].
  exists d. split; [exact E | exact (Havg Hk Hr)].
Defined.

End RayleighRealExtra.
